(** * Crypto portfolio dashboard: the stores, the metrics and the list window

    A shallow embedding of the client-side state containers of the dashboard
    (the portfolio store and the market store), of the aggregate
    [calculateMetrics], and of the windowing and sorting logic of the
    virtualized positions list, with the properties the specification states
    about them.

    JavaScript numbers are IEEE 754 binary64 values; they are modelled by
    Rocq's primitive floats, whose operations are the same binary64
    operations (round to nearest, ties to even).  Strings are modelled by
    [string] (one-byte characters); case conversion is the ASCII one. *)

From Stdlib Require Import Floats ZArith List Bool Lia Ascii String.
From stdpp Require Import base option list strings gmap.

Import ListNotations.
Local Open Scope Z_scope.

(** ** JavaScript values and built-ins used by the code *)

Module JS.

Definition number := float.

(** [Number.isNaN]: NaN is the only number different from itself. *)
Definition isNaN (x : number) : bool := negb (PrimFloat.eqb x x).

(** [ToBoolean] on a number: [0], [-0] and [NaN] are falsy. *)
Definition truthy (x : number) : bool :=
  negb (isNaN x || PrimFloat.eqb x 0%float).

(** [a || b] on numbers. *)
Definition or_else (a b : number) : number := if truthy a then a else b.

(** [a > b] and [a < b]. *)
Definition gt (a b : number) : bool := PrimFloat.ltb b a.
Definition lt (a b : number) : bool := PrimFloat.ltb a b.

(** [Math.max(a, b)]: NaN if either is, and [+0] is larger than [-0]. *)
Definition Math_max (a b : number) : number :=
  if isNaN a || isNaN b then nan
  else if PrimFloat.ltb a b then b
  else if PrimFloat.ltb b a then a
  else match PrimFloat.classify a with
       | NZero => b
       | _ => a
       end.

(** [String.prototype.toUpperCase] and [toLowerCase] on ASCII letters. *)
Definition upper_ascii (c : ascii) : ascii :=
  let n := nat_of_ascii c in
  if ((97 <=? n) && (n <=? 122))%nat then ascii_of_nat (n - 32) else c.

Definition lower_ascii (c : ascii) : ascii :=
  let n := nat_of_ascii c in
  if ((65 <=? n) && (n <=? 90))%nat then ascii_of_nat (n + 32) else c.

Fixpoint map_string (f : ascii -> ascii) (s : string) : string :=
  match s with
  | EmptyString => EmptyString
  | String c r => String (f c) (map_string f r)
  end.

Definition toUpperCase : string -> string := map_string upper_ascii.
Definition toLowerCase : string -> string := map_string lower_ascii.

(** [s.includes(sub)]: [sub] occurs in [s] at some offset. *)
Fixpoint includes (s sub : string) : bool :=
  String.prefix sub s
  || match s with
     | EmptyString => false
     | String _ r => includes r sub
     end.

(** A string used as a condition: the empty string is falsy. *)
Definition or_else_string (a b : string) : string :=
  match a with EmptyString => b | _ => a end.

(** The sign of the number a comparator returns; [NaN] counts as [0]. *)
Definition sign (v : number) : comparison :=
  if PrimFloat.ltb v 0%float then Lt
  else if PrimFloat.ltb 0%float v then Gt
  else Eq.

(** [Array.prototype.sort]: a stable sort.  For a consistent comparator
    the result is determined by the language definition (elements that
    compare equal keep their order); it is computed here by insertion,
    from the right. *)
Section Sort.
Context {A : Type}.
Variable order : A -> A -> comparison.

Fixpoint insert (x : A) (s : list A) : list A :=
  match s with
  | [] => [x]
  | y :: rest =>
      match order x y with
      | Gt => y :: insert x rest
      | _ => x :: s
      end
  end.

Definition sort_by (l : list A) : list A := fold_right insert [] l.

(** Neighbours are in order: no element is after its successor. *)
Fixpoint ascending (s : list A) : Prop :=
  match s with
  | [] => True
  | x :: rest =>
      match rest with
      | [] => True
      | y :: _ => order x y <> Gt
      end /\ ascending rest
  end.

(** Strictly increasing lists: every element is before all later ones. *)
Fixpoint increasing (s : list A) : Prop :=
  match s with
  | [] => True
  | x :: rest => Forall (fun y => order x y = Lt) rest /\ increasing rest
  end.

(** No two entries of the list compare equal. *)
Fixpoint no_ties (l : list A) : Prop :=
  match l with
  | [] => True
  | x :: rest => Forall (fun y => order x y <> Eq) rest /\ no_ties rest
  end.
End Sort.

Definition sort {A : Type} (comparefn : A -> A -> number) (l : list A)
  : list A :=
  sort_by (fun a b => sign (comparefn a b)) l.

(** Numbers that are integers, as array indices and row counts are:
    a mathematical integer, an infinity or [NaN].  Sums of indices are
    exact on doubles below 2^53, far above any array length. *)
Inductive integral :=
| Int (z : Z)
| PosInf
| NegInf
| NotANumber.

(** [Math.floor] and [Math.ceil]: a finite double is [±m·2^e]. *)
Definition Math_floor (x : number) : integral :=
  match Prim2SF x with
  | S754_zero _ => Int 0
  | S754_infinity false => PosInf
  | S754_infinity true => NegInf
  | S754_nan => NotANumber
  | S754_finite s m e => Int (Z.shiftl (cond_Zopp s (Zpos m)) e)
  end.

Definition Math_ceil (x : number) : integral :=
  match Prim2SF x with
  | S754_zero _ => Int 0
  | S754_infinity false => PosInf
  | S754_infinity true => NegInf
  | S754_nan => NotANumber
  | S754_finite s m e => Int (- Z.shiftl (cond_Zopp (negb s) (Zpos m)) e)
  end.

(** [a + b] and [Math.min(a, b)] on such numbers. *)
Definition plus (a b : integral) : integral :=
  match a, b with
  | NotANumber, _ | _, NotANumber => NotANumber
  | PosInf, NegInf | NegInf, PosInf => NotANumber
  | PosInf, _ | _, PosInf => PosInf
  | NegInf, _ | _, NegInf => NegInf
  | Int x, Int y => Int (x + y)
  end.

Definition Math_min (a b : integral) : integral :=
  match a, b with
  | NotANumber, _ | _, NotANumber => NotANumber
  | NegInf, _ | _, NegInf => NegInf
  | PosInf, c | c, PosInf => c
  | Int x, Int y => Int (Z.min x y)
  end.

(** [items.length]. *)
Definition length_of {A : Type} (items : list A) : integral :=
  Int (Z.of_nat (length items)).

(** The position inside an array of length [len] that [slice] gives to an
    argument: [NaN] reads as 0, a negative index counts from the end, and
    the result is clamped to [0..len]. *)
Definition relative (len : Z) (i : integral) : Z :=
  match i with
  | NotANumber => 0
  | NegInf => 0
  | PosInf => len
  | Int z => if z <? 0 then Z.max (len + z) 0 else Z.min z len
  end.

(** [items.slice(start, end)]. *)
Definition slice {A : Type} (items : list A) (start end_ : integral)
  : list A :=
  let len := Z.of_nat (length items) in
  let k := relative len start in
  let final := relative len end_ in
  firstn (Z.to_nat (final - k)) (skipn (Z.to_nat k) items).

(** [a >= b] and [a <= b]. *)
Definition ge (a b : number) : bool := PrimFloat.leb b a.
Definition le (a b : number) : bool := PrimFloat.leb a b.

(** [a !== b] on numbers. *)
Definition differs (a b : number) : bool := negb (PrimFloat.eqb a b).

(** [Math.min(a, b)] on numbers: NaN if either is, and [-0] is smaller
    than [+0]. *)
Definition Math_min_number (a b : number) : number :=
  if isNaN a || isNaN b then nan
  else if PrimFloat.ltb a b then a
  else if PrimFloat.ltb b a then b
  else match PrimFloat.classify a with
       | PZero => b
       | _ => a
       end.

(** [Math.max(...xs)] and [Math.min(...xs)]. *)
Definition Math_max_of (xs : list number) : number :=
  fold_left Math_max xs neg_infinity.
Definition Math_min_of (xs : list number) : number :=
  fold_left Math_min_number xs infinity.

(** [Math.abs]. *)
Definition Math_abs (x : number) : number := PrimFloat.abs x.

(** [Math.pow(2, n)] for an integer [n]. *)
Definition pow2 (n : Z) : number := Z.ldexp 1%float n.

(** A cell of an array of numbers that may hold [null], and its value in
    arithmetic: [null] counts as 0, and reading outside the array gives
    [undefined], which counts as NaN. *)
Definition cell := option number.
Definition number_of_cell (c : option cell) : number :=
  match c with
  | Some (Some x) => x
  | Some None => 0%float
  | None => nan
  end.

(** [o[key]] on an object used as a map from strings to numbers.  The read
    takes the object's own entry when there is one and otherwise walks up
    to [Object.prototype], whose members are functions (for [__proto__],
    the prototype object itself); a key found nowhere reads [undefined]. *)
Definition prototypeMembers : list string :=
  ["constructor"; "hasOwnProperty"; "isPrototypeOf"; "propertyIsEnumerable";
   "toLocaleString"; "toString"; "valueOf"; "__proto__";
   "__defineGetter__"; "__defineSetter__"; "__lookupGetter__";
   "__lookupSetter__"].

Definition isInherited (key : string) : bool :=
  existsb (String.eqb key) prototypeMembers.

Inductive property := own (value : number) | inherited | undefined.

Definition get (o : gmap string number) (key : string) : property :=
  match o !! key with
  | Some value => own value
  | None => if isInherited key then inherited else undefined
  end.

(** What was read, as a condition: a function and an object are truthy,
    [undefined] is not. *)
Definition truthy_property (p : property) : bool :=
  match p with
  | own value => truthy value
  | inherited => true
  | undefined => false
  end.

(** What was read, as arithmetic takes it: a function, an object and
    [undefined] all convert to NaN. *)
Definition number_of_property (p : property) : number :=
  match p with
  | own value => value
  | inherited | undefined => nan
  end.

(** A count kept in a number: it starts at 0 and only moves by [+= 1], so
    it is an integer that the number holds exactly; the addition is exact
    below 2^53 and rounds back to 2^53 there. *)
Definition count_succ (n : Z) : Z := Z.min (n + 1) (2 ^ 53).

(** [n >= x] and [n < x] for such a count and a number [x]: both are false
    when [x] is NaN, and otherwise an integer is below [x] exactly when it
    is below the least integer not below [x]. *)
Definition count_ge (n : Z) (x : number) : bool :=
  match Math_ceil x with
  | Int c => c <=? n
  | NegInf => true
  | PosInf | NotANumber => false
  end.

Definition count_lt (n : Z) (x : number) : bool :=
  match Math_ceil x with
  | Int c => n <? c
  | PosInf => true
  | NegInf | NotANumber => false
  end.

(** The number that holds a count. *)
Definition of_count (n : Z) : number :=
  SF2Prim (binary_normalize prec emax n 0 false).

End JS.

(** ** The portfolio store (store/portfolio.ts) *)

Module Position.
Record t := mk {
  id : string;
  symbol : string;
  name : string;
  amount : JS.number;
  currentPrice : JS.number;
  averageBuyPrice : JS.number;
  totalValue : JS.number;
  dailyChange : JS.number;
  dailyChangePercent : JS.number;
  totalGainLoss : JS.number;
  totalGainLossPercent : JS.number;
  lastUpdated : JS.number
}.

(** [Partial<Position>]: every property may be absent. *)
Record partial := mkPartial {
  id' : option string;
  symbol' : option string;
  name' : option string;
  amount' : option JS.number;
  currentPrice' : option JS.number;
  averageBuyPrice' : option JS.number;
  totalValue' : option JS.number;
  dailyChange' : option JS.number;
  dailyChangePercent' : option JS.number;
  totalGainLoss' : option JS.number;
  totalGainLossPercent' : option JS.number;
  lastUpdated' : option JS.number
}.

(** [Object.assign(p, updates, { lastUpdated: now })]. *)
Definition assign (p : t) (updates : partial) (now : JS.number) : t :=
  {| id := default (id p) (id' updates);
     symbol := default (symbol p) (symbol' updates);
     name := default (name p) (name' updates);
     amount := default (amount p) (amount' updates);
     currentPrice := default (currentPrice p) (currentPrice' updates);
     averageBuyPrice := default (averageBuyPrice p) (averageBuyPrice' updates);
     totalValue := default (totalValue p) (totalValue' updates);
     dailyChange := default (dailyChange p) (dailyChange' updates);
     dailyChangePercent :=
       default (dailyChangePercent p) (dailyChangePercent' updates);
     totalGainLoss := default (totalGainLoss p) (totalGainLoss' updates);
     totalGainLossPercent :=
       default (totalGainLossPercent p) (totalGainLossPercent' updates);
     lastUpdated := now |}.
End Position.

Inductive Side := buy | sell.
Inductive OrderType := market | limit | stop.
Inductive OrderStatus := pending | filled | cancelled | rejected.
Inductive ConnectionStatus := connected | disconnected | reconnecting.

Module Order.
Record t := mk {
  id : string;
  symbol : string;
  type : Side;
  orderType : OrderType;
  amount : JS.number;
  price : option JS.number;
  stopPrice : option JS.number;
  status : OrderStatus;
  timestamp : JS.number
}.

(** [Omit<Order, 'id' | 'timestamp'>], the argument of [addOrder]. *)
Record data := mkData {
  d_symbol : string;
  d_type : Side;
  d_orderType : OrderType;
  d_amount : JS.number;
  d_price : option JS.number;
  d_stopPrice : option JS.number;
  d_status : OrderStatus
}.

Record partial := mkPartial {
  id' : option string;
  symbol' : option string;
  type' : option Side;
  orderType' : option OrderType;
  amount' : option JS.number;
  price' : option (option JS.number);
  stopPrice' : option (option JS.number);
  status' : option OrderStatus;
  timestamp' : option JS.number
}.

Definition assign (o : t) (updates : partial) : t :=
  {| id := default (id o) (id' updates);
     symbol := default (symbol o) (symbol' updates);
     type := default (type o) (type' updates);
     orderType := default (orderType o) (orderType' updates);
     amount := default (amount o) (amount' updates);
     price := default (price o) (price' updates);
     stopPrice := default (stopPrice o) (stopPrice' updates);
     status := default (status o) (status' updates);
     timestamp := default (timestamp o) (timestamp' updates) |}.

Definition cancel (o : t) : t :=
  {| id := id o; symbol := symbol o; type := type o;
     orderType := orderType o; amount := amount o; price := price o;
     stopPrice := stopPrice o; status := cancelled;
     timestamp := timestamp o |}.
End Order.

Module Metrics.
Record t := mk {
  totalValue : JS.number;
  dailyChange : JS.number;
  dailyChangePercent : JS.number;
  totalAssets : nat;
  bestPerformer : string;
  worstPerformer : string;
  totalGainLoss : JS.number;
  totalGainLossPercent : JS.number
}.
End Metrics.

(** The argument of [optimisticTrade]. *)
Module Trade.
Record t := mk {
  symbol : string;
  amount : JS.number;
  price : JS.number;
  type : Side
}.
End Trade.

Module Portfolio.

Record State := mkState {
  positions : list Position.t;
  orders : list Order.t;
  metrics : Metrics.t;
  isLoading : bool;
  lastUpdated : JS.number;
  connectionStatus : ConnectionStatus
}.

(** [xs.reduce((sum, p) => sum + f(p), 0)]. *)
Definition sum_by (f : Position.t -> JS.number) (xs : list Position.t)
  : JS.number :=
  fold_left (fun sum p => (sum + f p)%float) xs 0%float.

(** [best?.dailyChangePercent || fallback]. *)
Definition percent_or (best : option Position.t) (fallback : JS.number)
  : JS.number :=
  match best with
  | Some b => JS.or_else (Position.dailyChangePercent b) fallback
  | None => fallback
  end.

(** [performer?.symbol.toUpperCase() || 'N/A']. *)
Definition label (performer : option Position.t) : string :=
  match performer with
  | Some p => JS.or_else_string (JS.toUpperCase (Position.symbol p)) "N/A"
  | None => "N/A"
  end.

Definition calculateMetrics (positions : list Position.t) : Metrics.t :=
  let totalValue := sum_by Position.totalValue positions in
  let dailyChange :=
    sum_by (fun p => (Position.dailyChange p * Position.amount p)%float)
           positions in
  let totalGainLoss := sum_by Position.totalGainLoss positions in
  let bestPerformer :=
    fold_left
      (fun best p =>
         if JS.gt (Position.dailyChangePercent p)
                  (percent_or best neg_infinity)
         then Some p else best)
      positions (head positions) in
  let worstPerformer :=
    fold_left
      (fun worst p =>
         if JS.lt (Position.dailyChangePercent p)
                  (percent_or worst infinity)
         then Some p else worst)
      positions (head positions) in
  {| Metrics.totalValue := totalValue;
     Metrics.dailyChange := dailyChange;
     Metrics.dailyChangePercent :=
       if JS.gt totalValue 0%float
       then ((dailyChange / totalValue) * 100)%float else 0%float;
     Metrics.totalAssets := length positions;
     Metrics.bestPerformer := label bestPerformer;
     Metrics.worstPerformer := label worstPerformer;
     Metrics.totalGainLoss := totalGainLoss;
     Metrics.totalGainLossPercent :=
       if JS.gt totalValue 0%float
       then ((totalGainLoss / (totalValue - totalGainLoss)) * 100)%float
       else 0%float |}.

(** The state the store is created with; [now] is the reading of the clock
    at creation. *)
Definition initial (now : JS.number) : State :=
  {| positions := [];
     orders := [];
     metrics :=
       {| Metrics.totalValue := 0%float;
          Metrics.dailyChange := 0%float;
          Metrics.dailyChangePercent := 0%float;
          Metrics.totalAssets := 0;
          Metrics.bestPerformer := "N/A";
          Metrics.worstPerformer := "N/A";
          Metrics.totalGainLoss := 0%float;
          Metrics.totalGainLossPercent := 0%float |};
     isLoading := false;
     lastUpdated := now;
     connectionStatus := disconnected |}.

(** Every action below is the body of a [set((state) => ...)] call: the
    mutations of the draft are written as the state they produce.  [now]
    stands for the readings of [Date.now()] made by the action. *)

Definition with_positions (st : State) (ps : list Position.t)
    (now : JS.number) : State :=
  {| positions := ps;
     orders := orders st;
     metrics := calculateMetrics ps;
     isLoading := isLoading st;
     lastUpdated := now;
     connectionStatus := connectionStatus st |}.

Definition stamp (position : Position.t) (now : JS.number) : Position.t :=
  Position.assign position
    (Position.mkPartial None None None None None None None None None None
                        None None) now.

Definition addPosition (position : Position.t) (now : JS.number)
    (st : State) : State :=
  with_positions st (positions st ++ [stamp position now]) now.

(** [positions.findIndex(p => p.id === id)]. *)
Fixpoint findIndex (id : string) (ps : list Position.t) : option nat :=
  match ps with
  | [] => None
  | p :: rest =>
      if String.eqb (Position.id p) id then Some O
      else S <$> findIndex id rest
  end.

Definition updatePosition (id : string) (updates : Position.partial)
    (now : JS.number) (st : State) : State :=
  match findIndex id (positions st) with
  | Some index =>
      with_positions st
        (alter (fun p => Position.assign p updates now) index (positions st))
        now
  | None => st
  end.

Definition removePosition (id : string) (now : JS.number) (st : State)
  : State :=
  with_positions st
    (List.filter (fun p => negb (String.eqb (Position.id p) id))
                 (positions st))
    now.

(** The body of the [forEach] of [updatePrices], for one position.  The
    guard and the new price are the property read
    [priceUpdates[position.symbol]].  For a symbol that is no key of the
    map but the name of a member of [Object.prototype] the read gives a
    function: the guard passes, and every figure computed from the new
    price is NaN.  [currentPrice] then holds the function itself, which the
    store only ever uses in arithmetic; it is kept here as the number that
    arithmetic takes it for, NaN. *)
Definition reprice (priceUpdates : gmap string JS.number) (now : JS.number)
    (position : Position.t) : Position.t :=
  let read := JS.get priceUpdates (Position.symbol position) in
  if JS.truthy_property read then
    let newPrice := JS.number_of_property read in
    let oldPrice := Position.currentPrice position in
    let amount := Position.amount position in
    let averageBuyPrice := Position.averageBuyPrice position in
    let totalValue := (amount * newPrice)%float in
    {| Position.id := Position.id position;
       Position.symbol := Position.symbol position;
       Position.name := Position.name position;
       Position.amount := amount;
       Position.currentPrice := newPrice;
       Position.averageBuyPrice := averageBuyPrice;
       Position.totalValue := totalValue;
       Position.dailyChange := (newPrice - oldPrice)%float;
       Position.dailyChangePercent :=
         (((newPrice - oldPrice) / oldPrice) * 100)%float;
       Position.totalGainLoss :=
         (totalValue - (amount * averageBuyPrice))%float;
       Position.totalGainLossPercent :=
         (((newPrice - averageBuyPrice) / averageBuyPrice) * 100)%float;
       Position.lastUpdated := now |}
  else position.

Definition updatePrices (priceUpdates : gmap string JS.number)
    (now : JS.number) (st : State) : State :=
  with_positions st (List.map (reprice priceUpdates now) (positions st)) now.

(** The two branches of [optimisticTrade] on the position found. *)
Definition applyBuy (trade : Trade.t) (now : JS.number)
    (position : Position.t) : Position.t :=
  let newAmount := (Position.amount position + Trade.amount trade)%float in
  let newAverageBuyPrice :=
    ((Position.amount position * Position.averageBuyPrice position
      + Trade.amount trade * Trade.price trade) / newAmount)%float in
  let totalValue := (newAmount * Position.currentPrice position)%float in
  {| Position.id := Position.id position;
     Position.symbol := Position.symbol position;
     Position.name := Position.name position;
     Position.amount := newAmount;
     Position.currentPrice := Position.currentPrice position;
     Position.averageBuyPrice := newAverageBuyPrice;
     Position.totalValue := totalValue;
     Position.dailyChange := Position.dailyChange position;
     Position.dailyChangePercent := Position.dailyChangePercent position;
     Position.totalGainLoss :=
       (totalValue - (newAmount * newAverageBuyPrice))%float;
     Position.totalGainLossPercent :=
       (((Position.currentPrice position - newAverageBuyPrice)
         / newAverageBuyPrice) * 100)%float;
     Position.lastUpdated := now |}.

Definition applySell (trade : Trade.t) (now : JS.number)
    (position : Position.t) : Position.t :=
  let newAmount :=
    JS.Math_max 0%float
      (Position.amount position - Trade.amount trade)%float in
  let totalValue := (newAmount * Position.currentPrice position)%float in
  {| Position.id := Position.id position;
     Position.symbol := Position.symbol position;
     Position.name := Position.name position;
     Position.amount := newAmount;
     Position.currentPrice := Position.currentPrice position;
     Position.averageBuyPrice := Position.averageBuyPrice position;
     Position.totalValue := totalValue;
     Position.dailyChange := Position.dailyChange position;
     Position.dailyChangePercent := Position.dailyChangePercent position;
     Position.totalGainLoss :=
       (totalValue
        - (newAmount * Position.averageBuyPrice position))%float;
     Position.totalGainLossPercent := Position.totalGainLossPercent position;
     Position.lastUpdated := now |}.

Definition applyTrade (trade : Trade.t) (now : JS.number)
    (position : Position.t) : Position.t :=
  match Trade.type trade with
  | buy => applyBuy trade now position
  | sell => applySell trade now position
  end.

(** [positions.find(p => p.symbol === trade.symbol)] followed by the
    mutation of the object found: the first match is replaced in place. *)
Fixpoint tradeFirst (trade : Trade.t) (now : JS.number)
    (ps : list Position.t) : list Position.t :=
  match ps with
  | [] => []
  | p :: rest =>
      if String.eqb (Position.symbol p) (Trade.symbol trade)
      then applyTrade trade now p :: rest
      else p :: tradeFirst trade now rest
  end.

Definition optimisticTrade (trade : Trade.t) (now : JS.number) (st : State)
  : State :=
  with_positions st (tradeFirst trade now (positions st)) now.

Definition recalculateMetrics (now : JS.number) (st : State) : State :=
  with_positions st (positions st) now.

Definition with_orders (st : State) (os : list Order.t) : State :=
  {| positions := positions st;
     orders := os;
     metrics := metrics st;
     isLoading := isLoading st;
     lastUpdated := lastUpdated st;
     connectionStatus := connectionStatus st |}.

(** [addOrder]: [id] is the identifier generated from the clock and
    [Math.random()]. *)
Definition addOrder (orderData : Order.data) (id : string)
    (now : JS.number) (st : State) : State :=
  with_orders st
    (orders st ++
     [ {| Order.id := id;
          Order.symbol := Order.d_symbol orderData;
          Order.type := Order.d_type orderData;
          Order.orderType := Order.d_orderType orderData;
          Order.amount := Order.d_amount orderData;
          Order.price := Order.d_price orderData;
          Order.stopPrice := Order.d_stopPrice orderData;
          Order.status := Order.d_status orderData;
          Order.timestamp := now |} ]).

Fixpoint alterFirstOrder (f : Order.t -> Order.t) (id : string)
    (os : list Order.t) : list Order.t :=
  match os with
  | [] => []
  | o :: rest =>
      if String.eqb (Order.id o) id then f o :: rest
      else o :: alterFirstOrder f id rest
  end.

Definition updateOrder (id : string) (updates : Order.partial) (st : State)
  : State :=
  with_orders st
    (alterFirstOrder (fun o => Order.assign o updates) id (orders st)).

Definition cancelOrder (id : string) (st : State) : State :=
  with_orders st (alterFirstOrder Order.cancel id (orders st)).

(** A placeholder in the source: it only logs. *)
Definition revertOptimisticTrade (tradeId : string) (st : State) : State :=
  st.

Definition setConnectionStatus (status : ConnectionStatus) (st : State)
  : State :=
  {| positions := positions st;
     orders := orders st;
     metrics := metrics st;
     isLoading := isLoading st;
     lastUpdated := lastUpdated st;
     connectionStatus := status |}.

(** The actions of the store, and the states reachable through them. *)
Inductive Action :=
| AddPosition (position : Position.t)
| UpdatePosition (id : string) (updates : Position.partial)
| RemovePosition (id : string)
| UpdatePrices (priceUpdates : gmap string JS.number)
| AddOrder (orderData : Order.data) (id : string)
| UpdateOrder (id : string) (updates : Order.partial)
| CancelOrder (id : string)
| OptimisticTrade (trade : Trade.t)
| RevertOptimisticTrade (tradeId : string)
| RecalculateMetrics
| SetConnectionStatus (status : ConnectionStatus).

Definition step (a : Action) (now : JS.number) (st : State) : State :=
  match a with
  | AddPosition position => addPosition position now st
  | UpdatePosition id updates => updatePosition id updates now st
  | RemovePosition id => removePosition id now st
  | UpdatePrices priceUpdates => updatePrices priceUpdates now st
  | AddOrder orderData id => addOrder orderData id now st
  | UpdateOrder id updates => updateOrder id updates st
  | CancelOrder id => cancelOrder id st
  | OptimisticTrade trade => optimisticTrade trade now st
  | RevertOptimisticTrade tradeId => revertOptimisticTrade tradeId st
  | RecalculateMetrics => recalculateMetrics now st
  | SetConnectionStatus status => setConnectionStatus status st
  end.

Inductive reachable : State -> Prop :=
| reachable_initial now : reachable (initial now)
| reachable_step a now st :
    reachable st -> reachable (step a now st).

(** The consistency rule of a holding: its value is quantity times price. *)
Definition valued (p : Position.t) : Prop :=
  Position.totalValue p
  = (Position.amount p * Position.currentPrice p)%float.

Definition all_valued (st : State) : Prop :=
  Forall valued (positions st).

(** What the caller of an action supplies about the rule: [addPosition]
    stores the position it is given and [updatePosition] assigns the
    properties it is given, so the rule holds afterwards when it holds of
    what they store.  The other actions take no derived value from the
    caller. *)
Definition supplied_valued (a : Action) (now : JS.number) (st : State)
  : Prop :=
  match a with
  | AddPosition position => valued position
  | UpdatePosition id updates =>
      forall index p,
        findIndex id (positions st) = Some index ->
        positions st !! index = Some p ->
        valued (Position.assign p updates now)
  | _ => True
  end.

Inductive reachable_supplied : State -> Prop :=
| supplied_initial now : reachable_supplied (initial now)
| supplied_step a now st :
    reachable_supplied st -> supplied_valued a now st ->
    reachable_supplied (step a now st).

End Portfolio.

(** ** The market store (store/market.ts) *)

Module MarketData.
Record t := mk {
  symbol : string;
  price : JS.number;
  change24h : JS.number;
  changePercent24h : JS.number;
  volume24h : JS.number;
  marketCap : JS.number;
  lastUpdated : JS.number
}.

Record partial := mkPartial {
  symbol' : option string;
  price' : option JS.number;
  change24h' : option JS.number;
  changePercent24h' : option JS.number;
  volume24h' : option JS.number;
  marketCap' : option JS.number;
  lastUpdated' : option JS.number
}.

(** [Object.assign(entry, data, { lastUpdated: now })]. *)
Definition assign (m : t) (data : partial) (now : JS.number) : t :=
  {| symbol := default (symbol m) (symbol' data);
     price := default (price m) (price' data);
     change24h := default (change24h m) (change24h' data);
     changePercent24h := default (changePercent24h m) (changePercent24h' data);
     volume24h := default (volume24h m) (volume24h' data);
     marketCap := default (marketCap m) (marketCap' data);
     lastUpdated := now |}.

(** The entry [updateMarketData] creates for an unknown symbol. *)
Definition fresh (symbol : string) (now : JS.number) : t :=
  {| symbol := symbol; price := 0%float; change24h := 0%float;
     changePercent24h := 0%float; volume24h := 0%float;
     marketCap := 0%float; lastUpdated := now |}.

(** The mutation [updatePrice] and [bulkUpdatePrices] make on an entry. *)
Definition reprice (m : t) (newPrice : JS.number) (now : JS.number) : t :=
  let oldPrice := price m in
  {| symbol := symbol m;
     price := newPrice;
     change24h := (newPrice - oldPrice)%float;
     changePercent24h := (((newPrice - oldPrice) / oldPrice) * 100)%float;
     volume24h := volume24h m;
     marketCap := marketCap m;
     lastUpdated := now |}.
End MarketData.

Module OrderBookEntry.
Record t := mk {
  price : JS.number;
  amount : JS.number;
  total : JS.number
}.
End OrderBookEntry.

Module OrderBook.
Record t := mk {
  symbol : string;
  bids : list OrderBookEntry.t;
  asks : list OrderBookEntry.t;
  lastUpdated : JS.number
}.

(** An object that has some of the properties of an order book:
    [Partial<OrderBook>], and the literals built by spreading. *)
Record partial := mkPartial {
  symbol' : option string;
  bids' : option (list OrderBookEntry.t);
  asks' : option (list OrderBookEntry.t);
  lastUpdated' : option JS.number
}.

Definition nothing : partial := mkPartial None None None None.

(** [...book] for a stored book; spreading [undefined] adds nothing. *)
Definition spread (book : option t) : partial :=
  match book with
  | Some b =>
      mkPartial (Some (symbol b)) (Some (bids b)) (Some (asks b))
                (Some (lastUpdated b))
  | None => nothing
  end.

(** [{ ...a, ...b }]: the properties of [b] override those of [a]. *)
Definition over (a b : partial) : partial :=
  {| symbol' := match symbol' b with Some x => Some x | None => symbol' a end;
     bids' := match bids' b with Some x => Some x | None => bids' a end;
     asks' := match asks' b with Some x => Some x | None => asks' a end;
     lastUpdated' :=
       match lastUpdated' b with
       | Some x => Some x
       | None => lastUpdated' a
       end |}.

(** Reading the four properties of an object that has them all. *)
Definition complete (p : partial) : option t :=
  s ← symbol' p; b ← bids' p; a ← asks' p; u ← lastUpdated' p;
  Some (mk s b a u).
End OrderBook.

Module Market.

Record State := mkState {
  marketData : gmap string MarketData.t;
  orderBooks : gmap string OrderBook.t;
  priceUpdates : gmap string JS.number;
  lastPriceUpdate : JS.number;
  subscribedSymbols : gset string;
  connectionRetryCount : JS.number;
  maxRetries : JS.number
}.

Definition initial : State :=
  {| marketData := ∅;
     orderBooks := ∅;
     priceUpdates := ∅;
     lastPriceUpdate := 0%float;
     subscribedSymbols := ∅;
     connectionRetryCount := 0%float;
     maxRetries := 5%float |}.

Definition with_marketData (st : State) (md : gmap string MarketData.t)
  : State :=
  {| marketData := md; orderBooks := orderBooks st;
     priceUpdates := priceUpdates st; lastPriceUpdate := lastPriceUpdate st;
     subscribedSymbols := subscribedSymbols st;
     connectionRetryCount := connectionRetryCount st;
     maxRetries := maxRetries st |}.

Definition with_orderBooks (st : State) (obs : gmap string OrderBook.t)
  : State :=
  {| marketData := marketData st; orderBooks := obs;
     priceUpdates := priceUpdates st; lastPriceUpdate := lastPriceUpdate st;
     subscribedSymbols := subscribedSymbols st;
     connectionRetryCount := connectionRetryCount st;
     maxRetries := maxRetries st |}.

Definition with_priceUpdates (st : State) (pu : gmap string JS.number)
  : State :=
  {| marketData := marketData st; orderBooks := orderBooks st;
     priceUpdates := pu; lastPriceUpdate := lastPriceUpdate st;
     subscribedSymbols := subscribedSymbols st;
     connectionRetryCount := connectionRetryCount st;
     maxRetries := maxRetries st |}.

Definition with_lastPriceUpdate (st : State) (now : JS.number) : State :=
  {| marketData := marketData st; orderBooks := orderBooks st;
     priceUpdates := priceUpdates st; lastPriceUpdate := now;
     subscribedSymbols := subscribedSymbols st;
     connectionRetryCount := connectionRetryCount st;
     maxRetries := maxRetries st |}.

Definition with_subscribedSymbols (st : State) (ss : gset string) : State :=
  {| marketData := marketData st; orderBooks := orderBooks st;
     priceUpdates := priceUpdates st; lastPriceUpdate := lastPriceUpdate st;
     subscribedSymbols := ss;
     connectionRetryCount := connectionRetryCount st;
     maxRetries := maxRetries st |}.

Definition with_connectionRetryCount (st : State) (n : JS.number) : State :=
  {| marketData := marketData st; orderBooks := orderBooks st;
     priceUpdates := priceUpdates st; lastPriceUpdate := lastPriceUpdate st;
     subscribedSymbols := subscribedSymbols st;
     connectionRetryCount := n;
     maxRetries := maxRetries st |}.

Definition updateMarketData (symbol : string) (data : MarketData.partial)
    (now : JS.number) (st : State) : State :=
  let entry :=
    match marketData st !! symbol with
    | Some m => m
    | None => MarketData.fresh symbol now
    end in
  with_marketData st
    (<[symbol := MarketData.assign entry data now]> (marketData st)).

(** The object literal of [updateOrderBook]: the stored book and the
    argument are spread first, the four properties written after them
    override both. *)
Definition orderBookLiteral (stored : option OrderBook.t)
    (orderBook : OrderBook.partial) (symbol : string) (now : JS.number)
  : OrderBook.partial :=
  OrderBook.over
    (OrderBook.over (OrderBook.spread stored) orderBook)
    (OrderBook.mkPartial (Some symbol) (Some []) (Some []) (Some now)).

Definition updateOrderBook (symbol : string) (orderBook : OrderBook.partial)
    (now : JS.number) (st : State) : State :=
  match OrderBook.complete
          (orderBookLiteral (orderBooks st !! symbol) orderBook symbol now)
  with
  | Some book => with_orderBooks st (<[symbol := book]> (orderBooks st))
  | None => st
  end.

(** What [updatePrice] and each round of [bulkUpdatePrices] do for one
    symbol: the price is recorded, and the market entry of the symbol, if
    there is one, is repriced. *)
Definition recordPrice (symbol : string) (price : JS.number)
    (now : JS.number) (st : State) : State :=
  let st := with_priceUpdates st (<[symbol := price]> (priceUpdates st)) in
  match marketData st !! symbol with
  | Some m =>
      with_marketData st
        (<[symbol := MarketData.reprice m price now]> (marketData st))
  | None => st
  end.

Definition updatePrice (symbol : string) (price : JS.number)
    (now : JS.number) (st : State) : State :=
  with_lastPriceUpdate (recordPrice symbol price now st) now.

(** [Object.entries(updates).forEach(...)]. *)
Definition bulkUpdatePrices (updates : gmap string JS.number)
    (now : JS.number) (st : State) : State :=
  with_lastPriceUpdate
    (map_fold (fun symbol price acc => recordPrice symbol price now acc)
              st updates)
    now.

(** What a call of an action comes to: the producer ran to its end and the
    store holds the new state, or it threw and the store keeps the state it
    had. *)
Inductive Outcome := returned (st : State) | threw.

Definition settle (st : State) (o : Outcome) : State :=
  match o with
  | returned st' => st'
  | threw => st
  end.

(** [state.subscribedSymbols] inside the producer: [state] is immer's draft,
    and reading a [Set] from it asks immer for a draft of the set, which is
    the work of its MapSet plugin.  The sources never call [enableMapSet],
    so the read throws before [add] or [delete] is reached. *)
Definition mapSetEnabled : bool := false.

Definition draftSet (ss : gset string) : option (gset string) :=
  if mapSetEnabled then Some ss else None.

Definition subscribeToSymbol (symbol : string) (st : State) : Outcome :=
  match draftSet (subscribedSymbols st) with
  | Some ss => returned (with_subscribedSymbols st ({[ symbol ]} ∪ ss))
  | None => threw
  end.

Definition unsubscribeFromSymbol (symbol : string) (st : State) : Outcome :=
  match draftSet (subscribedSymbols st) with
  | Some ss => returned (with_subscribedSymbols st (ss ∖ {[ symbol ]}))
  | None => threw
  end.

Definition incrementRetryCount (st : State) : State :=
  with_connectionRetryCount st (connectionRetryCount st + 1)%float.

Definition resetRetryCount (st : State) : State :=
  with_connectionRetryCount st 0%float.

Inductive Action :=
| UpdateMarketData (symbol : string) (data : MarketData.partial)
| UpdateOrderBook (symbol : string) (orderBook : OrderBook.partial)
| UpdatePrice (symbol : string) (price : JS.number)
| BulkUpdatePrices (updates : gmap string JS.number)
| SubscribeToSymbol (symbol : string)
| UnsubscribeFromSymbol (symbol : string)
| IncrementRetryCount
| ResetRetryCount.

Definition step (a : Action) (now : JS.number) (st : State) : State :=
  match a with
  | UpdateMarketData symbol data => updateMarketData symbol data now st
  | UpdateOrderBook symbol orderBook =>
      updateOrderBook symbol orderBook now st
  | UpdatePrice symbol price => updatePrice symbol price now st
  | BulkUpdatePrices updates => bulkUpdatePrices updates now st
  | SubscribeToSymbol symbol => settle st (subscribeToSymbol symbol st)
  | UnsubscribeFromSymbol symbol =>
      settle st (unsubscribeFromSymbol symbol st)
  | IncrementRetryCount => incrementRetryCount st
  | ResetRetryCount => resetRetryCount st
  end.

Inductive reachable : State -> Prop :=
| reachable_initial : reachable initial
| reachable_step a now st :
    reachable st -> reachable (step a now st).

(** Every stored order book has no bids and no asks. *)
Definition emptied (book : OrderBook.t) : Prop :=
  OrderBook.bids book = [] /\ OrderBook.asks book = [].

Definition books_emptied (st : State) : Prop :=
  map_Forall (fun _ book => emptied book) (orderBooks st).

End Market.

(** ** The price feed (hooks/useWebSocket.ts): both stores are driven from
    the same update map, the market store first. *)

Module Feed.

Record App := mkApp {
  portfolio : Portfolio.State;
  market : Market.State
}.

(** [bulkUpdatePrices(prices); updatePrices(prices);], the body of the
    timer of [useMockPriceUpdates] and of the bulk branch of
    [handleMessage]. *)
Definition publishPrices (prices : gmap string JS.number) (now : JS.number)
    (app : App) : App :=
  {| market := Market.bulkUpdatePrices prices now (market app);
     portfolio := Portfolio.updatePrices prices now (portfolio app) |}.

(** The messages [handleMessage] distinguishes, with the properties of
    [message.data] it reads; an absent property is [None]. *)
Inductive Message :=
| price_update (prices : option (gmap string JS.number))
               (symbol : option string) (price : option JS.number)
| order_book (symbol : option string)
             (bids asks : option (list OrderBookEntry.t))
| trade_update
| error.

Definition truthy_string (s : option string) : option string :=
  match s with
  | Some EmptyString | None => None
  | Some s => Some s
  end.

Definition handleMessage (message : Message) (now : JS.number) (app : App)
  : App :=
  match message with
  | price_update (Some prices) _ _ => publishPrices prices now app
  | price_update None symbol price =>
      match truthy_string symbol, price with
      | Some symbol, Some price =>
          if JS.truthy price
          then publishPrices {[ symbol := price ]} now app
          else app
      | _, _ => app
      end
  | order_book symbol bids asks =>
      match truthy_string symbol with
      | Some symbol =>
          {| portfolio := portfolio app;
             market :=
               Market.updateOrderBook symbol
                 (OrderBook.mkPartial None (Some (default [] bids))
                                      (Some (default [] asks)) (Some now))
                 now (market app) |}
      | None => app
      end
  | trade_update | error => app
  end.

End Feed.

(** ** The virtualized positions list
    (components/performance/VirtualizedPositionsList.tsx) *)

Module PositionsList.

(** What [useVirtualization] returns about the window; the pixel offsets
    [totalHeight] and [offsetY] are left out. *)
Record Window := mkWindow {
  visibleItems : list Position.t;
  startIndex : JS.integral;
  endIndex : JS.integral
}.

(** [scrollTop] is the state of the hook, set by [onScroll]. *)
Definition useVirtualization (items : list Position.t)
    (containerHeight itemHeight scrollTop : JS.number) : Window :=
  let startIndex := JS.Math_floor (scrollTop / itemHeight)%float in
  let endIndex :=
    JS.Math_min
      (JS.plus
         (JS.plus startIndex
                  (JS.Math_ceil (containerHeight / itemHeight)%float))
         (JS.Int 1))
      (JS.plus (JS.length_of items) (JS.Int (-1))) in
  {| visibleItems := JS.slice items startIndex (JS.plus endIndex (JS.Int 1));
     startIndex := startIndex;
     endIndex := endIndex |}.

(** The defaults of the hook and of the component. *)
Definition defaultItemHeight : JS.number := 56%float.
Definition defaultHeight : JS.number := 600%float.
Definition containerHeightOf (height : JS.number) : JS.number :=
  (height - 200)%float.

(** The bound the specification gives for the number of rows:
    [ceil(containerHeight / rowHeight) + 1]. *)
Definition statedBound (containerHeight itemHeight : JS.number)
  : JS.integral :=
  JS.plus (JS.Math_ceil (containerHeight / itemHeight)%float) (JS.Int 1).

Inductive SortKey := by_symbol | by_value | by_pnl.
Inductive SortOrder := asc | desc.

(** [sortOrder === 'asc' ? 'desc' : 'asc']. *)
Definition toggled (sortOrder : SortOrder) : SortOrder :=
  match sortOrder with asc => desc | desc => asc end.

Section Collation.
(** [String.prototype.localeCompare] is supplied by the platform (its
    collation depends on the locale); it returns a number. *)
Variable localeCompare : string -> string -> JS.number.

Definition comparison_of (sortBy : SortKey) (a b : Position.t)
  : JS.number :=
  match sortBy with
  | by_symbol => localeCompare (Position.symbol a) (Position.symbol b)
  | by_value => (Position.totalValue a - Position.totalValue b)%float
  | by_pnl =>
      (Position.totalGainLossPercent a
       - Position.totalGainLossPercent b)%float
  end.

(** The function passed to [filtered.sort]. *)
Definition comparator (sortBy : SortKey) (sortOrder : SortOrder)
    (a b : Position.t) : JS.number :=
  let comparison := comparison_of sortBy a b in
  match sortOrder with
  | desc => (- comparison)%float
  | asc => comparison
  end.

Definition matches (searchTerm : string) (position : Position.t) : bool :=
  JS.includes (JS.toLowerCase (Position.symbol position))
              (JS.toLowerCase searchTerm)
  || JS.includes (JS.toLowerCase (Position.name position))
                 (JS.toLowerCase searchTerm).

Definition filteredAndSortedPositions (positions : list Position.t)
    (searchTerm : string) (sortBy : SortKey) (sortOrder : SortOrder)
  : list Position.t :=
  let filtered := List.filter (matches searchTerm) positions in
  JS.sort (comparator sortBy sortOrder) filtered.

(** [handleSort] on the state [(sortBy, sortOrder)]. *)
Definition SortKey_eqb (a b : SortKey) : bool :=
  match a, b with
  | by_symbol, by_symbol | by_value, by_value | by_pnl, by_pnl => true
  | _, _ => false
  end.

Definition handleSort (newSortBy : SortKey)
    (state : SortKey * SortOrder) : SortKey * SortOrder :=
  let '(sortBy, sortOrder) := state in
  if SortKey_eqb sortBy newSortBy
  then (sortBy, toggled sortOrder)
  else (newSortBy, desc).

(** The state the component starts in. *)
Definition initialSort : SortKey * SortOrder := (by_value, desc).

(** A consistent comparator on the elements of a list, as the language
    definition requires of the function passed to [sort]: swapping the
    arguments swaps the sign, and "not after" is transitive. *)
Definition consistentb (comparefn : Position.t -> Position.t -> JS.number)
    (l : list Position.t) : bool :=
  let c a b := JS.sign (comparefn a b) in
  forallb (fun a =>
    forallb (fun b =>
      bool_decide (c b a = CompOpp (c a b))
      && forallb (fun d =>
           implb (bool_decide (c a b <> Gt) && bool_decide (c b d <> Gt))
                 (bool_decide (c a d <> Gt))) l) l) l.

(** No two entries of the list compare equal. *)
Fixpoint no_tiesb (comparefn : Position.t -> Position.t -> JS.number)
    (l : list Position.t) : bool :=
  match l with
  | [] => true
  | a :: rest =>
      forallb (fun b => bool_decide (JS.sign (comparefn a b) <> Eq)) rest
      && no_tiesb comparefn rest
  end.
End Collation.

(** A collation to run the code with: code units are compared one by
    one. *)
Definition codeUnitCompare (a b : string) : JS.number :=
  match String.compare a b with
  | Lt => (-1)%float
  | Eq => 0%float
  | Gt => 1%float
  end.

End PositionsList.

(** ** Reconnection of the feed (hooks/useWebSocket.ts) *)

Module Reconnect.

(** The options of the hook.  Both are numbers; the maximum need not be an
    integer. *)
Record Options := mkOptions {
  maxReconnectAttempts : JS.number;
  reconnectInterval : JS.number
}.

Definition defaults : Options :=
  {| maxReconnectAttempts := 5%float; reconnectInterval := 3000%float |}.

(** The delay of the attempt with the given number. *)
Definition delayOf (options : Options) (attempt : Z) : JS.number :=
  JS.Math_min_number
    (reconnectInterval options * JS.pow2 (attempt - 1))%float 30000%float.

(** [scheduleReconnect], on the count of attempts kept in
    [reconnectAttemptsRef]: the new count and, when a timer is set, its
    delay. *)
Definition scheduleReconnect (options : Options) (attempts : Z)
  : Z * option JS.number :=
  if JS.count_ge attempts (maxReconnectAttempts options)
  then (attempts, None)
  else
    let attempts := JS.count_succ attempts in
    (attempts, Some (delayOf options attempts)).

(** What happens to the socket: it opens, it closes (cleanly, with code
    1000, or not), creating it throws, or the client disconnects. *)
Inductive Event := opened | closed (clean : bool) | failed | disconnected.

Definition handle (options : Options) (e : Event) (attempts : Z)
  : Z * option JS.number :=
  match e with
  | opened => (0, None)
  | closed clean =>
      if negb clean && JS.count_lt attempts (maxReconnectAttempts options)
      then scheduleReconnect options attempts
      else (attempts, None)
  | failed => scheduleReconnect options attempts
  | disconnected => (0, None)
  end.

(** A run of events from a count of attempts: the final count and the
    delays of the timers set on the way. *)
Fixpoint run (options : Options) (events : list Event) (attempts : Z)
  : Z * list JS.number :=
  match events with
  | [] => (attempts, [])
  | e :: rest =>
      let '(attempts', delay) := handle options e attempts in
      let '(final, delays) := run options rest attempts' in
      (final, match delay with Some d => d :: delays | None => delays end)
  end.

End Reconnect.

(** ** The order book panel (components/trading/OrderBookVisualization.tsx) *)

Module OrderBookView.

Record t := mk {
  limitedBids : list OrderBookEntry.t;
  limitedAsks : list OrderBookEntry.t;
  maxTotal : JS.number;
  bestBid : JS.number;
  bestAsk : JS.number;
  spread : JS.number;
  spreadPercent : JS.number
}.

(** [entries[0]?.price || 0]. *)
Definition bestPrice (entries : list OrderBookEntry.t) : JS.number :=
  match entries with
  | e :: _ => JS.or_else (OrderBookEntry.price e) 0%float
  | [] => 0%float
  end.

(** [Math.max(...entries.map(e => e.total), 0)]. *)
Definition maxOfTotals (entries : list OrderBookEntry.t) : JS.number :=
  JS.Math_max_of (List.map OrderBookEntry.total entries ++ [0%float]).

(** What the panel computes from the stored book of the symbol ([None]
    when there is none) and the generated mock data. *)
Definition view (orderBook : option OrderBook.t)
    (mockData : list OrderBookEntry.t * list OrderBookEntry.t)
    (maxEntries : JS.integral) : t :=
  let '(bids, asks) :=
    match orderBook with
    | Some book => (OrderBook.bids book, OrderBook.asks book)
    | None => mockData
    end in
  let limitedBids := JS.slice bids (JS.Int 0) maxEntries in
  let limitedAsks := JS.slice asks (JS.Int 0) maxEntries in
  let maxBidTotal := maxOfTotals limitedBids in
  let maxAskTotal := maxOfTotals limitedAsks in
  let bestBid := bestPrice limitedBids in
  let bestAsk := bestPrice limitedAsks in
  let spread := (bestAsk - bestBid)%float in
  {| limitedBids := limitedBids;
     limitedAsks := limitedAsks;
     maxTotal := JS.Math_max maxBidTotal maxAskTotal;
     bestBid := bestBid;
     bestAsk := bestAsk;
     spread := spread;
     spreadPercent :=
       if JS.gt bestBid 0%float then ((spread / bestBid) * 100)%float
       else 0%float |}.

(** The default of [maxEntries]. *)
Definition defaultMaxEntries : JS.integral := JS.Int 15.

End OrderBookView.

(** ** The application shell (App.tsx): how positions enter the store *)

Module App.

(** A holding as the mock generator and the holdings table have it. *)
Record Holding := mkHolding {
  id : string;
  symbol : string;
  name : string;
  amount : JS.number;
  currentPrice : JS.number;
  averageBuyPrice : JS.number;
  totalValue : JS.number;
  dailyChange : JS.number;
  dailyChangePercent : JS.number;
  totalGainLoss : JS.number;
  totalGainLossPercent : JS.number
}.

(** The position [loadData] builds from a generated holding. *)
Definition initialPosition (holding : Holding) (now : JS.number)
  : Position.t :=
  {| Position.id := id holding;
     Position.symbol := symbol holding;
     Position.name := name holding;
     Position.amount := amount holding;
     Position.currentPrice := currentPrice holding;
     Position.averageBuyPrice := averageBuyPrice holding;
     Position.totalValue := (amount holding * currentPrice holding)%float;
     Position.dailyChange := dailyChange holding;
     Position.dailyChangePercent := dailyChangePercent holding;
     Position.totalGainLoss := totalGainLoss holding;
     Position.totalGainLossPercent := totalGainLossPercent holding;
     Position.lastUpdated := now |}.

(** [initialPositions.forEach(position => addPosition(position))]. *)
Definition loadData (holdings : list Holding) (now : JS.number)
    (st : Portfolio.State) : Portfolio.State :=
  fold_left
    (fun acc holding =>
       Portfolio.addPosition (initialPosition holding now) now acc)
    holdings st.

(** The argument of [handleAddAsset], from the "add asset" dialog. *)
Record Asset := mkAsset {
  a_symbol : string;
  a_amount : JS.number;
  a_purchasePrice : JS.number
}.

Definition cryptoNames : gmap string string :=
  list_to_map
    [("BTC", "Bitcoin"); ("ETH", "Ethereum"); ("ADA", "Cardano");
     ("DOT", "Polkadot"); ("LINK", "Chainlink"); ("SOL", "Solana");
     ("MATIC", "Polygon"); ("AVAX", "Avalanche")].

(** The prices 67420, 3850, 0.65, 8.45, 18.92, 145.32, 0.89 and 42.18, as
    the doubles their literals denote. *)
Definition cryptoPrices : gmap string JS.number :=
  list_to_map
    [("BTC", 67420%float); ("ETH", 3850%float);
     ("ADA", 0x1.4cccccccccccdp-1%float);
     ("DOT", 0x1.0e66666666666p+3%float);
     ("LINK", 0x1.2eb851eb851ecp+4%float); ("SOL", 0x1.22a3d70a3d70ap+7%float);
     ("MATIC", 0x1.c7ae147ae147bp-1%float);
     ("AVAX", 0x1.5170a3d70a3d7p+5%float)].

(** [cryptoPrices[symbol] || purchasePrice]. *)
Definition priceOf (asset : Asset) : JS.number :=
  match cryptoPrices !! a_symbol asset with
  | Some price => JS.or_else price (a_purchasePrice asset)
  | None => a_purchasePrice asset
  end.

(** [cryptoNames[symbol] || symbol]. *)
Definition nameOf (asset : Asset) : string :=
  match cryptoNames !! a_symbol asset with
  | Some n => JS.or_else_string n (a_symbol asset)
  | None => a_symbol asset
  end.

(** The position [handleAddAsset] builds; [id] is [Date.now().toString()]
    and [now] the later reading of the clock. *)
Definition newPosition (asset : Asset) (id : string) (now : JS.number)
  : Position.t :=
  {| Position.id := id;
     Position.symbol := JS.toLowerCase (a_symbol asset);
     Position.name := nameOf asset;
     Position.amount := a_amount asset;
     Position.currentPrice := priceOf asset;
     Position.averageBuyPrice := a_purchasePrice asset;
     Position.totalValue := (a_amount asset * priceOf asset)%float;
     Position.dailyChange := 0%float;
     Position.dailyChangePercent := 0%float;
     Position.totalGainLoss := 0%float;
     Position.totalGainLossPercent := 0%float;
     Position.lastUpdated := now |}.

Definition handleAddAsset (asset : Asset) (id : string) (now : JS.number)
    (st : Portfolio.State) : Portfolio.State :=
  Portfolio.addPosition (newPosition asset id now) now st.

(** The order form ([onSubmit] of the trading form): the optimistic
    trade, then the pending order. *)
Definition submitOrder (trade : Trade.t) (orderData : Order.data)
    (id : string) (now : JS.number) (st : Portfolio.State)
  : Portfolio.State :=
  Portfolio.addOrder orderData id now (Portfolio.optimisticTrade trade now st).

(** The states of the portfolio store the application drives it into: it
    loads the generated holdings, adds assets from the dialog, publishes
    price maps, submits orders and reports the connection. *)
Inductive driven : Portfolio.State -> Prop :=
| driven_initial now : driven (Portfolio.initial now)
| driven_load holdings now st :
    driven st -> driven (loadData holdings now st)
| driven_add asset id now st :
    driven st -> driven (handleAddAsset asset id now st)
| driven_prices prices now st :
    driven st -> driven (Portfolio.updatePrices prices now st)
| driven_order trade orderData id now st :
    driven st -> driven (submitOrder trade orderData id now st)
| driven_status status st :
    driven st -> driven (Portfolio.setConnectionStatus status st).

End App.

(** ** The risk calculator (components/trading/RiskCalculator.tsx) *)

Module RiskCalculator.

Inductive Method := fixed | percent | risk_based.

(** The state of the form and what it reads from the stores. *)
Record Inputs := mkInputs {
  i_entryPrice : JS.number;
  i_stopLoss : JS.number;
  i_takeProfit : JS.number;
  i_positionSize : JS.number;
  i_riskPercent : JS.number;
  i_calculationMethod : Method;
  i_side : Side;
  i_portfolioValue : JS.number
}.

(** [metrics.totalValue || 100000]. *)
Definition portfolioValueOf (metrics : Metrics.t) : JS.number :=
  JS.or_else (Metrics.totalValue metrics) 100000%float.

Record RiskCalculation := mkCalculation {
  entryPrice : JS.number;
  stopLoss : JS.number;
  takeProfit : JS.number;
  positionSize : JS.number;
  riskAmount : JS.number;
  riskPercent : JS.number;
  rewardAmount : JS.number;
  riskRewardRatio : JS.number;
  portfolioImpact : JS.number;
  maxLoss : JS.number;
  maxGain : JS.number;
  breakEvenPrice : JS.number;
  marginRequired : JS.number;
  isValid : bool;
  warnings : list string
}.

(** [if (condition) warnings.push(message)]. *)
Definition pushIf (condition : bool) (message : string)
    (warnings : list string) : list string :=
  if condition then warnings ++ [message] else warnings.

(** The conditions of the seven warnings, in the order they are tested. *)
Definition stopAboveEntry (i : Inputs) : bool :=
  match i_side i with
  | buy => JS.ge (i_stopLoss i) (i_entryPrice i)
  | sell => false
  end.

Definition stopBelowEntry (i : Inputs) : bool :=
  match i_side i with
  | sell => JS.le (i_stopLoss i) (i_entryPrice i)
  | buy => false
  end.

Definition targetBelowEntry (i : Inputs) : bool :=
  JS.truthy (i_takeProfit i)
  && match i_side i with
     | buy => JS.le (i_takeProfit i) (i_entryPrice i)
     | sell => false
     end.

Definition targetAboveEntry (i : Inputs) : bool :=
  JS.truthy (i_takeProfit i)
  && match i_side i with
     | sell => JS.ge (i_takeProfit i) (i_entryPrice i)
     | buy => false
     end.

(** The body of the [useMemo] that computes [calculation]. *)
Definition calculation (i : Inputs) : RiskCalculation :=
  let entryPrice := i_entryPrice i in
  let stopLoss := i_stopLoss i in
  let takeProfit := i_takeProfit i in
  let portfolioValue := i_portfolioValue i in
  if negb (JS.truthy entryPrice) || negb (JS.truthy stopLoss) then
    {| entryPrice := entryPrice; stopLoss := stopLoss;
       takeProfit := takeProfit; positionSize := i_positionSize i;
       riskAmount := 0%float; riskPercent := 0%float;
       rewardAmount := 0%float; riskRewardRatio := 0%float;
       portfolioImpact := 0%float; maxLoss := 0%float; maxGain := 0%float;
       breakEvenPrice := entryPrice; marginRequired := 0%float;
       isValid := false; warnings := [] |}
  else
    let riskPerUnit := JS.Math_abs (entryPrice - stopLoss)%float in
    let rewardPerUnit :=
      if JS.truthy takeProfit
      then JS.Math_abs (takeProfit - entryPrice)%float else 0%float in
    let '(calculatedPositionSize, riskAmount) :=
      match i_calculationMethod i with
      | risk_based =>
          if JS.gt (i_riskPercent i) 0%float then
            let riskAmount :=
              ((portfolioValue * i_riskPercent i) / 100)%float in
            (if JS.gt riskPerUnit 0%float
             then (riskAmount / riskPerUnit)%float else 0%float,
             riskAmount)
          else (i_positionSize i, (i_positionSize i * riskPerUnit)%float)
      | percent =>
          if JS.gt (i_positionSize i) 0%float then
            let size :=
              ((portfolioValue * i_positionSize i)
               / (100 * entryPrice))%float in
            (size, (size * riskPerUnit)%float)
          else (i_positionSize i, (i_positionSize i * riskPerUnit)%float)
      | fixed => (i_positionSize i, (i_positionSize i * riskPerUnit)%float)
      end in
    let rewardAmount := (calculatedPositionSize * rewardPerUnit)%float in
    let riskRewardRatio :=
      if JS.gt riskAmount 0%float
      then (rewardAmount / riskAmount)%float else 0%float in
    let portfolioImpact :=
      if JS.gt portfolioValue 0%float
      then ((riskAmount / portfolioValue) * 100)%float else 0%float in
    let marginRequired :=
      ((calculatedPositionSize * entryPrice)
       * 0x1.999999999999ap-4)%float in
    let isValidEntry := JS.gt entryPrice 0%float in
    let isValidStopLoss :=
      JS.gt stopLoss 0%float && JS.differs stopLoss entryPrice in
    let isValidPositionSize := JS.gt calculatedPositionSize 0%float in
    let warnings :=
      pushIf (JS.gt (calculatedPositionSize * entryPrice)%float
                    (portfolioValue * 0.5)%float)
        "Position size exceeds 50% of portfolio value"
        (pushIf (JS.lt riskRewardRatio 1%float)
           "Risk/reward ratio below 1:1 - consider adjusting targets"
           (pushIf (JS.gt portfolioImpact 10%float)
              "High portfolio impact - consider reducing position size"
              (pushIf (targetAboveEntry i)
                 "Take profit should be below entry price for sell orders"
                 (pushIf (targetBelowEntry i)
                    "Take profit should be above entry price for buy orders"
                    (pushIf (stopBelowEntry i)
                       "Stop loss should be above entry price for sell orders"
                       (pushIf (stopAboveEntry i)
                          "Stop loss should be below entry price for buy orders"
                          [])))))) in
    {| entryPrice := entryPrice; stopLoss := stopLoss;
       takeProfit := takeProfit; positionSize := calculatedPositionSize;
       riskAmount := riskAmount; riskPercent := portfolioImpact;
       rewardAmount := rewardAmount; riskRewardRatio := riskRewardRatio;
       portfolioImpact := portfolioImpact; maxLoss := riskAmount;
       maxGain := rewardAmount; breakEvenPrice := entryPrice;
       marginRequired := marginRequired;
       isValid :=
         isValidEntry && isValidStopLoss && isValidPositionSize
         && (length warnings =? 0)%nat;
       warnings := warnings |}.

End RiskCalculator.

(** ** The indicator calculations of the worker
    (workers/calculations.worker.ts) *)

Module Worker.

(** The closing prices of the data points, in order. *)
Definition closes := list JS.number.

(** [data[i].close]. *)
Definition closeAt (data : closes) (i : nat) : JS.number :=
  JS.number_of_cell (Some <$> data !! i).

(** [xs.reduce((acc, x) => acc + x, 0)]. *)
Definition sum (xs : list JS.number) : JS.number :=
  fold_left (fun acc x => (acc + x)%float) xs 0%float.

(** [2 / (n + 1)]. *)
Definition multiplierOf (n : JS.number) : JS.number := (2 / (n + 1))%float.

(** One round of the loop of [calculateMovingAverages]. *)
Definition movingAveragesStep (data : closes)
    (acc : list JS.cell * list JS.cell) (i : nat)
  : list JS.cell * list JS.cell :=
  let '(sma20, ema20) := acc in
  if (19 <=? i)%nat then
    let window :=
      JS.slice data (JS.Int (Z.of_nat i - 19)) (JS.Int (Z.of_nat i + 1)) in
    let sma20 := sma20 ++ [Some (sum window / 20)%float] in
    let multiplier := multiplierOf 20%float in
    let ema : JS.cell :=
      if (i =? 19)%nat then mjoin (sma20 !! 0%nat)
      else Some ((closeAt data i * multiplier)
                 + (JS.number_of_cell (ema20 !! (i - 1)%nat)
                    * (1 - multiplier)))%float in
    (sma20, ema20 ++ [ema])
  else (sma20 ++ [None], ema20 ++ [None]).

(** [calculateMovingAverages]: the pair [{ sma20, ema20 }]. *)
Definition calculateMovingAverages (data : closes)
  : list JS.cell * list JS.cell :=
  fold_left (movingAveragesStep data) (seq 0 (length data)) ([], []).

(** The state of the loop of [calculateRSI]: [rsi], [gains], [losses]. *)
Record RsiState := mkRsi {
  rsi : list JS.cell;
  gains : list JS.number;
  losses : list JS.number
}.

(** The period as a number. *)
Definition numberOf (n : nat) : JS.number :=
  PrimFloat.of_uint63 (Uint63.of_Z (Z.of_nat n)).

Definition rsiStep (data : closes) (period : nat) (st : RsiState) (i : nat)
  : RsiState :=
  let change := (closeAt data i - closeAt data (i - 1))%float in
  let gains :=
    gains st ++ [if JS.gt change 0%float then change else 0%float] in
  let losses :=
    losses st
    ++ [if JS.lt change 0%float then JS.Math_abs change else 0%float] in
  let value : JS.cell :=
    if (period <=? i)%nat then
      let avgGain :=
        (sum (JS.slice gains (JS.Int (- Z.of_nat period)) JS.PosInf)
         / numberOf period)%float in
      let avgLoss :=
        (sum (JS.slice losses (JS.Int (- Z.of_nat period)) JS.PosInf)
         / numberOf period)%float in
      let rs := (avgGain / avgLoss)%float in
      Some (100 - (100 / (1 + rs)))%float
    else None in
  {| rsi := rsi st ++ [value]; gains := gains; losses := losses |}.

(** [calculateRSI(data, period)]: [[null, ...rsi]]. *)
Definition calculateRSI (data : closes) (period : nat) : list JS.cell :=
  None
  :: rsi (fold_left (rsiStep data period) (seq 1 (length data - 1))
                    (mkRsi [] [] [])).

Definition defaultPeriod : nat := 14.

(** The state of the loop of [calculateMACD]. *)
Record MacdState := mkMacd {
  ema12 : list JS.number;
  ema26 : list JS.number;
  macd : list JS.number;
  signal : list JS.number;
  histogram : list JS.number
}.

(** Reading an array of numbers at an index. *)
Definition at_ (xs : list JS.number) (i : nat) : JS.number :=
  JS.number_of_cell (Some <$> xs !! i).

Definition macdStep (data : closes) (st : MacdState) (i : nat) : MacdState :=
  let multiplier12 := multiplierOf 12%float in
  let multiplier26 := multiplierOf 26%float in
  let ema12 :=
    ema12 st
    ++ [if (i =? 0)%nat then closeAt data i
        else ((closeAt data i * multiplier12)
              + (at_ (ema12 st) (i - 1) * (1 - multiplier12)))%float] in
  let ema26 :=
    ema26 st
    ++ [if (i =? 0)%nat then closeAt data i
        else ((closeAt data i * multiplier26)
              + (at_ (ema26 st) (i - 1) * (1 - multiplier26)))%float] in
  let macdValue := (at_ ema12 i - at_ ema26 i)%float in
  let signal :=
    signal st
    ++ [if (i =? 0)%nat then macdValue
        else ((macdValue * multiplierOf 9%float)
              + (at_ (signal st) (i - 1)
                 * (1 - multiplierOf 9%float)))%float] in
  {| ema12 := ema12;
     ema26 := ema26;
     macd := macd st ++ [macdValue];
     signal := signal;
     histogram := histogram st ++ [(macdValue - at_ signal i)%float] |}.

(** [calculateMACD]: [{ macd, signal, histogram }] are the last three
    fields. *)
Definition calculateMACD (data : closes) : MacdState :=
  fold_left (macdStep data) (seq 0 (length data)) (mkMacd [] [] [] [] []).

(** What holds of [sma20] and [ema20] after [k] rounds of the loop. *)
Definition averagesAfter (k : nat) (acc : list JS.cell * list JS.cell)
  : Prop :=
  let '(sma20, ema20) := acc in
  length sma20 = k /\ length ema20 = k
  /\ (forall i, (i < k)%nat -> (i < 19)%nat ->
        sma20 !! i = Some None /\ ema20 !! i = Some None)
  /\ (forall i, (i < k)%nat -> (19 <= i)%nat ->
        exists x, sma20 !! i = Some (Some x))
  /\ ((19 < k)%nat -> ema20 !! 19%nat = Some None)
  /\ (forall i, (i < k)%nat -> (20 <= i)%nat ->
        exists y, ema20 !! i = Some (Some y)).

(** What holds of the loop of [calculateRSI] after [k] rounds, which
    handle the indices 1 to [k]. *)
Definition rsiAfter (period k : nat) (st : RsiState) : Prop :=
  length (rsi st) = k
  /\ length (gains st) = k /\ length (losses st) = k
  /\ (forall j, (j < k)%nat -> (S j < period)%nat ->
        rsi st !! j = Some None)
  /\ (forall j, (j < k)%nat -> (period <= S j)%nat ->
        exists x, rsi st !! j = Some (Some x)).

(** What holds of the loop of [calculateMACD] after [k] rounds. *)
Definition macdAfter (data : closes) (k : nat) (st : MacdState)
  : Prop :=
  length (ema12 st) = k /\ length (ema26 st) = k
  /\ length (macd st) = k /\ length (signal st) = k
  /\ length (histogram st) = k
  /\ ((0 < k)%nat ->
      let first := (closeAt data 0 - closeAt data 0)%float in
      macd st !! 0%nat = Some first
      /\ signal st !! 0%nat = Some first
      /\ histogram st !! 0%nat = Some (first - first)%float).

End Worker.

(** ** Sample data *)

(** Sample holdings: the one of the specification's scenario, and one whose
    stored value is not quantity times price. *)
Definition btcHolding (now : JS.number) : Position.t :=
  {| Position.id := "1"; Position.symbol := "BTC"; Position.name := "Bitcoin";
     Position.amount := 2%float; Position.currentPrice := 50000%float;
     Position.averageBuyPrice := 40000%float;
     Position.totalValue := 100000%float;
     Position.dailyChange := 0%float; Position.dailyChangePercent := 0%float;
     Position.totalGainLoss := 20000%float;
     Position.totalGainLossPercent := 25%float;
     Position.lastUpdated := now |}.

Definition misvaluedHolding : Position.t :=
  {| Position.id := "2"; Position.symbol := "eth"; Position.name := "Ethereum";
     Position.amount := 2%float; Position.currentPrice := 10%float;
     Position.averageBuyPrice := 10%float;
     Position.totalValue := 5%float;
     Position.dailyChange := 0%float; Position.dailyChangePercent := 0%float;
     Position.totalGainLoss := 0%float;
     Position.totalGainLossPercent := 0%float;
     Position.lastUpdated := 0%float |}.

Definition btcStore : Portfolio.State :=
  Portfolio.addPosition (btcHolding 0%float) 1%float
                        (Portfolio.initial 0%float).

(** Holdings as the "add asset" dialog creates them: the derived daily
    figures start at 0. *)
Definition addedAsset (id symbol name : string)
    (amount currentPrice purchasePrice : JS.number) : Position.t :=
  {| Position.id := id; Position.symbol := symbol; Position.name := name;
     Position.amount := amount; Position.currentPrice := currentPrice;
     Position.averageBuyPrice := purchasePrice;
     Position.totalValue := (amount * currentPrice)%float;
     Position.dailyChange := 0%float; Position.dailyChangePercent := 0%float;
     Position.totalGainLoss := 0%float;
     Position.totalGainLossPercent := 0%float;
     Position.lastUpdated := 0%float |}.

Definition withDailyPercent (symbol : string) (percent : JS.number)
  : Position.t :=
  {| Position.id := symbol; Position.symbol := symbol; Position.name := symbol;
     Position.amount := 1%float; Position.currentPrice := 100%float;
     Position.averageBuyPrice := 100%float;
     Position.totalValue := 100%float;
     Position.dailyChange := percent; Position.dailyChangePercent := percent;
     Position.totalGainLoss := 0%float;
     Position.totalGainLossPercent := 0%float;
     Position.lastUpdated := 0%float |}.

(** The same asset added twice, as the "add asset" dialog allows. *)
Definition firstBtc : Position.t :=
  addedAsset "1" "btc" "Bitcoin" 2%float 50000%float 40000%float.
Definition secondBtc : Position.t :=
  addedAsset "2" "btc" "Bitcoin" 1%float 50000%float 30000%float.
Definition twoBtcStore : Portfolio.State :=
  Portfolio.addPosition secondBtc 0%float
    (Portfolio.addPosition firstBtc 0%float (Portfolio.initial 0%float)).

(** A store with two orders placed. *)
Definition limitOrder : Order.data :=
  Order.mkData "BTC" buy limit 1%float (Some 50000%float) None pending.
Definition stopOrder : Order.data :=
  Order.mkData "BTC" sell stop 0.5%float None (Some 45000%float) pending.
Definition orderedStore : Portfolio.State :=
  Portfolio.addOrder stopOrder "order_2" 4%float
    (Portfolio.addOrder limitOrder "order_1" 3%float btcStore).

(** A market store that has an entry for BTC. *)
Definition btcMarket : Market.State :=
  Market.updateMarketData "BTC"
    (MarketData.mkPartial None (Some 67420%float) None None None None None)
    1%float Market.initial.

Definition sampleBids : list OrderBookEntry.t :=
  [OrderBookEntry.mk 67000%float 1%float 1%float;
   OrderBookEntry.mk 66990%float 2%float 3%float].

Definition tieA : Position.t :=
  addedAsset "a" "btc" "Bitcoin" 1%float 100%float 100%float.
Definition tieB : Position.t :=
  addedAsset "b" "eth" "Ethereum" 2%float 50%float 50%float.
Definition smaller : Position.t :=
  addedAsset "c" "ada" "Cardano" 10%float 5%float 5%float.

(** * Properties *)

(** ** The built-ins on sample values *)

Example isNaN_nan : JS.isNaN nan = true.
Proof. reflexivity. Qed.

Example truthy_examples :
  JS.truthy 0%float = false /\ JS.truthy (-0)%float = false /\
  JS.truthy nan = false /\ JS.truthy 60000%float = true /\
  JS.truthy infinity = true.
Proof. repeat split; reflexivity. Qed.

Example Math_max_examples :
  JS.Math_max 0%float (-3)%float = 0%float /\
  JS.Math_max 0%float 2.5%float = 2.5%float /\
  JS.Math_max 0%float (-0)%float = 0%float /\
  JS.Math_max 0%float nan = nan.
Proof. repeat split; reflexivity. Qed.

Example toUpperCase_btc : JS.toUpperCase "btc" = "BTC".
Proof. reflexivity. Qed.

Example includes_examples :
  JS.includes "bitcoin" "coin" = true /\ JS.includes "bitcoin" "" = true /\
  JS.includes "eth" "btc" = false.
Proof. repeat split; reflexivity. Qed.

Example floor_ceil_examples :
  JS.Math_floor 7.5%float = JS.Int 7 /\
  JS.Math_floor (-7.5)%float = JS.Int (-8) /\
  JS.Math_ceil (400 / 56)%float = JS.Int 8 /\
  JS.Math_ceil 8%float = JS.Int 8 /\
  JS.Math_floor (0 / 0)%float = JS.NotANumber /\
  JS.Math_ceil (1 / 0)%float = JS.PosInf.
Proof. repeat split; reflexivity. Qed.

Example slice_examples :
  JS.slice [1; 2; 3; 4; 5] (JS.Int 1) (JS.Int 3) = [2; 3] /\
  JS.slice [1; 2; 3; 4; 5] (JS.Int (-2)) JS.PosInf = [4; 5] /\
  JS.slice [1; 2; 3; 4; 5] (JS.Int 3) (JS.Int 1) = [] /\
  JS.slice [1; 2; 3; 4; 5] JS.NotANumber (JS.Int 2) = [1; 2].
Proof. repeat split; reflexivity. Qed.

(** Two doubles on which [eqb] computes [false] are different values. *)
Lemma float_neq (x y : float) :
  PrimFloat.eqb x x = true -> PrimFloat.eqb x y = false -> x <> y.
Proof.
  intros Hxx Hxy Heq. rewrite <- Heq in Hxy. congruence.
Qed.

(** ** The portfolio store *)

Section PortfolioFacts.
Import Portfolio.

Lemma positions_with_positions st ps now :
  positions (with_positions st ps now) = ps.
Proof. reflexivity. Qed.

Lemma reprice_hit priceUpdates now h p :
  priceUpdates !! Position.symbol h = Some p ->
  JS.truthy p = true ->
  reprice priceUpdates now h =
  {| Position.id := Position.id h;
     Position.symbol := Position.symbol h;
     Position.name := Position.name h;
     Position.amount := Position.amount h;
     Position.currentPrice := p;
     Position.averageBuyPrice := Position.averageBuyPrice h;
     Position.totalValue := (Position.amount h * p)%float;
     Position.dailyChange := (p - Position.currentPrice h)%float;
     Position.dailyChangePercent :=
       (((p - Position.currentPrice h) / Position.currentPrice h)
        * 100)%float;
     Position.totalGainLoss :=
       (Position.amount h * p
        - Position.amount h * Position.averageBuyPrice h)%float;
     Position.totalGainLossPercent :=
       (((p - Position.averageBuyPrice h) / Position.averageBuyPrice h)
        * 100)%float;
     Position.lastUpdated := now |}.
Proof.
  intros Hp Ht. unfold reprice, JS.get. rewrite Hp. simpl. rewrite Ht.
  reflexivity.
Qed.

Lemma reprice_skip priceUpdates now h p :
  priceUpdates !! Position.symbol h = Some p ->
  JS.truthy p = false ->
  reprice priceUpdates now h = h.
Proof.
  intros Hp Ht. unfold reprice, JS.get. rewrite Hp. simpl. rewrite Ht.
  reflexivity.
Qed.

Lemma reprice_missing priceUpdates now h :
  priceUpdates !! Position.symbol h = None ->
  JS.isInherited (Position.symbol h) = false ->
  reprice priceUpdates now h = h.
Proof.
  intros Hp Hi. unfold reprice, JS.get. rewrite Hp, Hi. reflexivity.
Qed.

Lemma updatePrices_lookup priceUpdates now st (i : nat) :
  positions (updatePrices priceUpdates now st) !! i
  = reprice priceUpdates now <$> positions st !! i.
Proof.
  unfold updatePrices. rewrite positions_with_positions.
  apply list_lookup_fmap.
Qed.

Lemma zero_is_falsy p : PrimFloat.eqb p 0%float = true -> JS.truthy p = false.
Proof.
  intros H. unfold JS.truthy. rewrite H, orb_true_r. reflexivity.
Qed.

(** Repricing keeps the rule whether or not the position is touched. *)
Lemma reprice_valued priceUpdates now h :
  valued h -> valued (reprice priceUpdates now h).
Proof.
  intros Hv. unfold reprice.
  destruct (JS.truthy_property _); [reflexivity|exact Hv].
Qed.

(** A trade re-establishes the rule on the position it is applied to. *)
Lemma applyTrade_valued trade now h : valued (applyTrade trade now h).
Proof.
  unfold applyTrade. destruct (Trade.type trade); reflexivity.
Qed.

Lemma tradeFirst_valued trade now ps :
  Forall valued ps -> Forall valued (tradeFirst trade now ps).
Proof.
  induction 1 as [|p ps Hp Hps IH]; simpl; [constructor|].
  destruct (String.eqb _ _); constructor; auto using applyTrade_valued.
Qed.

Lemma stamp_valued p now : valued p -> valued (stamp p now).
Proof. intros H. exact H. Qed.

End PortfolioFacts.

(** C1, as stated, fails: [addPosition] stores the value it is given, so a
    reachable state can hold a position whose [totalValue] is not
    [amount * currentPrice]. *)
Lemma reachable_state_misvalued :
  let st :=
    Portfolio.addPosition misvaluedHolding 1%float
                          (Portfolio.initial 0%float) in
  Portfolio.reachable st /\ ~ Portfolio.all_valued st.
Proof.
  split.
  - apply (Portfolio.reachable_step (Portfolio.AddPosition misvaluedHolding)).
    constructor.
  - intros Hall. apply Forall_inv in Hall. revert Hall.
    apply float_neq; reflexivity.
Qed.

(** C1 (amended): [updatePrices] and [optimisticTrade] recompute [totalValue]
    as [amount * currentPrice] on the positions they modify and no other
    action changes a quantity or a price, so every state reached by actions
    whose [addPosition] and [updatePosition] arguments satisfy the rule has
    all its positions satisfying it. *)
Theorem all_valued_when_supplied st :
  Portfolio.reachable_supplied st -> Portfolio.all_valued st.
Proof.
  unfold Portfolio.all_valued.
  induction 1 as [now|a now st Hreach IH Hsup]; [constructor|].
  destruct a; simpl in *; try exact IH.
  - (* addPosition *)
    apply Forall_app. split; [exact IH|].
    constructor; [exact Hsup|constructor].
  - (* updatePosition *)
    unfold Portfolio.updatePosition.
    destruct (Portfolio.findIndex id (Portfolio.positions st)) as [index|] eqn:Hidx;
      [|exact IH].
    rewrite positions_with_positions.
    apply Forall_lookup. intros i p Hi.
    destruct (decide (index = i)) as [->|Hne].
    + rewrite list_lookup_alter_eq in Hi.
      destruct (Portfolio.positions st !! i) as [q|] eqn:Hq; [|discriminate].
      simpl in Hi. injection Hi as <-. eapply Hsup; eauto.
    + rewrite list_lookup_alter_ne in Hi by exact Hne.
      eapply Forall_lookup in IH; eauto.
  - (* removePosition *)
    rewrite List.Forall_forall in *. intros p Hp.
    apply IH. apply filter_In in Hp. tauto.
  - (* updatePrices *)
    rewrite List.Forall_forall in *. intros p Hp.
    apply in_map_iff in Hp. destruct Hp as (q & <- & Hq).
    apply reprice_valued. auto.
  - (* optimisticTrade *)
    apply tradeFirst_valued. exact IH.
Qed.

Lemma all_valued_when_supplied_witness :
  Portfolio.all_valued
    (Portfolio.optimisticTrade (Trade.mk "BTC" 1%float 55000%float buy) 3%float
       (Portfolio.updatePrices {[ "BTC" := 60000%float ]} 2%float btcStore)).
Proof.
  apply all_valued_when_supplied.
  apply (Portfolio.supplied_step (Portfolio.OptimisticTrade _)); [|exact I].
  apply (Portfolio.supplied_step (Portfolio.UpdatePrices _)); [|exact I].
  apply (Portfolio.supplied_step (Portfolio.AddPosition _)).
  - constructor.
  - reflexivity.
Defined.

(** C2, as stated, fails for the price 0: the update is not applied. *)
Lemma zero_price_not_applied :
  ~ (forall st priceUpdates now (i : nat) h p,
        Portfolio.positions st !! i = Some h ->
        priceUpdates !! Position.symbol h = Some p ->
        exists h',
          Portfolio.positions (Portfolio.updatePrices priceUpdates now st) !! i
          = Some h'
          /\ Position.currentPrice h' = p
          /\ Position.totalValue h' = (Position.amount h * p)%float).
Proof.
  intros H.
  destruct (H btcStore {[ "BTC" := 0%float ]} 2%float 0%nat
              (btcHolding 1%float) 0%float)
    as (h' & Hh' & Hprice & _); [reflexivity|vm_compute; reflexivity|].
  vm_compute in Hh'. injection Hh' as <-. revert Hprice.
  apply float_neq; reflexivity.
Qed.

(** C2 (amended): a price that is neither 0 nor NaN is applied to every
    position of its symbol: the position gets that price, its value becomes
    [amount * p], and the gain and loss figures follow; on the holding of 2
    BTC bought at 40000, the price 60000 gives the value 120000, the gain
    40000 and 50 percent. *)
Theorem updatePrices_applies_price :
  (forall st priceUpdates now (i : nat) h p,
      Portfolio.positions st !! i = Some h ->
      priceUpdates !! Position.symbol h = Some p ->
      JS.truthy p = true ->
      exists h',
        Portfolio.positions (Portfolio.updatePrices priceUpdates now st) !! i
        = Some h'
        /\ Position.currentPrice h' = p
        /\ Position.amount h' = Position.amount h
        /\ Position.totalValue h' = (Position.amount h * p)%float
        /\ Position.totalGainLoss h'
           = (Position.amount h * p
              - Position.amount h * Position.averageBuyPrice h)%float
        /\ Position.totalGainLossPercent h'
           = (((p - Position.averageBuyPrice h) / Position.averageBuyPrice h)
              * 100)%float)
  /\ (forall st id name value change percent gain gainPercent updated now,
        Portfolio.positions st
        = [Position.mk id "BTC" name 2%float 50000%float 40000%float value
                       change percent gain gainPercent updated] ->
        exists h',
          Portfolio.positions
            (Portfolio.updatePrices {[ "BTC" := 60000%float ]} now st)
          = [h']
          /\ Position.currentPrice h' = 60000%float
          /\ Position.totalValue h' = 120000%float
          /\ Position.totalGainLoss h' = 40000%float
          /\ Position.totalGainLossPercent h' = 50%float).
Proof.
  split.
  - intros st priceUpdates now i h p Hi Hp Ht.
    exists (Portfolio.reprice priceUpdates now h). split.
    + rewrite updatePrices_lookup, Hi. reflexivity.
    + rewrite (reprice_hit _ _ _ _ Hp Ht). simpl. repeat split.
  - intros st id name value change percent gain gainPercent updated now Hst.
    eexists. split.
    + unfold Portfolio.updatePrices. rewrite positions_with_positions, Hst.
      simpl. unfold Portfolio.reprice. simpl.
      reflexivity.
    + simpl. repeat split.
Qed.

Lemma updatePrices_applies_price_witness :
  exists h',
    Portfolio.positions
      (Portfolio.updatePrices {[ "BTC" := 60000%float ]} 2%float btcStore)
      !! 0%nat
    = Some h'
    /\ Position.currentPrice h' = 60000%float
    /\ Position.amount h' = 2%float
    /\ Position.totalValue h' = (2 * 60000)%float
    /\ Position.totalGainLoss h' = (2 * 60000 - 2 * 40000)%float
    /\ Position.totalGainLossPercent h'
       = (((60000 - 40000) / 40000) * 100)%float.
Proof.
  apply (proj1 updatePrices_applies_price btcStore {[ "BTC" := 60000%float ]}
           2%float 0%nat (btcHolding 1%float) 60000%float);
    vm_compute; reflexivity.
Defined.

(** C4: the code does not treat a zero base as 0 percent.  A price update on
    a position bought at price 0, or whose current price is 0, stores
    [Infinity] in the percentages, and the aggregate's gain percentage is
    [Infinity] as well, since its guard tests the total value and not the
    divisor. *)
Theorem zero_base_gives_infinity :
  (let st :=
     Portfolio.updatePrices {[ "btc" := 67000%float ]} 2%float
       (Portfolio.addPosition
          (addedAsset "1" "btc" "Bitcoin" 1%float 67420%float 0%float)
          1%float (Portfolio.initial 0%float)) in
   Position.totalGainLossPercent <$> Portfolio.positions st
   = [infinity]
   /\ Metrics.totalGainLossPercent (Portfolio.metrics st) = infinity)
  /\ (let st :=
        Portfolio.updatePrices {[ "btc" := 5%float ]} 2%float
          (Portfolio.addPosition
             (addedAsset "1" "btc" "Bitcoin" 1%float 0%float 0%float)
             1%float (Portfolio.initial 0%float)) in
      Position.dailyChangePercent <$> Portfolio.positions st = [infinity]
      /\ Position.totalGainLossPercent <$> Portfolio.positions st
         = [infinity]).
Proof. vm_compute. repeat split. Qed.

(** C5: for the empty list the aggregate is all zeros, with both performer
    labels "N/A". *)
Theorem calculateMetrics_empty :
  Portfolio.calculateMetrics []
  = {| Metrics.totalValue := 0%float;
       Metrics.dailyChange := 0%float;
       Metrics.dailyChangePercent := 0%float;
       Metrics.totalAssets := 0;
       Metrics.bestPerformer := "N/A";
       Metrics.worstPerformer := "N/A";
       Metrics.totalGainLoss := 0%float;
       Metrics.totalGainLossPercent := 0%float |}.
Proof. reflexivity. Qed.

(** C6: the labels are not "first position attaining the maximum (minimum)"
    when a daily change of 0 is the running best (worst): [0 || -Infinity]
    is [-Infinity], so any later position replaces it.  With changes 0 and
    -5 the best performer is the one at -5; with 0 and 5 the worst performer
    is the one at 5; of two positions at 0 the second is labelled, not the
    first. *)
Theorem performer_labels_at_zero :
  Metrics.bestPerformer
    (Portfolio.calculateMetrics
       [withDailyPercent "aaa" 0%float; withDailyPercent "bbb" (-5)%float])
  = "BBB"
  /\ Metrics.worstPerformer
       (Portfolio.calculateMetrics
          [withDailyPercent "aaa" 0%float; withDailyPercent "bbb" 5%float])
     = "BBB"
  /\ (let m :=
        Portfolio.calculateMetrics
          [addedAsset "1" "btc" "Bitcoin" 1%float 67420%float 60000%float;
           addedAsset "2" "eth" "Ethereum" 1%float 3850%float 3000%float] in
      Metrics.bestPerformer m = "ETH" /\ Metrics.worstPerformer m = "ETH").
Proof. vm_compute. repeat split. Qed.

(** Away from 0 the labels are the first positions at the extremes. *)
Example performer_labels_nonzero :
  let m :=
    Portfolio.calculateMetrics
      [withDailyPercent "btc" 3%float; withDailyPercent "eth" 3%float;
       withDailyPercent "ada" (-2)%float; withDailyPercent "sol" (-2)%float] in
  Metrics.bestPerformer m = "BTC" /\ Metrics.worstPerformer m = "ADA".
Proof. vm_compute. split; reflexivity. Qed.

Lemma tradeFirst_split trade now ps h :
  find (fun p => String.eqb (Position.symbol p) (Trade.symbol trade)) ps
  = Some h ->
  exists before after,
    ps = before ++ h :: after
    /\ Forall (fun p => Position.symbol p <> Trade.symbol trade) before
    /\ Position.symbol h = Trade.symbol trade
    /\ Portfolio.tradeFirst trade now ps
       = before ++ Portfolio.applyTrade trade now h :: after.
Proof.
  induction ps as [|p ps IH]; simpl; [discriminate|].
  destruct (String.eqb (Position.symbol p) (Trade.symbol trade)) eqn:Hp.
  - intros [= ->]. exists [], ps. apply String.eqb_eq in Hp.
    repeat split; auto.
  - intros Hfind. destruct (IH Hfind) as (before & after & -> & Hb & Hh & Ht).
    exists (p :: before), after. apply String.eqb_neq in Hp.
    repeat split; auto. simpl. rewrite Ht. reflexivity.
Qed.

(** C7, as stated, fails for a position that is not the first of its
    symbol: of two positions of the symbol a buy leaves the second as it
    is, at its own average purchase price and not at the weighted
    average. *)
Lemma buy_misses_later_position :
  ~ (forall st trade now (i : nat) h,
        Portfolio.positions st !! i = Some h ->
        Position.symbol h = Trade.symbol trade ->
        Trade.type trade = buy ->
        exists h',
          Portfolio.positions (Portfolio.optimisticTrade trade now st) !! i
          = Some h'
          /\ Position.averageBuyPrice h'
             = ((Position.amount h * Position.averageBuyPrice h
                 + Trade.amount trade * Trade.price trade)
                / (Position.amount h + Trade.amount trade))%float).
Proof.
  intros H.
  destruct (H twoBtcStore (Trade.mk "btc" 1%float 45000%float buy) 3%float
              1%nat secondBtc)
    as (h' & Hh' & Havg); [reflexivity|reflexivity|reflexivity|].
  vm_compute in Hh'. injection Hh' as <-. revert Havg.
  apply float_neq; reflexivity.
Qed.

(** C7 (amended): the trade is applied to the first position of its symbol
    and to no other; the positions before and after it, later ones of the
    same symbol included, stay as they are.  On that position a sell keeps
    the average purchase price (and the identity, the price and the
    percentage figures) and changes the quantity, the value, the gain and
    the time stamp; a buy sets the average purchase price to the weighted
    average of the old and the traded quantities. *)
Theorem optimisticTrade_frame st trade now h :
  find (fun p => String.eqb (Position.symbol p) (Trade.symbol trade))
       (Portfolio.positions st) = Some h ->
  exists before after h',
    Portfolio.positions st = before ++ h :: after
    /\ Forall (fun p => Position.symbol p <> Trade.symbol trade) before
    /\ Portfolio.positions (Portfolio.optimisticTrade trade now st)
       = before ++ h' :: after
    /\ Position.id h' = Position.id h
    /\ Position.symbol h' = Position.symbol h
    /\ Position.name h' = Position.name h
    /\ Position.currentPrice h' = Position.currentPrice h
    /\ Position.dailyChange h' = Position.dailyChange h
    /\ Position.dailyChangePercent h' = Position.dailyChangePercent h
    /\ Position.lastUpdated h' = now
    /\ Position.totalValue h'
       = (Position.amount h' * Position.currentPrice h)%float
    /\ Position.totalGainLoss h'
       = (Position.totalValue h'
          - Position.amount h' * Position.averageBuyPrice h')%float
    /\ match Trade.type trade with
       | sell =>
           Position.averageBuyPrice h' = Position.averageBuyPrice h
           /\ Position.totalGainLossPercent h'
              = Position.totalGainLossPercent h
           /\ Position.amount h'
              = JS.Math_max 0%float
                  (Position.amount h - Trade.amount trade)%float
       | buy =>
           Position.averageBuyPrice h'
           = ((Position.amount h * Position.averageBuyPrice h
               + Trade.amount trade * Trade.price trade)
              / (Position.amount h + Trade.amount trade))%float
           /\ Position.amount h'
              = (Position.amount h + Trade.amount trade)%float
       end.
Proof.
  intros Hfind.
  destruct (tradeFirst_split trade now _ _ Hfind)
    as (before & after & Hps & Hbefore & _ & Htrade).
  exists before, after, (Portfolio.applyTrade trade now h).
  unfold Portfolio.optimisticTrade. rewrite positions_with_positions, Htrade.
  unfold Portfolio.applyTrade.
  destruct (Trade.type trade); simpl; repeat split; auto.
Qed.

Lemma optimisticTrade_frame_witness :
  exists before after h',
    Portfolio.positions twoBtcStore = before ++ firstBtc :: after
    /\ Forall (fun p => Position.symbol p <> "btc") before
    /\ Portfolio.positions
         (Portfolio.optimisticTrade (Trade.mk "btc" 1%float 45000%float buy)
                                    3%float twoBtcStore)
       = before ++ h' :: after
    /\ Position.id h' = "1"
    /\ Position.symbol h' = "btc"
    /\ Position.name h' = "Bitcoin"
    /\ Position.currentPrice h' = 50000%float
    /\ Position.dailyChange h' = 0%float
    /\ Position.dailyChangePercent h' = 0%float
    /\ Position.lastUpdated h' = 3%float
    /\ Position.totalValue h' = (Position.amount h' * 50000)%float
    /\ Position.totalGainLoss h'
       = (Position.totalValue h'
          - Position.amount h' * Position.averageBuyPrice h')%float
    /\ Position.averageBuyPrice h'
       = ((2 * 40000 + 1 * 45000) / (2 + 1))%float
    /\ Position.amount h' = (2 + 1)%float.
Proof.
  apply (optimisticTrade_frame twoBtcStore
           (Trade.mk "btc" 1%float 45000%float buy) 3%float firstBtc).
  reflexivity.
Defined.

(** On the two positions of the same symbol: the buy moves the first to
    the weighted average and leaves the second; a sell stamps the position
    it is applied to. *)
Example trade_on_two_positions :
  Position.averageBuyPrice <$>
    Portfolio.positions
      (Portfolio.optimisticTrade (Trade.mk "btc" 2%float 50000%float buy)
                                 3%float twoBtcStore)
  = [45000%float; 30000%float]
  /\ Position.lastUpdated <$>
       Portfolio.positions
         (Portfolio.optimisticTrade (Trade.mk "btc" 1%float 50000%float sell)
                                    3%float twoBtcStore)
     = [3%float; 0%float].
Proof. vm_compute. split; reflexivity. Qed.

Example optimisticTrade_samples :
  (Position.amount <$>
     Portfolio.positions
       (Portfolio.optimisticTrade (Trade.mk "BTC" 0.5%float 60000%float sell)
                                  2%float btcStore),
   Position.averageBuyPrice <$>
     Portfolio.positions
       (Portfolio.optimisticTrade (Trade.mk "BTC" 2%float 60000%float buy)
                                  2%float btcStore),
   Position.amount <$>
     Portfolio.positions
       (Portfolio.optimisticTrade (Trade.mk "BTC" 3%float 60000%float sell)
                                  2%float btcStore))
  = ([1.5%float], [50000%float], [0%float]).
Proof. reflexivity. Qed.

(** ** The market store *)

Section MarketFacts.
Import Market.

(** The literal of [updateOrderBook] always has its four properties, and
    they are the ones written last. *)
Lemma orderBookLiteral_complete stored orderBook symbol now :
  OrderBook.complete (orderBookLiteral stored orderBook symbol now)
  = Some (OrderBook.mk symbol [] [] now).
Proof. reflexivity. Qed.

Lemma updateOrderBook_books symbol orderBook now st :
  orderBooks (updateOrderBook symbol orderBook now st)
  = <[symbol := OrderBook.mk symbol [] [] now]> (orderBooks st).
Proof.
  unfold updateOrderBook. rewrite orderBookLiteral_complete. reflexivity.
Qed.

Lemma recordPrice_books symbol price now st :
  orderBooks (recordPrice symbol price now st) = orderBooks st.
Proof.
  unfold recordPrice. simpl.
  destruct (marketData st !! symbol); reflexivity.
Qed.

Lemma recordPrice_priceUpdates symbol price now st :
  priceUpdates (recordPrice symbol price now st)
  = <[symbol := price]> (priceUpdates st).
Proof.
  unfold recordPrice. simpl.
  destruct (marketData st !! symbol); reflexivity.
Qed.

Lemma bulkUpdatePrices_books updates now st :
  orderBooks (bulkUpdatePrices updates now st) = orderBooks st.
Proof.
  unfold bulkUpdatePrices. simpl.
  apply (map_fold_weak_ind (fun acc _ => orderBooks acc = orderBooks st)).
  - reflexivity.
  - intros symbol price m acc _ IH. rewrite recordPrice_books. exact IH.
Qed.

(** [bulkUpdatePrices] records every price of the map, 0 included. *)
Lemma bulkUpdatePrices_records updates now st symbol price :
  updates !! symbol = Some price ->
  priceUpdates (bulkUpdatePrices updates now st) !! symbol = Some price.
Proof.
  unfold bulkUpdatePrices. simpl. revert symbol price.
  apply (map_fold_weak_ind
           (fun acc (m : gmap string JS.number) =>
              forall symbol price,
                m !! symbol = Some price ->
                priceUpdates acc !! symbol = Some price)).
  - intros symbol price H. rewrite lookup_empty in H. discriminate.
  - intros k x m acc Hk IH symbol price Hl.
    rewrite recordPrice_priceUpdates.
    destruct (decide (k = symbol)) as [->|Hne].
    + rewrite lookup_insert_eq in Hl |- *. exact Hl.
    + rewrite lookup_insert_ne in Hl |- * by exact Hne. auto.
Qed.

Lemma recordPrice_marketData symbol price now st :
  marketData (recordPrice symbol price now st)
  = match marketData st !! symbol with
    | Some m => <[symbol := MarketData.reprice m price now]> (marketData st)
    | None => marketData st
    end.
Proof.
  unfold recordPrice. simpl. destruct (marketData st !! symbol); reflexivity.
Qed.

(** [bulkUpdatePrices] reprices the entries of the symbols of the map, and
    creates none. *)
Lemma bulkUpdatePrices_marketData updates now st symbol :
  marketData (bulkUpdatePrices updates now st) !! symbol
  = match updates !! symbol, marketData st !! symbol with
    | Some price, Some m => Some (MarketData.reprice m price now)
    | _, old => old
    end.
Proof.
  unfold bulkUpdatePrices. simpl. revert symbol.
  apply (map_fold_weak_ind
           (fun acc (m : gmap string JS.number) =>
              forall symbol,
                marketData acc !! symbol
                = match m !! symbol, marketData st !! symbol with
                  | Some price, Some e => Some (MarketData.reprice e price now)
                  | _, old => old
                  end)).
  - intros symbol. rewrite lookup_empty. reflexivity.
  - intros k x m acc Hk IH symbol. rewrite recordPrice_marketData.
    pose proof (IH k) as Hkk. rewrite Hk in Hkk.
    destruct (decide (k = symbol)) as [->|Hne].
    + rewrite lookup_insert_eq. rewrite Hkk.
      destruct (marketData st !! symbol) as [e|].
      * rewrite lookup_insert_eq. reflexivity.
      * exact Hkk.
    + rewrite (lookup_insert_ne m) by exact Hne.
      destruct (marketData acc !! k).
      * rewrite lookup_insert_ne by exact Hne. apply IH.
      * apply IH.
Qed.

Lemma step_books a now st :
  books_emptied st -> books_emptied (step a now st).
Proof.
  intros Hst. unfold books_emptied in *.
  destruct a; unfold step; try exact Hst.
  - rewrite updateOrderBook_books. apply map_Forall_insert_2; [|exact Hst].
    split; reflexivity.
  - unfold updatePrice. simpl. rewrite recordPrice_books. exact Hst.
  - rewrite bulkUpdatePrices_books. exact Hst.
Qed.

End MarketFacts.

(** C9, as stated, fails on the market side: [bulkUpdatePrices] has no
    guard on the price, so for a symbol given the price 0 it does not skip
    the entry of that symbol but reprices it to 0. *)
Lemma zero_price_applied_to_market :
  ~ (forall market updates now symbol entry,
        updates !! symbol = Some 0%float ->
        Market.marketData market !! symbol = Some entry ->
        Market.marketData (Market.bulkUpdatePrices updates now market)
          !! symbol
        = Some entry).
Proof.
  intros H.
  assert (Hprice :
    MarketData.price <$>
      Market.marketData
        (Market.bulkUpdatePrices {[ "BTC" := 0%float ]} 2%float btcMarket)
        !! "BTC"
    = Some 67420%float).
  { rewrite (H btcMarket {[ "BTC" := 0%float ]} 2%float "BTC"
               (MarketData.mk "BTC" 67420%float 0%float 0%float 0%float
                              0%float 1%float));
      vm_compute; reflexivity. }
  apply (f_equal (default 0%float)) in Hprice. vm_compute in Hprice.
  revert Hprice. apply float_neq; reflexivity.
Qed.

(** C9 (amended): a position whose symbol is given the price 0 is left as
    it is, in every field, by [updatePrices].  The market store's
    [bulkUpdatePrices] does not skip that symbol: it records the 0 among
    the price updates and reprices the market entry of the symbol, if there
    is one, to it. *)
Theorem zero_price_skips_position st priceUpdates now (i : nat) h p :
  Portfolio.positions st !! i = Some h ->
  priceUpdates !! Position.symbol h = Some p ->
  PrimFloat.eqb p 0%float = true ->
  Portfolio.positions (Portfolio.updatePrices priceUpdates now st) !! i
  = Some h
  /\ forall market,
       Market.priceUpdates (Market.bulkUpdatePrices priceUpdates now market)
         !! Position.symbol h
       = Some p
       /\ forall entry,
            Market.marketData market !! Position.symbol h = Some entry ->
            Market.marketData
              (Market.bulkUpdatePrices priceUpdates now market)
              !! Position.symbol h
            = Some (MarketData.reprice entry p now).
Proof.
  intros Hi Hp Hz. split.
  - rewrite updatePrices_lookup, Hi. simpl.
    rewrite (reprice_skip _ _ _ _ Hp (zero_is_falsy _ Hz)). reflexivity.
  - intros market. split.
    + apply bulkUpdatePrices_records, Hp.
    + intros entry He. rewrite bulkUpdatePrices_marketData.
      unfold JS.number in *. rewrite Hp, He. reflexivity.
Qed.

Lemma zero_price_skips_position_witness :
  Portfolio.positions
    (Portfolio.updatePrices {[ "BTC" := 0%float ]} 2%float btcStore) !! 0%nat
  = Some (btcHolding 1%float)
  /\ Market.priceUpdates
       (Market.bulkUpdatePrices {[ "BTC" := 0%float ]} 2%float btcMarket)
       !! "BTC"
     = Some 0%float
  /\ Market.marketData
       (Market.bulkUpdatePrices {[ "BTC" := 0%float ]} 2%float btcMarket)
       !! "BTC"
     = Some (MarketData.reprice
               (MarketData.mk "BTC" 67420%float 0%float 0%float 0%float
                              0%float 1%float)
               0%float 2%float).
Proof.
  destruct (zero_price_skips_position btcStore {[ "BTC" := 0%float ]} 2%float
              0%nat (btcHolding 1%float) 0%float)
    as [Hposition Hmarket]; [vm_compute; reflexivity..|].
  destruct (Hmarket btcMarket) as [Hrecorded Hentry].
  split; [exact Hposition|]. split; [exact Hrecorded|].
  apply Hentry. vm_compute. reflexivity.
Defined.

(** C10: after [updateOrderBook(symbol, partial)] the book stored for the
    symbol has no bids and no asks, whatever [partial] carries, and every
    book of every reachable state of the market store is such a book. *)
Theorem updateOrderBook_empties_book :
  (forall st symbol orderBook now,
      exists book,
        Market.orderBooks (Market.updateOrderBook symbol orderBook now st)
          !! symbol = Some book
        /\ OrderBook.bids book = []
        /\ OrderBook.asks book = []
        /\ (Market.books_emptied st ->
            Market.books_emptied
              (Market.updateOrderBook symbol orderBook now st)))
  /\ (forall st, Market.reachable st -> Market.books_emptied st).
Proof.
  split.
  - intros st symbol orderBook now.
    exists (OrderBook.mk symbol [] [] now).
    rewrite updateOrderBook_books, lookup_insert_eq.
    do 3 (split; [reflexivity|]).
    intros Hst.
    exact (step_books (Market.UpdateOrderBook symbol orderBook) now st Hst).
  - induction 1 as [|a now st _ IH].
    + apply map_Forall_empty.
    + apply step_books. exact IH.
Qed.

Lemma updateOrderBook_empties_book_witness :
  Market.books_emptied
    (Market.updateOrderBook "btc"
       (OrderBook.mkPartial None (Some sampleBids) (Some sampleBids) None)
       1%float Market.initial).
Proof.
  apply (proj2 updateOrderBook_empties_book).
  apply (Market.reachable_step
           (Market.UpdateOrderBook "btc"
              (OrderBook.mkPartial None (Some sampleBids) (Some sampleBids)
                                   None))).
  constructor.
Defined.

(** The bids and asks of an [order_book] message are dropped on the way
    into the store. *)
Example order_book_message_dropped :
  Market.orderBooks
    (Feed.market
       (Feed.handleMessage
          (Feed.order_book (Some "btc") (Some sampleBids) (Some sampleBids))
          7%float
          (Feed.mkApp (Portfolio.initial 0%float) Market.initial)))
    !! "btc"
  = Some (OrderBook.mk "btc" [] [] 7%float).
Proof. vm_compute. reflexivity. Qed.

(** On the market side a price of 0 is not skipped: it is recorded, and the
    market entry of the symbol is repriced to 0. *)
Example bulkUpdatePrices_zero :
  let st :=
    Market.bulkUpdatePrices {[ "btc" := 0%float ]} 2%float
      (Market.updateMarketData "btc"
         (MarketData.mkPartial None (Some 67420%float) None None None None
                               None)
         1%float Market.initial) in
  Market.priceUpdates st !! "btc" = Some 0%float
  /\ MarketData.price <$> Market.marketData st !! "btc" = Some 0%float.
Proof. vm_compute. split; reflexivity. Qed.

(** ** Sorting by insertion *)

Section SortFacts.
Context {A : Type}.
Variable order : A -> A -> comparison.

(** The elements the comparator is used on, and what is known of it
    there. *)
Variable dom : A -> Prop.
Hypothesis flip :
  forall a b, dom a -> dom b -> order b a = CompOpp (order a b).
Hypothesis le_trans :
  forall a b d, dom a -> dom b -> dom d ->
    order a b <> Gt -> order b d <> Gt -> order a d <> Gt.

Local Abbreviation ascending := (JS.ascending order).
Local Abbreviation increasing := (JS.increasing order).
Local Abbreviation no_ties := (JS.no_ties order).

Lemma In_insert x y s : In y (JS.insert order x s) <-> y = x \/ In y s.
Proof.
  induction s as [|z s IH]; simpl.
  - intuition.
  - destruct (order x z); simpl; rewrite ?IH; intuition.
Qed.

Lemma In_sort_by y l : In y (JS.sort_by order l) <-> In y l.
Proof.
  induction l as [|x l IH]; simpl; [tauto|].
  rewrite In_insert, IH. intuition.
Qed.

Lemma Forall_sort_by (P : A -> Prop) l :
  Forall P l -> Forall P (JS.sort_by order l).
Proof.
  rewrite !List.Forall_forall. intros H y Hy. apply H, In_sort_by, Hy.
Qed.

Lemma insert_front x s : ascending (x :: s) -> JS.insert order x s = x :: s.
Proof.
  destruct s as [|y s]; simpl; [reflexivity|].
  intros [Hxy _]. destruct (order x y); congruence.
Qed.

(** Sorting a list that is in order changes nothing. *)
Lemma sort_by_fixed s : ascending s -> JS.sort_by order s = s.
Proof.
  induction s as [|x s IH]; [reflexivity|].
  intros Hs. simpl. rewrite IH by apply Hs. apply insert_front, Hs.
Qed.

Lemma lt_trans a b d :
  dom a -> dom b -> dom d ->
  order a b = Lt -> order b d = Lt -> order a d = Lt.
Proof.
  intros Ha Hb Hd Hab Hbd.
  assert (Had : order a d <> Gt)
    by (apply (le_trans a b d); auto; congruence).
  destruct (order a d) eqn:E; [|reflexivity|congruence].
  exfalso. apply (le_trans d a b); auto.
  - rewrite (flip a d), E by assumption. discriminate.
  - congruence.
  - rewrite (flip b d), Hbd by assumption. reflexivity.
Qed.

Lemma insert_ascending x s :
  dom x -> Forall dom s -> ascending s -> ascending (JS.insert order x s).
Proof.
  intros Hx. induction s as [|y s IH]; simpl; [tauto|].
  intros Hdom [Hy Hs]. apply Forall_cons in Hdom as [Hdy Hds].
  destruct (order x y) eqn:Hxy; try (simpl; rewrite Hxy; split;
    [discriminate|split; assumption]).
  assert (Hyx : order y x <> Gt)
    by (rewrite (flip x y), Hxy by assumption; discriminate).
  specialize (IH Hds Hs). split; [|exact IH].
  destruct s as [|z s]; simpl; [exact Hyx|].
  destruct (order x z); assumption.
Qed.

Lemma sort_by_ascending l :
  Forall dom l -> ascending (JS.sort_by order l).
Proof.
  induction 1 as [|x l Hx Hl IH]; simpl; [exact I|].
  apply insert_ascending; auto using Forall_sort_by.
Qed.

(** Sorting twice is sorting once. *)
Lemma sort_by_idempotent l :
  Forall dom l ->
  JS.sort_by order (JS.sort_by order l) = JS.sort_by order l.
Proof.
  intros Hl. apply sort_by_fixed, sort_by_ascending, Hl.
Qed.

(** Where the element goes: past everything it is after. *)
Lemma insert_middle x lo hi :
  Forall (fun y => order x y = Gt) lo ->
  match hi with [] => True | y :: _ => order x y <> Gt end ->
  JS.insert order x (lo ++ hi) = lo ++ x :: hi.
Proof.
  induction 1 as [|y lo Hy Hlo IH]; simpl.
  - destruct hi as [|y hi]; [reflexivity|].
    intros Hxy. simpl. destruct (order x y); congruence.
  - intros Hhi. rewrite Hy, IH by exact Hhi. reflexivity.
Qed.

Lemma increasing_split x s :
  dom x -> Forall dom s -> increasing s ->
  Forall (fun y => order x y <> Eq) s ->
  exists lo hi,
    s = lo ++ hi
    /\ Forall (fun y => order x y = Gt) lo
    /\ Forall (fun y => order x y = Lt) hi.
Proof.
  intros Hx. induction s as [|y s IH]; intros Hdom Hinc Hne.
  - exists [], []. repeat split; constructor.
  - apply Forall_cons in Hdom as [Hdy Hds].
    apply Forall_cons in Hne as [Hny Hns].
    destruct Hinc as [Hys Hinc].
    destruct (order x y) eqn:Hxy; [congruence| |].
    + exists [], (y :: s). repeat split; [constructor|].
      constructor; [exact Hxy|].
      rewrite List.Forall_forall in *. intros z Hz.
      apply (lt_trans x y z); auto.
    + destruct (IH Hds Hinc Hns) as (lo & hi & -> & Hlo & Hhi).
      exists (y :: lo), hi. repeat split; [|exact Hhi].
      constructor; assumption.
Qed.

Lemma increasing_middle x lo hi :
  increasing (lo ++ hi) ->
  Forall (fun y => order y x = Lt) lo ->
  Forall (fun y => order x y = Lt) hi ->
  increasing (lo ++ x :: hi).
Proof.
  induction lo as [|y lo IH]; simpl.
  - intros Hhi _ Hx. split; assumption.
  - intros [Hy Hinc] Hlo Hhi. apply Forall_cons in Hlo as [Hyx Hlo].
    split; [|apply IH; assumption].
    apply Forall_app in Hy as [Hy1 Hy2].
    apply Forall_app. split; [exact Hy1|]. constructor; assumption.
Qed.

(** The shape of one insertion into a sorted list without ties. *)
Lemma insert_shape x l :
  dom x -> Forall dom l -> increasing (JS.sort_by order l) ->
  Forall (fun y => order x y <> Eq) l ->
  exists lo hi,
    JS.sort_by order l = lo ++ hi
    /\ JS.sort_by order (x :: l) = lo ++ x :: hi
    /\ Forall (fun y => order x y = Gt) lo
    /\ Forall (fun y => order x y = Lt) hi.
Proof.
  intros Hx Hl Hinc Hne.
  destruct (increasing_split x (JS.sort_by order l) Hx)
    as (lo & hi & Hs & Hlo & Hhi); auto using Forall_sort_by.
  exists lo, hi. repeat split; auto.
  simpl. rewrite Hs. apply insert_middle; [exact Hlo|].
  destruct hi as [|y hi]; [exact I|].
  apply Forall_cons in Hhi as [Hy _]. congruence.
Qed.

Lemma sort_by_increasing l :
  Forall dom l -> no_ties l -> increasing (JS.sort_by order l).
Proof.
  induction 1 as [|x l Hx Hl IH]; [intros; exact I|].
  intros [Hne Hties]. specialize (IH Hties).
  destruct (insert_shape x l Hx Hl IH Hne) as (lo & hi & Hs & -> & Hlo & Hhi).
  rewrite Hs in IH. apply increasing_middle; auto.
  assert (Hdlo : Forall dom lo).
  { apply (Forall_sort_by dom) in Hl. rewrite Hs in Hl.
    apply Forall_app in Hl. tauto. }
  rewrite List.Forall_forall in *. intros y Hy.
  rewrite (flip x y), (Hlo y Hy) by auto. reflexivity.
Qed.

End SortFacts.

(** With the opposite comparator a list without ties is sorted into the
    reverse order. *)
Lemma sort_by_reverse {A : Type} (order : A -> A -> comparison)
    (dom : A -> Prop) :
  (forall a b, dom a -> dom b -> order b a = CompOpp (order a b)) ->
  (forall a b d, dom a -> dom b -> dom d ->
     order a b <> Gt -> order b d <> Gt -> order a d <> Gt) ->
  forall l,
    Forall dom l -> JS.no_ties order l ->
    JS.sort_by (fun a b => CompOpp (order a b)) l
    = rev (JS.sort_by order l).
Proof.
  intros flip le_trans.
  induction 1 as [|x l Hx Hl IH]; [reflexivity|].
  intros [Hne Hties]. specialize (IH Hties).
  destruct (insert_shape order dom flip le_trans x l Hx Hl) as
    (lo & hi & Hs & Hxs & Hlo & Hhi);
    [apply (sort_by_increasing order dom); assumption|exact Hne|].
  rewrite Hxs. change (JS.sort_by ?o (x :: l)) with (JS.insert o x (JS.sort_by o l)).
  rewrite IH, Hs, !rev_app_distr. simpl. rewrite <- app_assoc. simpl.
  apply (insert_middle (fun a b => CompOpp (order a b))).
  - rewrite List.Forall_forall in *. intros y Hy.
    apply in_rev in Hy. rewrite (Hhi y Hy). reflexivity.
  - destruct (rev lo) as [|y r] eqn:Hr; [exact I|].
    assert (Hy : In y lo) by (apply in_rev; rewrite Hr; left; reflexivity).
    rewrite List.Forall_forall in Hlo. rewrite (Hlo y Hy). discriminate.
Qed.

Lemma sort_by_ext {A : Type} (o1 o2 : A -> A -> comparison) l :
  (forall a b, o1 a b = o2 a b) -> JS.sort_by o1 l = JS.sort_by o2 l.
Proof.
  intros Hext. induction l as [|x l IH]; simpl; [reflexivity|].
  rewrite IH. generalize (JS.sort_by o2 l). intros s.
  induction s as [|y s IHs]; simpl; [reflexivity|].
  rewrite Hext, IHs. reflexivity.
Qed.

(** Negating the number a comparator returns swaps its sign. *)
Lemma sign_opp (v : JS.number) : JS.sign (- v)%float = CompOpp (JS.sign v).
Proof.
  unfold JS.sign. rewrite !ltb_spec, opp_spec.
  change (Prim2SF 0%float) with (S754_zero false).
  destruct (Prim2SF v) as [[]|[]| |[] m e]; reflexivity.
Qed.

(** ** The positions list: sorting *)

Section ListFacts.
Import PositionsList.
Variable localeCompare : string -> string -> JS.number.

Lemma handleSort_same sortBy sortOrder :
  handleSort sortBy (sortBy, sortOrder) = (sortBy, toggled sortOrder).
Proof. destruct sortBy, sortOrder; reflexivity. Qed.

Lemma comparator_toggled sortBy sortOrder a b :
  JS.sign (comparator localeCompare sortBy (toggled sortOrder) a b)
  = CompOpp (JS.sign (comparator localeCompare sortBy sortOrder a b)).
Proof.
  destruct sortOrder; unfold comparator; simpl.
  - apply sign_opp.
  - rewrite sign_opp. destruct (JS.sign _); reflexivity.
Qed.

(** What the boolean checks say. *)
Lemma consistentb_spec comparefn l :
  consistentb comparefn l = true ->
  (forall a b, In a l -> In b l ->
     JS.sign (comparefn b a) = CompOpp (JS.sign (comparefn a b)))
  /\ (forall a b d, In a l -> In b l -> In d l ->
        JS.sign (comparefn a b) <> Gt -> JS.sign (comparefn b d) <> Gt ->
        JS.sign (comparefn a d) <> Gt).
Proof.
  unfold consistentb. rewrite forallb_forall. intros H. split.
  - intros a b Ha Hb. specialize (H a Ha). rewrite forallb_forall in H.
    specialize (H b Hb). apply andb_prop in H as [H _].
    apply bool_decide_eq_true in H. exact H.
  - intros a b d Ha Hb Hd Hab Hbd. specialize (H a Ha).
    rewrite forallb_forall in H. specialize (H b Hb).
    apply andb_prop in H as [_ H]. rewrite forallb_forall in H.
    specialize (H d Hd).
    rewrite (bool_decide_eq_true_2 _ Hab), (bool_decide_eq_true_2 _ Hbd)
      in H.
    simpl in H. apply bool_decide_eq_true in H. exact H.
Qed.

Lemma no_tiesb_spec comparefn l :
  no_tiesb comparefn l = true ->
  JS.no_ties (fun a b => JS.sign (comparefn a b)) l.
Proof.
  induction l as [|x l IH]; simpl; [tauto|].
  intros H. apply andb_prop in H as [Hx Hl]. split; [|auto].
  rewrite forallb_forall in Hx. apply List.Forall_forall. intros y Hy.
  specialize (Hx y Hy). apply bool_decide_eq_true in Hx. exact Hx.
Qed.

Lemma Forall_In_self (l : list Position.t) : Forall (fun a => In a l) l.
Proof. apply List.Forall_forall. auto. Qed.

Lemma filter_fixed (f : Position.t -> bool) l :
  Forall (fun p => f p = true) l -> List.filter f l = l.
Proof.
  induction 1 as [|x l Hx Hl IH]; simpl; [reflexivity|].
  rewrite Hx, IH. reflexivity.
Qed.

Lemma filter_passes (f : Position.t -> bool) l :
  Forall (fun p => f p = true) (List.filter f l).
Proof.
  apply List.Forall_forall. intros p Hp. apply filter_In in Hp. tauto.
Qed.

End ListFacts.

(** C8, as stated, fails on ties: two positions of equal value keep their
    order in both directions, so toggling does not reverse the list. *)
Lemma toggle_keeps_ties :
  let before :=
    PositionsList.filteredAndSortedPositions PositionsList.codeUnitCompare
      [tieA; tieB] "" PositionsList.by_value PositionsList.desc in
  let after :=
    PositionsList.filteredAndSortedPositions PositionsList.codeUnitCompare
      [tieA; tieB] "" PositionsList.by_value PositionsList.asc in
  PositionsList.handleSort PositionsList.by_value
    (PositionsList.by_value, PositionsList.desc)
  = (PositionsList.by_value, PositionsList.asc)
  /\ before = [tieA; tieB] /\ after = [tieA; tieB] /\ after <> rev before.
Proof.
  repeat split; try (vm_compute; reflexivity).
  intros H. apply (f_equal (List.map Position.id)) in H.
  vm_compute in H. discriminate.
Qed.

(** C8 (amended): with a comparator that is consistent on the filtered
    positions, sorting is idempotent: sorting the sorted list again, or
    filtering and sorting the displayed list again, gives the same list; and
    selecting the same key again toggles the direction, which gives exactly
    the reverse of the displayed list provided no two filtered positions
    compare equal on the key. *)
Theorem sorting_idempotent_toggle_reverses
    localeCompare positions searchTerm sortBy sortOrder :
  let shown := List.filter (PositionsList.matches searchTerm) positions in
  let displayed :=
    PositionsList.filteredAndSortedPositions localeCompare positions
      searchTerm sortBy sortOrder in
  PositionsList.consistentb
    (PositionsList.comparator localeCompare sortBy sortOrder) shown = true ->
  JS.sort (PositionsList.comparator localeCompare sortBy sortOrder) displayed
  = displayed
  /\ PositionsList.filteredAndSortedPositions localeCompare displayed
       searchTerm sortBy sortOrder
     = displayed
  /\ (PositionsList.no_tiesb
        (PositionsList.comparator localeCompare sortBy sortOrder) shown = true ->
      let '(sortBy', sortOrder') :=
        PositionsList.handleSort sortBy (sortBy, sortOrder) in
      PositionsList.filteredAndSortedPositions localeCompare positions
        searchTerm sortBy' sortOrder'
      = rev displayed).
Proof.
  intros shown displayed Hc.
  destruct (consistentb_spec _ _ Hc) as [Hflip Htrans].
  set (order := fun a b =>
         JS.sign (PositionsList.comparator localeCompare sortBy sortOrder a b))
    in *.
  assert (Hidem : JS.sort_by order displayed = displayed).
  { apply (sort_by_idempotent order (fun a => In a shown) Hflip).
    apply Forall_In_self. }
  split; [exact Hidem|]. split.
  - unfold PositionsList.filteredAndSortedPositions at 1.
    rewrite filter_fixed; [exact Hidem|].
    apply Forall_sort_by, filter_passes.
  - intros Hties. rewrite handleSort_same.
    unfold PositionsList.filteredAndSortedPositions, JS.sort.
    rewrite (sort_by_ext _ (fun a b => CompOpp (order a b)))
      by apply comparator_toggled.
    apply (sort_by_reverse order (fun a => In a shown) Hflip Htrans).
    + apply Forall_In_self.
    + apply no_tiesb_spec, Hties.
Qed.

Lemma sorting_idempotent_toggle_reverses_witness :
  let displayed :=
    PositionsList.filteredAndSortedPositions PositionsList.codeUnitCompare
      [smaller; tieA; tieB] "t" PositionsList.by_symbol PositionsList.desc in
  displayed = [tieB; tieA]
  /\ JS.sort
       (PositionsList.comparator PositionsList.codeUnitCompare
          PositionsList.by_symbol PositionsList.desc) displayed
     = displayed
  /\ PositionsList.filteredAndSortedPositions PositionsList.codeUnitCompare
       displayed "t" PositionsList.by_symbol PositionsList.desc
     = displayed
  /\ PositionsList.filteredAndSortedPositions PositionsList.codeUnitCompare
       [smaller; tieA; tieB] "t" PositionsList.by_symbol PositionsList.asc
     = rev displayed.
Proof.
  intros displayed. split; [vm_compute; reflexivity|].
  destruct (sorting_idempotent_toggle_reverses PositionsList.codeUnitCompare
              [smaller; tieA; tieB] "t" PositionsList.by_symbol
              PositionsList.desc)
    as (H1 & H2 & H3); [vm_compute; reflexivity|].
  split; [exact H1|]. split; [exact H2|].
  apply H3. vm_compute. reflexivity.
Defined.

(** ** The positions list: the window *)

Lemma slice_length {A : Type} (items : list A) (start end_ : JS.integral) :
  Z.of_nat (length (JS.slice items start end_))
  <= Z.max 0 (JS.relative (Z.of_nat (length items)) end_
              - JS.relative (Z.of_nat (length items)) start).
Proof.
  unfold JS.slice. pose proof (firstn_le_length
    (Z.to_nat (JS.relative (Z.of_nat (length items)) end_
               - JS.relative (Z.of_nat (length items)) start))
    (skipn (Z.to_nat (JS.relative (Z.of_nat (length items)) start)) items)).
  lia.
Qed.

(** The rows between the two ends of the window, for a finite row count.
    Below -2 the end index can be negative while the start index is not,
    and [slice] then counts the end from the end of the list. *)
Lemma window_span (len : Z) (startIndex : JS.integral) (c : Z) :
  0 <= len -> -2 <= c ->
  let endIndex :=
    JS.Math_min (JS.plus (JS.plus startIndex (JS.Int c)) (JS.Int 1))
                (JS.plus (JS.Int len) (JS.Int (-1))) in
  JS.relative len (JS.plus endIndex (JS.Int 1)) - JS.relative len startIndex
  <= Z.max 0 (c + 2).
Proof.
  intros Hlen Hc. destruct startIndex as [z| | |]; simpl.
  - destruct (Z.ltb_spec (Z.min (z + c + 1) (len + -1) + 1) 0);
      destruct (Z.ltb_spec z 0); lia.
  - destruct (Z.ltb_spec (len + -1 + 1) 0); lia.
  - lia.
  - lia.
Qed.

(** C3, as stated, fails: with the component's own sizes (a 600 pixel list,
    so a 400 pixel container, and rows of 56 pixels) the stated bound is 9
    rows and the window holds 10, for 10 positions as for 10000.  And for a
    list of height 0 (a container height of -200) the row count is -3, the
    end index is negative, and 9 of 10 positions are shown. *)
Lemma window_exceeds_stated_bound :
  let rows n height scrollTop :=
    length
      (PositionsList.visibleItems
         (PositionsList.useVirtualization (repeat tieA n)
            (PositionsList.containerHeightOf height)
            PositionsList.defaultItemHeight scrollTop)) in
  let bound height :=
    PositionsList.statedBound (PositionsList.containerHeightOf height)
                              PositionsList.defaultItemHeight in
  bound PositionsList.defaultHeight = JS.Int 9
  /\ rows 10%nat PositionsList.defaultHeight 0%float = 10%nat
  /\ rows (Z.to_nat 10000) PositionsList.defaultHeight 5600%float = 10%nat
  /\ bound 0%float = JS.Int (-2)
  /\ rows 10%nat 0%float 0%float = 9%nat.
Proof. vm_compute. repeat split. Qed.

(** C3 (amended): when the row count [ceil(containerHeight / rowHeight)]
    is at least -2 (as it is for a container height that is not negative),
    the window holds at most [ceil(containerHeight / rowHeight) + 2] rows,
    whatever the number of items and the scroll offset: it spans the
    indices from [start] to [start + ceil + 1], both included. *)
Theorem window_rows_bounded items containerHeight itemHeight scrollTop c :
  JS.Math_ceil (containerHeight / itemHeight)%float = JS.Int c ->
  -2 <= c ->
  Z.of_nat
    (length
       (PositionsList.visibleItems
          (PositionsList.useVirtualization items containerHeight itemHeight
                                           scrollTop)))
  <= Z.max 0 (c + 2).
Proof.
  intros Hc Hlow. unfold PositionsList.useVirtualization. simpl. rewrite Hc.
  etransitivity; [apply slice_length|].
  unfold JS.length_of.
  pose proof (window_span (Z.of_nat (length items))
                (JS.Math_floor (scrollTop / itemHeight)%float) c
                (Nat2Z.is_nonneg _) Hlow) as H.
  simpl in H. lia.
Qed.

Lemma window_rows_bounded_witness :
  Z.of_nat
    (length
       (PositionsList.visibleItems
          (PositionsList.useVirtualization (repeat tieA (Z.to_nat 10000))
             (PositionsList.containerHeightOf PositionsList.defaultHeight)
             PositionsList.defaultItemHeight 5600%float)))
  <= Z.max 0 (8 + 2).
Proof.
  apply (window_rows_bounded (repeat tieA (Z.to_nat 10000))
           (PositionsList.containerHeightOf PositionsList.defaultHeight)
           PositionsList.defaultItemHeight 5600%float 8).
  - vm_compute. reflexivity.
  - lia.
Defined.

(** When the row count is not a number, or is [-Infinity] (a row height
    of 0), nothing is shown. *)
Lemma window_empty_without_count items containerHeight itemHeight scrollTop :
  JS.Math_ceil (containerHeight / itemHeight)%float = JS.NotANumber
  \/ JS.Math_ceil (containerHeight / itemHeight)%float = JS.NegInf ->
  PositionsList.visibleItems
    (PositionsList.useVirtualization items containerHeight itemHeight
                                     scrollTop)
  = [].
Proof.
  intros Hc. unfold PositionsList.useVirtualization.
  cbn [PositionsList.visibleItems]. unfold JS.slice.
  set (start := JS.Math_floor (scrollTop / itemHeight)%float).
  set (len := Z.of_nat (length items)).
  assert (Hend :
    JS.relative len
      (JS.plus
         (JS.Math_min
            (JS.plus
               (JS.plus start
                        (JS.Math_ceil (containerHeight / itemHeight)%float))
               (JS.Int 1))
            (JS.plus (JS.length_of items) (JS.Int (-1))))
         (JS.Int 1)) = 0).
  { destruct Hc as [-> | ->]; destruct start; reflexivity. }
  rewrite Hend.
  assert (0 <= JS.relative len start).
  { destruct start as [z| | |]; simpl; try lia.
    destruct (Z.ltb_spec z 0); lia. }
  replace (Z.to_nat (0 - JS.relative len start)) with 0%nat by lia.
  reflexivity.
Qed.

(** * Further properties of the stores *)

(** ** Comparisons of doubles against zero *)

Lemma above_zero_not_below (x : JS.number) :
  PrimFloat.ltb 0%float x = true -> PrimFloat.ltb x 0%float = false.
Proof.
  rewrite !ltb_spec. change (Prim2SF 0%float) with (S754_zero false).
  destruct (Prim2SF x) as [[]|[]| |[] m e]; cbv; congruence.
Qed.

Lemma below_zero_is_number (x : JS.number) :
  PrimFloat.ltb x 0%float = true ->
  JS.isNaN x = false /\ PrimFloat.ltb 0%float x = false.
Proof.
  unfold JS.isNaN. rewrite !ltb_spec, FloatAxioms.eqb_spec.
  change (Prim2SF 0%float) with (S754_zero false).
  destruct (Prim2SF x) as [[]|[]| |[] m e];
    cbv [SFltb SFeqb SFcompare]; try discriminate;
    intros _; split; try reflexivity.
  rewrite Z.compare_refl, Pos.compare_cont_refl. reflexivity.
Qed.

(** [Math.max(0, x)] is never below 0, and is 0 for a negative [x]. *)
Lemma Math_max_zero_not_below (x : JS.number) :
  PrimFloat.ltb (JS.Math_max 0%float x) 0%float = false.
Proof.
  unfold JS.Math_max. change (JS.isNaN 0%float) with false. simpl.
  destruct (JS.isNaN x); [reflexivity|].
  destruct (PrimFloat.ltb 0%float x) eqn:Hpos;
    [apply above_zero_not_below, Hpos|].
  destruct (PrimFloat.ltb x 0%float); reflexivity.
Qed.

Lemma Math_max_zero_of_negative (x : JS.number) :
  PrimFloat.ltb x 0%float = true -> JS.Math_max 0%float x = 0%float.
Proof.
  intros Hneg. destruct (below_zero_is_number x Hneg) as [Hnan Hpos].
  unfold JS.Math_max. change (JS.isNaN 0%float) with false.
  rewrite Hnan, Hpos, Hneg. reflexivity.
Qed.

(** ** The portfolio store: identifiers, frames and the aggregate *)

Lemma findIndex_none id ps :
  Forall (fun p => Position.id p <> id) ps -> Portfolio.findIndex id ps = None.
Proof.
  induction 1 as [|p ps Hp Hps IH]; simpl; [reflexivity|].
  apply String.eqb_neq in Hp. rewrite Hp, IH. reflexivity.
Qed.

Lemma findIndex_first id before p after :
  Forall (fun q => Position.id q <> id) before ->
  Position.id p = id ->
  Portfolio.findIndex id (before ++ p :: after) = Some (length before).
Proof.
  intros Hb Hp. induction Hb as [|q before Hq Hb IH]; simpl.
  - apply String.eqb_eq in Hp. rewrite Hp. reflexivity.
  - apply String.eqb_neq in Hq. rewrite Hq, IH. reflexivity.
Qed.

(** X1: in every reachable state the stored aggregate is the aggregate of
    the stored positions: no action leaves [metrics] stale, and the asset
    count is the number of positions. *)
Theorem metrics_always_current st :
  Portfolio.reachable st ->
  Portfolio.metrics st = Portfolio.calculateMetrics (Portfolio.positions st)
  /\ Metrics.totalAssets (Portfolio.metrics st)
     = length (Portfolio.positions st).
Proof.
  intros Hreach.
  assert (H : Portfolio.metrics st
              = Portfolio.calculateMetrics (Portfolio.positions st)).
  { induction Hreach as [now|a now st _ IH]; [reflexivity|].
    destruct a; simpl; try reflexivity; try exact IH.
    unfold Portfolio.updatePosition.
    destruct (Portfolio.findIndex id (Portfolio.positions st));
      [reflexivity|exact IH]. }
  split; [exact H|]. rewrite H. reflexivity.
Qed.

Lemma metrics_always_current_witness :
  let st :=
    Portfolio.removePosition "2" 4%float
      (Portfolio.addPosition misvaluedHolding 3%float
         (Portfolio.updatePrices {[ "BTC" := 60000%float ]} 2%float btcStore))
  in
  Portfolio.metrics st = Portfolio.calculateMetrics (Portfolio.positions st)
  /\ Metrics.totalAssets (Portfolio.metrics st)
     = length (Portfolio.positions st).
Proof.
  apply metrics_always_current.
  apply (Portfolio.reachable_step (Portfolio.RemovePosition "2")).
  apply (Portfolio.reachable_step (Portfolio.AddPosition misvaluedHolding)).
  apply (Portfolio.reachable_step
           (Portfolio.UpdatePrices {[ "BTC" := 60000%float ]})).
  apply (Portfolio.reachable_step
           (Portfolio.AddPosition (btcHolding 0%float))).
  constructor.
Defined.

Lemma updatePosition_no_match id updates now st :
  Forall (fun p => Position.id p <> id) (Portfolio.positions st) ->
  Portfolio.updatePosition id updates now st = st.
Proof.
  intros H. unfold Portfolio.updatePosition.
  rewrite (findIndex_none _ _ H). reflexivity.
Qed.

(** X2: [updatePosition] with an identifier no position has changes
    nothing at all: not the positions, not the aggregate, not the time
    stamp of the store. *)
Theorem updatePosition_unknown_id id updates now st :
  Forall (fun p => Position.id p <> id) (Portfolio.positions st) ->
  Portfolio.updatePosition id updates now st = st.
Proof. apply updatePosition_no_match. Qed.

Lemma updatePosition_unknown_id_witness :
  Portfolio.updatePosition "7"
    (Position.mkPartial None None None (Some 5%float) None None None None
                        None None None None)
    9%float btcStore
  = btcStore.
Proof.
  apply updatePosition_unknown_id.
  repeat constructor. discriminate.
Defined.

(** X3: [updatePosition] assigns to the first position with the identifier
    and to no other, also when a later position has the same identifier;
    the number and the order of the positions stay. *)
Theorem updatePosition_first_match id updates now st before p after :
  Portfolio.positions st = before ++ p :: after ->
  Forall (fun q => Position.id q <> id) before ->
  Position.id p = id ->
  Portfolio.positions (Portfolio.updatePosition id updates now st)
  = before ++ Position.assign p updates now :: after.
Proof.
  intros Hps Hb Hp. unfold Portfolio.updatePosition.
  rewrite Hps, (findIndex_first _ _ _ _ Hb Hp).
  rewrite positions_with_positions.
  replace (length before) with (length before + 0)%nat by lia.
  rewrite alter_app_r. reflexivity.
Qed.

Lemma updatePosition_first_match_witness :
  Portfolio.positions
    (Portfolio.updatePosition "a"
       (Position.mkPartial None None None (Some 5%float) None None None None
                           None None None None)
       9%float
       (Portfolio.with_positions (Portfolio.initial 0%float)
                                 [smaller; tieA; tieB; tieA] 1%float))
  = [smaller]
    ++ Position.assign tieA
         (Position.mkPartial None None None (Some 5%float) None None None
                             None None None None None) 9%float
    :: [tieB; tieA].
Proof.
  apply updatePosition_first_match.
  - reflexivity.
  - repeat constructor. discriminate.
  - reflexivity.
Defined.

(** X4: [removePosition] removes every position with the identifier and
    keeps all the others; after it an [updatePosition] with that identifier
    finds nothing to update. *)
Theorem removePosition_removes_all id now st :
  let st' := Portfolio.removePosition id now st in
  (forall p,
     In p (Portfolio.positions st')
     <-> In p (Portfolio.positions st) /\ Position.id p <> id)
  /\ (forall updates now',
        Portfolio.updatePosition id updates now' st' = st').
Proof.
  intros st'.
  assert (Hin : forall p,
     In p (Portfolio.positions st')
     <-> In p (Portfolio.positions st) /\ Position.id p <> id).
  { intros p. unfold st', Portfolio.removePosition.
    rewrite positions_with_positions, filter_In, negb_true_iff,
      String.eqb_neq. reflexivity. }
  split; [exact Hin|].
  intros updates now'. apply updatePosition_no_match.
  apply List.Forall_forall. intros p Hp. apply Hin in Hp. tauto.
Qed.

(** What a price update keeps of each position. *)
Lemma reprice_keeps priceUpdates now ps :
  Forall2
    (fun h h' =>
       Position.id h' = Position.id h
       /\ Position.symbol h' = Position.symbol h
       /\ Position.name h' = Position.name h
       /\ Position.amount h' = Position.amount h
       /\ Position.averageBuyPrice h' = Position.averageBuyPrice h
       /\ (priceUpdates !! Position.symbol h = None ->
           if JS.isInherited (Position.symbol h)
           then JS.isNaN (Position.currentPrice h') = true
                /\ Position.lastUpdated h' = now
           else h' = h))
    ps (List.map (Portfolio.reprice priceUpdates now) ps).
Proof.
  induction ps as [|h ps IH]; simpl; constructor; [|exact IH].
  unfold Portfolio.reprice, JS.get.
  destruct (priceUpdates !! Position.symbol h) as [p|]; simpl.
  - destruct (JS.truthy p); simpl; repeat split; discriminate.
  - destruct (JS.isInherited (Position.symbol h)); simpl; repeat split.
Qed.

(** X5: a price update never adds, removes or reorders positions and never
    changes an identifier, a symbol, a name, a quantity or an average
    purchase price.  A position whose symbol is not a key of the map is
    left as it is, in every field, unless its symbol is the name of a
    member of [Object.prototype] ("constructor", "toString", ...): the read
    of the map then finds that member, and the position is stamped and
    repriced to NaN. *)
Theorem updatePrices_frame priceUpdates now st :
  Forall2
    (fun h h' =>
       Position.id h' = Position.id h
       /\ Position.symbol h' = Position.symbol h
       /\ Position.name h' = Position.name h
       /\ Position.amount h' = Position.amount h
       /\ Position.averageBuyPrice h' = Position.averageBuyPrice h
       /\ (priceUpdates !! Position.symbol h = None ->
           if JS.isInherited (Position.symbol h)
           then JS.isNaN (Position.currentPrice h') = true
                /\ Position.lastUpdated h' = now
           else h' = h))
    (Portfolio.positions st)
    (Portfolio.positions (Portfolio.updatePrices priceUpdates now st)).
Proof. apply reprice_keeps. Qed.

(** A position whose symbol is the name of an inherited member is repriced
    by a map that does not mention it, the empty one included. *)
Example inherited_symbol_repriced :
  let st :=
    Portfolio.addPosition
      (addedAsset "1" "constructor" "Constructor" 1%float 5%float 5%float)
      1%float (Portfolio.initial 0%float) in
  (fun h => (JS.isNaN (Position.currentPrice h),
             JS.isNaN (Position.totalValue h), Position.lastUpdated h))
    <$> Portfolio.positions (Portfolio.updatePrices ∅ 2%float st)
  = [(true, true, 2%float)]
  /\ Portfolio.positions
       (Portfolio.updatePrices {[ "constructor" := 0%float ]} 2%float st)
     = Portfolio.positions st.
Proof. vm_compute. split; reflexivity. Qed.

Lemma tradeFirst_unknown trade now ps :
  Forall (fun p => Position.symbol p <> Trade.symbol trade) ps ->
  Portfolio.tradeFirst trade now ps = ps.
Proof.
  induction 1 as [|p ps Hp Hps IH]; simpl; [reflexivity|].
  apply String.eqb_neq in Hp. rewrite Hp, IH. reflexivity.
Qed.

(** X6: a trade on a symbol no position has changes no position and no
    order (the aggregate is recomputed from the same positions). *)
Theorem optimisticTrade_unknown_symbol trade now st :
  Forall (fun p => Position.symbol p <> Trade.symbol trade)
         (Portfolio.positions st) ->
  Portfolio.positions (Portfolio.optimisticTrade trade now st)
  = Portfolio.positions st
  /\ Portfolio.orders (Portfolio.optimisticTrade trade now st)
     = Portfolio.orders st
  /\ Portfolio.metrics (Portfolio.optimisticTrade trade now st)
     = Portfolio.calculateMetrics (Portfolio.positions st).
Proof.
  intros H. unfold Portfolio.optimisticTrade, Portfolio.with_positions.
  simpl. rewrite (tradeFirst_unknown _ _ _ H). repeat split.
Qed.

Lemma optimisticTrade_unknown_symbol_witness :
  let st' :=
    Portfolio.optimisticTrade (Trade.mk "eth" 1%float 3000%float buy)
                              2%float btcStore in
  Portfolio.positions st' = Portfolio.positions btcStore
  /\ Portfolio.orders st' = Portfolio.orders btcStore
  /\ Portfolio.metrics st'
     = Portfolio.calculateMetrics (Portfolio.positions btcStore).
Proof.
  apply (optimisticTrade_unknown_symbol
           (Trade.mk "eth" 1%float 3000%float buy) 2%float btcStore).
  repeat constructor. discriminate.
Defined.

Lemma tradeFirst_sell_not_below trade now ps :
  Trade.type trade = sell ->
  Forall (fun p => PrimFloat.ltb (Position.amount p) 0%float = false) ps ->
  Forall (fun p => PrimFloat.ltb (Position.amount p) 0%float = false)
         (Portfolio.tradeFirst trade now ps).
Proof.
  intros Hsell. induction 1 as [|p ps Hp Hps IH]; simpl; [constructor|].
  destruct (String.eqb _ _); constructor; auto.
  unfold Portfolio.applyTrade. rewrite Hsell. simpl.
  apply Math_max_zero_not_below.
Qed.

(** X7: a simulated sell never produces a quantity below 0: quantities
    that are not negative stay so, and selling more than is held leaves
    exactly 0 (with the value recomputed from it). *)
Theorem sell_never_negative st trade now :
  Trade.type trade = sell ->
  (Forall (fun p => PrimFloat.ltb (Position.amount p) 0%float = false)
          (Portfolio.positions st) ->
   Forall (fun p => PrimFloat.ltb (Position.amount p) 0%float = false)
          (Portfolio.positions (Portfolio.optimisticTrade trade now st)))
  /\ (forall h,
        find (fun p => String.eqb (Position.symbol p) (Trade.symbol trade))
             (Portfolio.positions st) = Some h ->
        PrimFloat.ltb (Position.amount h - Trade.amount trade)%float 0%float
        = true ->
        exists before after h',
          Portfolio.positions (Portfolio.optimisticTrade trade now st)
          = before ++ h' :: after
          /\ Portfolio.positions st = before ++ h :: after
          /\ Position.amount h' = 0%float
          /\ Position.totalValue h' = (0 * Position.currentPrice h)%float).
Proof.
  intros Hsell. split.
  - intros H. unfold Portfolio.optimisticTrade.
    rewrite positions_with_positions.
    apply tradeFirst_sell_not_below; assumption.
  - intros h Hfind Hover.
    destruct (tradeFirst_split trade now _ _ Hfind)
      as (before & after & Hps & _ & _ & Htrade).
    exists before, after, (Portfolio.applyTrade trade now h).
    unfold Portfolio.optimisticTrade.
    rewrite positions_with_positions, Htrade.
    unfold Portfolio.applyTrade. rewrite Hsell. simpl.
    rewrite (Math_max_zero_of_negative _ Hover). repeat split. exact Hps.
Qed.

Lemma sell_never_negative_witness :
  exists before after h',
    Portfolio.positions
      (Portfolio.optimisticTrade (Trade.mk "BTC" 3%float 60000%float sell)
                                 2%float btcStore)
    = before ++ h' :: after
    /\ Portfolio.positions btcStore = before ++ btcHolding 1%float :: after
    /\ Position.amount h' = 0%float
    /\ Position.totalValue h' = (0 * 50000)%float.
Proof.
  apply (proj2 (sell_never_negative btcStore
                  (Trade.mk "BTC" 3%float 60000%float sell) 2%float
                  eq_refl)
               (btcHolding 1%float)); reflexivity.
Defined.

(** ** The portfolio store: orders *)

Lemma alterFirstOrder_unknown f id os :
  Forall (fun o => Order.id o <> id) os ->
  Portfolio.alterFirstOrder f id os = os.
Proof.
  induction 1 as [|o os Ho Hos IH]; simpl; [reflexivity|].
  apply String.eqb_neq in Ho. rewrite Ho, IH. reflexivity.
Qed.

Lemma alterFirstOrder_last f id os o :
  Forall (fun o => Order.id o <> id) os ->
  Order.id o = id ->
  Portfolio.alterFirstOrder f id (os ++ [o]) = os ++ [f o].
Proof.
  intros Hos Ho. induction Hos as [|q os Hq Hos IH]; simpl.
  - apply String.eqb_eq in Ho. rewrite Ho. reflexivity.
  - apply String.eqb_neq in Hq. rewrite Hq, IH. reflexivity.
Qed.

Lemma with_orders_same st : Portfolio.with_orders st (Portfolio.orders st) = st.
Proof. destruct st; reflexivity. Qed.

(** X8: an order added under an identifier no earlier order has, and then
    cancelled by that identifier, is the last order of the list, with the
    data it was submitted with and the status "cancelled"; the earlier
    orders, the positions and the aggregate are untouched. *)
Theorem cancelOrder_after_addOrder orderData id now st :
  Forall (fun o => Order.id o <> id) (Portfolio.orders st) ->
  let st' := Portfolio.cancelOrder id (Portfolio.addOrder orderData id now st)
  in
  Portfolio.orders st'
  = Portfolio.orders st
    ++ [Order.mk id (Order.d_symbol orderData) (Order.d_type orderData)
                 (Order.d_orderType orderData) (Order.d_amount orderData)
                 (Order.d_price orderData) (Order.d_stopPrice orderData)
                 cancelled now]
  /\ Portfolio.positions st' = Portfolio.positions st
  /\ Portfolio.metrics st' = Portfolio.metrics st.
Proof.
  intros Hfresh st'. unfold st', Portfolio.cancelOrder, Portfolio.addOrder.
  simpl. rewrite alterFirstOrder_last by (exact Hfresh || reflexivity).
  repeat split.
Qed.

Lemma cancelOrder_after_addOrder_witness :
  let st' :=
    Portfolio.cancelOrder "order_3"
      (Portfolio.addOrder limitOrder "order_3" 5%float orderedStore) in
  Portfolio.orders st'
  = Portfolio.orders orderedStore
    ++ [Order.mk "order_3" "BTC" buy limit 1%float (Some 50000%float) None
                 cancelled 5%float]
  /\ Portfolio.positions st' = Portfolio.positions orderedStore
  /\ Portfolio.metrics st' = Portfolio.metrics orderedStore.
Proof.
  apply (cancelOrder_after_addOrder limitOrder "order_3" 5%float
                                    orderedStore).
  repeat constructor; discriminate.
Defined.

Lemma alterFirstOrder_cancel_twice id os :
  Portfolio.alterFirstOrder Order.cancel id
    (Portfolio.alterFirstOrder Order.cancel id os)
  = Portfolio.alterFirstOrder Order.cancel id os.
Proof.
  induction os as [|o os IH]; simpl; [reflexivity|].
  destruct (String.eqb (Order.id o) id) eqn:Ho; simpl; rewrite Ho.
  - reflexivity.
  - rewrite IH. reflexivity.
Qed.

(** X9: cancelling is idempotent, and cancelling an identifier no order has
    changes nothing in the store. *)
Theorem cancelOrder_idempotent id st :
  Portfolio.cancelOrder id (Portfolio.cancelOrder id st)
  = Portfolio.cancelOrder id st
  /\ (Forall (fun o => Order.id o <> id) (Portfolio.orders st) ->
      Portfolio.cancelOrder id st = st).
Proof.
  split.
  - unfold Portfolio.cancelOrder, Portfolio.with_orders. simpl.
    rewrite alterFirstOrder_cancel_twice. reflexivity.
  - intros H. unfold Portfolio.cancelOrder.
    rewrite (alterFirstOrder_unknown _ _ _ H). apply with_orders_same.
Qed.

Lemma cancelOrder_idempotent_witness :
  Portfolio.cancelOrder "order_1" (Portfolio.cancelOrder "order_1" orderedStore)
  = Portfolio.cancelOrder "order_1" orderedStore
  /\ Portfolio.cancelOrder "order_9" orderedStore = orderedStore.
Proof.
  split.
  - apply (proj1 (cancelOrder_idempotent "order_1" orderedStore)).
  - apply (proj2 (cancelOrder_idempotent "order_9" orderedStore)).
    repeat constructor; discriminate.
Defined.

(** Cancelling the first of the two orders placed marks that order and no
    other. *)
Example cancelOrder_on_placed_orders :
  Order.status <$>
    Portfolio.orders (Portfolio.cancelOrder "order_1" orderedStore)
  = [cancelled; pending].
Proof. reflexivity. Qed.

(** ** The market store: prices, entries and subscriptions *)

Section MarketMore.
Import Market.

Lemma recordPrice_subscribed symbol price now st :
  subscribedSymbols (recordPrice symbol price now st) = subscribedSymbols st.
Proof.
  unfold recordPrice. simpl. destruct (marketData st !! symbol); reflexivity.
Qed.

Lemma bulkUpdatePrices_subscribed updates now st :
  subscribedSymbols (bulkUpdatePrices updates now st) = subscribedSymbols st.
Proof.
  unfold bulkUpdatePrices. simpl.
  apply (map_fold_weak_ind
           (fun acc _ => subscribedSymbols acc = subscribedSymbols st)).
  - reflexivity.
  - intros symbol price m acc _ IH. rewrite recordPrice_subscribed. exact IH.
Qed.

End MarketMore.

(** X10: what [bulkUpdatePrices] leaves behind, symbol by symbol: every
    price of the map is recorded (0 included) and the other recorded prices
    stay; a market entry is repriced exactly when its symbol is in the map,
    and no entry is created for a symbol without one. *)
Theorem bulkUpdatePrices_pointwise updates now st symbol :
  Market.priceUpdates (Market.bulkUpdatePrices updates now st) !! symbol
  = match updates !! symbol with
    | Some price => Some price
    | None => Market.priceUpdates st !! symbol
    end
  /\ Market.marketData (Market.bulkUpdatePrices updates now st) !! symbol
     = match updates !! symbol, Market.marketData st !! symbol with
       | Some price, Some m => Some (MarketData.reprice m price now)
       | _, old => old
       end
  /\ Market.lastPriceUpdate (Market.bulkUpdatePrices updates now st) = now.
Proof.
  split; [|split; [|reflexivity]]; revert symbol.
  - unfold Market.bulkUpdatePrices. simpl.
    apply (map_fold_weak_ind
             (fun acc (m : gmap string JS.number) =>
                forall symbol,
                  Market.priceUpdates acc !! symbol
                  = match m !! symbol with
                    | Some price => Some price
                    | None => Market.priceUpdates st !! symbol
                    end)).
    + intros symbol. rewrite lookup_empty. reflexivity.
    + intros k x m acc Hk IH symbol. rewrite recordPrice_priceUpdates.
      destruct (decide (k = symbol)) as [->|Hne].
      * rewrite !lookup_insert_eq. reflexivity.
      * rewrite !lookup_insert_ne by exact Hne. apply IH.
  - intros symbol. apply bulkUpdatePrices_marketData.
Qed.

Lemma bulkUpdatePrices_one symbol price now st :
  Market.bulkUpdatePrices {[ symbol := price ]} now st
  = Market.updatePrice symbol price now st.
Proof.
  unfold Market.bulkUpdatePrices, Market.updatePrice.
  rewrite map_fold_singleton. reflexivity.
Qed.

(** X11: a bulk update with a single entry is [updatePrice] of that symbol
    and price. *)
Theorem bulkUpdatePrices_singleton symbol price now st :
  Market.bulkUpdatePrices {[ symbol := price ]} now st
  = Market.updatePrice symbol price now st.
Proof. apply bulkUpdatePrices_one. Qed.



(** X13: every order book of a reachable state is stored under its own
    symbol. *)
Theorem orderBooks_keyed_by_symbol st :
  Market.reachable st ->
  forall symbol book,
    Market.orderBooks st !! symbol = Some book ->
    OrderBook.symbol book = symbol.
Proof.
  induction 1 as [|a now st _ IH]; intros symbol book.
  - simpl. rewrite lookup_empty. discriminate.
  - destruct a; unfold Market.step; try apply IH.
    + rewrite updateOrderBook_books.
      destruct (decide (symbol0 = symbol)) as [->|Hne].
      * rewrite lookup_insert_eq. intros [= <-]. reflexivity.
      * rewrite lookup_insert_ne by exact Hne. apply IH.
    + unfold Market.updatePrice. simpl. rewrite recordPrice_books. apply IH.
    + rewrite bulkUpdatePrices_books. apply IH.
Qed.

Lemma orderBooks_keyed_by_symbol_witness :
  exists book,
    Market.orderBooks
      (Market.updateOrderBook "btc"
         (OrderBook.mkPartial (Some "eth") (Some sampleBids) None None)
         1%float Market.initial) !! "btc" = Some book
    /\ OrderBook.symbol book = "btc".
Proof.
  eexists. split.
  - vm_compute. reflexivity.
  - apply (orderBooks_keyed_by_symbol
             (Market.updateOrderBook "btc"
                (OrderBook.mkPartial (Some "eth") (Some sampleBids) None None)
                1%float Market.initial)).
    + apply (Market.reachable_step
               (Market.UpdateOrderBook "btc"
                  (OrderBook.mkPartial (Some "eth") (Some sampleBids) None
                                       None))).
      constructor.
    + vm_compute. reflexivity.
Defined.


(** ** The price feed: what a message does and does not do *)

Lemma updateOrderBook_subscribed symbol orderBook now st :
  Market.subscribedSymbols (Market.updateOrderBook symbol orderBook now st)
  = Market.subscribedSymbols st.
Proof.
  unfold Market.updateOrderBook. rewrite orderBookLiteral_complete.
  reflexivity.
Qed.

(** X15: a single-price message whose symbol is missing or empty, or whose
    price is missing, 0 or NaN, is dropped: neither store changes (the bulk
    form of the message has no such guard on the market side). *)
Theorem single_price_message_dropped symbol price now app :
  Feed.truthy_string symbol = None
  \/ price = None
  \/ (exists p, price = Some p /\ JS.truthy p = false) ->
  Feed.handleMessage (Feed.price_update None symbol price) now app = app.
Proof.
  intros H. unfold Feed.handleMessage.
  destruct (Feed.truthy_string symbol) as [s|]; [|reflexivity].
  destruct H as [H|[->|(p & -> & Hp)]]; [discriminate|reflexivity|].
  rewrite Hp. reflexivity.
Qed.

Lemma single_price_message_dropped_witness :
  Feed.handleMessage (Feed.price_update None (Some "BTC") (Some 0%float))
                     2%float (Feed.mkApp btcStore Market.initial)
  = Feed.mkApp btcStore Market.initial.
Proof.
  apply single_price_message_dropped.
  right. right. exists 0%float. split; reflexivity.
Defined.

(** X16: a single-price message with a symbol and a price that is neither
    0 nor NaN is [updatePrice] on the market store and [updatePrices] with
    the one-entry map on the portfolio store. *)
Theorem single_price_message_applied symbol price s now app :
  Feed.truthy_string symbol = Some s ->
  JS.truthy price = true ->
  Feed.handleMessage (Feed.price_update None symbol (Some price)) now app
  = {| Feed.portfolio :=
         Portfolio.updatePrices {[ s := price ]} now (Feed.portfolio app);
       Feed.market := Market.updatePrice s price now (Feed.market app) |}.
Proof.
  intros Hs Hp. unfold Feed.handleMessage. rewrite Hs, Hp.
  unfold Feed.publishPrices. rewrite bulkUpdatePrices_one. reflexivity.
Qed.

Lemma single_price_message_applied_witness :
  Feed.handleMessage
    (Feed.price_update None (Some "BTC") (Some 60000%float)) 2%float
    (Feed.mkApp btcStore Market.initial)
  = {| Feed.portfolio :=
         Portfolio.updatePrices {[ "BTC" := 60000%float ]} 2%float btcStore;
       Feed.market :=
         Market.updatePrice "BTC" 60000%float 2%float Market.initial |}.
Proof.
  apply single_price_message_applied; reflexivity.
Defined.

Lemma Forall2_same_identity ps :
  Forall2
    (fun h h' : Position.t =>
       Position.id h' = Position.id h
       /\ Position.symbol h' = Position.symbol h
       /\ Position.amount h' = Position.amount h
       /\ Position.averageBuyPrice h' = Position.averageBuyPrice h)
    ps ps.
Proof. induction ps; constructor; auto. Qed.

Lemma publishPrices_keeps prices now app :
  let app' := Feed.publishPrices prices now app in
  Portfolio.orders (Feed.portfolio app') = Portfolio.orders (Feed.portfolio app)
  /\ Portfolio.connectionStatus (Feed.portfolio app')
     = Portfolio.connectionStatus (Feed.portfolio app)
  /\ Market.subscribedSymbols (Feed.market app')
     = Market.subscribedSymbols (Feed.market app)
  /\ Market.orderBooks (Feed.market app')
     = Market.orderBooks (Feed.market app)
  /\ Forall2
       (fun h h' =>
          Position.id h' = Position.id h
          /\ Position.symbol h' = Position.symbol h
          /\ Position.amount h' = Position.amount h
          /\ Position.averageBuyPrice h' = Position.averageBuyPrice h)
       (Portfolio.positions (Feed.portfolio app))
       (Portfolio.positions (Feed.portfolio app')).
Proof.
  simpl. split; [reflexivity|]. split; [reflexivity|].
  split; [apply bulkUpdatePrices_subscribed|].
  split; [apply bulkUpdatePrices_books|].
  eapply Forall2_impl; [apply reprice_keeps|]. simpl. tauto.
Qed.

(** X17: no message of the feed touches the orders, the connection status
    or the subscriptions, none adds, removes or reorders positions, and
    none changes the identifier, the symbol, the quantity or the average
    purchase price of a position; only an [order_book] message changes the
    order books. *)
Theorem handleMessage_frame message now app :
  let app' := Feed.handleMessage message now app in
  Portfolio.orders (Feed.portfolio app') = Portfolio.orders (Feed.portfolio app)
  /\ Portfolio.connectionStatus (Feed.portfolio app')
     = Portfolio.connectionStatus (Feed.portfolio app)
  /\ Market.subscribedSymbols (Feed.market app')
     = Market.subscribedSymbols (Feed.market app)
  /\ Forall2
       (fun h h' =>
          Position.id h' = Position.id h
          /\ Position.symbol h' = Position.symbol h
          /\ Position.amount h' = Position.amount h
          /\ Position.averageBuyPrice h' = Position.averageBuyPrice h)
       (Portfolio.positions (Feed.portfolio app))
       (Portfolio.positions (Feed.portfolio app'))
  /\ ((forall symbol bids asks, message <> Feed.order_book symbol bids asks) ->
      Market.orderBooks (Feed.market app')
      = Market.orderBooks (Feed.market app)).
Proof.
  assert (Hsame :
    Portfolio.orders (Feed.portfolio app) = Portfolio.orders (Feed.portfolio app)
    /\ Portfolio.connectionStatus (Feed.portfolio app)
       = Portfolio.connectionStatus (Feed.portfolio app)
    /\ Market.subscribedSymbols (Feed.market app)
       = Market.subscribedSymbols (Feed.market app)
    /\ Forall2
         (fun h h' =>
            Position.id h' = Position.id h
            /\ Position.symbol h' = Position.symbol h
            /\ Position.amount h' = Position.amount h
            /\ Position.averageBuyPrice h' = Position.averageBuyPrice h)
         (Portfolio.positions (Feed.portfolio app))
         (Portfolio.positions (Feed.portfolio app))
    /\ ((forall symbol bids asks,
           message <> Feed.order_book symbol bids asks) ->
        Market.orderBooks (Feed.market app)
        = Market.orderBooks (Feed.market app))).
  { repeat split. apply Forall2_same_identity. }
  assert (Hpub : forall prices,
    (forall symbol bids asks, message <> Feed.order_book symbol bids asks) ->
    let app' := Feed.publishPrices prices now app in
    Portfolio.orders (Feed.portfolio app')
    = Portfolio.orders (Feed.portfolio app)
    /\ Portfolio.connectionStatus (Feed.portfolio app')
       = Portfolio.connectionStatus (Feed.portfolio app)
    /\ Market.subscribedSymbols (Feed.market app')
       = Market.subscribedSymbols (Feed.market app)
    /\ Forall2
         (fun h h' =>
            Position.id h' = Position.id h
            /\ Position.symbol h' = Position.symbol h
            /\ Position.amount h' = Position.amount h
            /\ Position.averageBuyPrice h' = Position.averageBuyPrice h)
         (Portfolio.positions (Feed.portfolio app))
         (Portfolio.positions (Feed.portfolio app'))
    /\ ((forall symbol bids asks,
           message <> Feed.order_book symbol bids asks) ->
        Market.orderBooks (Feed.market app')
        = Market.orderBooks (Feed.market app))).
  { intros prices _. pose proof (publishPrices_keeps prices now app) as H.
    simpl in *. tauto. }
  destruct message as [[prices|] symbol price|symbol bids asks| |];
    unfold Feed.handleMessage.
  - apply Hpub. discriminate.
  - destruct (Feed.truthy_string symbol) as [s|]; [|exact Hsame].
    destruct price as [p|]; [|exact Hsame].
    destruct (JS.truthy p); [|exact Hsame].
    apply Hpub. discriminate.
  - destruct (Feed.truthy_string symbol) as [s|]; [|exact Hsame].
    cbn [Feed.portfolio Feed.market].
    split; [reflexivity|]. split; [reflexivity|].
    split; [apply updateOrderBook_subscribed|].
    split; [apply Forall2_same_identity|].
    intros H. exfalso. exact (H symbol bids asks eq_refl).
  - exact Hsame.
  - exact Hsame.
Qed.

(** ** The positions list: what is displayed *)

Lemma insert_permutation {A : Type} (order : A -> A -> comparison) x s :
  Permutation (JS.insert order x s) (x :: s).
Proof.
  induction s as [|y s IH]; simpl; [reflexivity|].
  destruct (order x y); try reflexivity.
  rewrite IH. apply perm_swap.
Qed.

Lemma sort_by_permutation {A : Type} (order : A -> A -> comparison) l :
  Permutation (JS.sort_by order l) l.
Proof.
  induction l as [|x l IH]; simpl; [reflexivity|].
  rewrite insert_permutation, IH. reflexivity.
Qed.

Lemma includes_empty s : JS.includes s "" = true.
Proof. destruct s; reflexivity. Qed.

(** X18: the displayed list is a rearrangement of the positions that match
    the search term: no matching position is lost or shown twice and no
    other position is shown; with an empty search term every position is
    displayed. *)
Theorem displayed_is_rearrangement
    localeCompare positions searchTerm sortBy sortOrder :
  let displayed :=
    PositionsList.filteredAndSortedPositions localeCompare positions
      searchTerm sortBy sortOrder in
  Permutation displayed
    (List.filter (PositionsList.matches searchTerm) positions)
  /\ (forall p,
        In p displayed
        <-> In p positions /\ PositionsList.matches searchTerm p = true)
  /\ (searchTerm = "" -> Permutation displayed positions).
Proof.
  intros displayed.
  assert (Hperm : Permutation displayed
            (List.filter (PositionsList.matches searchTerm) positions))
    by apply sort_by_permutation.
  split; [exact Hperm|]. split.
  - intros p. rewrite <- filter_In. split; intros Hp.
    + eapply Permutation_in; [exact Hperm|exact Hp].
    + eapply Permutation_in; [symmetry; exact Hperm|exact Hp].
  - intros ->. rewrite Hperm. rewrite filter_fixed; [reflexivity|].
    apply List.Forall_forall. intros p _. unfold PositionsList.matches.
    simpl. rewrite includes_empty. reflexivity.
Qed.

(** X19: with a comparator that is consistent on the filtered positions,
    the displayed list is in order: no displayed position is after its
    successor. *)
Theorem displayed_in_order
    localeCompare positions searchTerm sortBy sortOrder :
  PositionsList.consistentb
    (PositionsList.comparator localeCompare sortBy sortOrder)
    (List.filter (PositionsList.matches searchTerm) positions) = true ->
  JS.ascending
    (fun a b =>
       JS.sign (PositionsList.comparator localeCompare sortBy sortOrder a b))
    (PositionsList.filteredAndSortedPositions localeCompare positions
       searchTerm sortBy sortOrder).
Proof.
  intros Hc. destruct (consistentb_spec _ _ Hc) as [Hflip _].
  apply (sort_by_ascending _
           (fun a => In a (List.filter (PositionsList.matches searchTerm)
                                       positions)) Hflip).
  apply Forall_In_self.
Qed.

Lemma displayed_in_order_witness :
  JS.ascending
    (fun a b =>
       JS.sign (PositionsList.comparator PositionsList.codeUnitCompare
                  PositionsList.by_value PositionsList.desc a b))
    (PositionsList.filteredAndSortedPositions PositionsList.codeUnitCompare
       [smaller; tieA; tieB] "" PositionsList.by_value PositionsList.desc).
Proof.
  apply displayed_in_order. vm_compute. reflexivity.
Defined.

(** X20: selecting a key makes it the sort key; selecting the key in use
    toggles the direction, so selecting it twice restores the state;
    selecting another key starts with the descending direction. *)
Theorem handleSort_selection sortBy newSortBy sortOrder :
  fst (PositionsList.handleSort newSortBy (sortBy, sortOrder)) = newSortBy
  /\ PositionsList.handleSort sortBy
       (PositionsList.handleSort sortBy (sortBy, sortOrder))
     = (sortBy, sortOrder)
  /\ (sortBy <> newSortBy ->
      PositionsList.handleSort newSortBy (sortBy, sortOrder)
      = (newSortBy, PositionsList.desc)).
Proof.
  destruct sortBy, newSortBy, sortOrder; repeat split;
    try reflexivity; intros H; congruence.
Qed.

(** X21: the window is a run of consecutive rows of the list, in list
    order. *)
Theorem window_is_contiguous items containerHeight itemHeight scrollTop :
  exists before after,
    items
    = before
      ++ PositionsList.visibleItems
           (PositionsList.useVirtualization items containerHeight itemHeight
                                            scrollTop)
      ++ after.
Proof.
  unfold PositionsList.useVirtualization.
  cbn [PositionsList.visibleItems]. unfold JS.slice.
  match goal with
  | |- context [firstn ?n (skipn ?k items)] =>
      exists (firstn k items), (skipn n (skipn k items));
      rewrite (firstn_skipn n (skipn k items)), (firstn_skipn k items)
  end.
  reflexivity.
Qed.

Lemma firstn_capped {A : Type} (n : nat) (l : list A) :
  firstn (Nat.min n (length l)) l = firstn n l.
Proof.
  destruct (Nat.le_ge_cases n (length l)) as [H|H].
  - rewrite Nat.min_l by exact H. reflexivity.
  - rewrite Nat.min_r by exact H.
    rewrite !firstn_all2 by lia. reflexivity.
Qed.

(** X22: for a start index that is not negative and a row count of at
    least -2, the window starts with the row at the start index and holds
    the next [ceil + 2] rows, or the rows that are left when the list ends
    earlier. *)
Theorem window_rows_exact items containerHeight itemHeight scrollTop z c :
  JS.Math_floor (scrollTop / itemHeight)%float = JS.Int z ->
  JS.Math_ceil (containerHeight / itemHeight)%float = JS.Int c ->
  0 <= z -> -2 <= c ->
  PositionsList.visibleItems
    (PositionsList.useVirtualization items containerHeight itemHeight
                                     scrollTop)
  = firstn (Z.to_nat (c + 2)) (skipn (Z.to_nat z) items).
Proof.
  intros Hz Hc Hz0 Hc2. unfold PositionsList.useVirtualization.
  cbn [PositionsList.visibleItems]. rewrite Hz, Hc.
  unfold JS.slice, JS.length_of. simpl.
  set (len := Z.of_nat (length items)).
  assert (Hlen : 0 <= len) by (unfold len; lia).
  destruct (Z.ltb_spec z 0) as [?|_]; [lia|].
  destruct (Z.ltb_spec (Z.min (z + c + 1) (len + -1) + 1) 0) as [?|_]; [lia|].
  destruct (Z.le_gt_cases z len) as [Hin|Hout].
  - rewrite (Z.min_l z len) by exact Hin.
    replace (Z.to_nat (Z.min (Z.min (z + c + 1) (len + -1) + 1) len - z))
      with (Nat.min (Z.to_nat (c + 2)) (length (skipn (Z.to_nat z) items))).
    + apply firstn_capped.
    + rewrite length_skipn. unfold len in *. lia.
  - rewrite (Z.min_r z len) by lia.
    rewrite !skipn_all2 by (unfold len in *; lia).
    rewrite !firstn_nil. reflexivity.
Qed.

Lemma window_rows_exact_witness :
  PositionsList.visibleItems
    (PositionsList.useVirtualization [smaller; tieA; tieB; tieA; smaller]
       56%float 56%float 60%float)
  = firstn (Z.to_nat (1 + 2))
           (skipn (Z.to_nat 1) [smaller; tieA; tieB; tieA; smaller]).
Proof.
  apply window_rows_exact; try (vm_compute; reflexivity); lia.
Defined.

(** ** Comparisons of doubles *)

Lemma SFcompare_swap (x y : spec_float) :
  SFcompare y x = CompOpp <$> SFcompare x y.
Proof.
  destruct x as [[]|[]| |[] mx ex], y as [[]|[]| |[] my ey]; try reflexivity;
    simpl; rewrite (Z.compare_antisym ex ey);
    destruct (ex ?= ey); simpl; try reflexivity;
    pose proof (Pos.compare_cont_antisym mx my Eq) as H; simpl in H;
    rewrite <- H; destruct (Pos.compare_cont Eq mx my); reflexivity.
Qed.

Lemma ltb_asym (a b : JS.number) :
  PrimFloat.ltb a b = true -> PrimFloat.ltb b a = false.
Proof.
  rewrite !ltb_spec. unfold SFltb.
  rewrite (SFcompare_swap (Prim2SF a) (Prim2SF b)).
  destruct (SFcompare (Prim2SF a) (Prim2SF b)) as [[]|]; simpl; congruence.
Qed.

(** [Math.min(x, 30000)] is never above 30000. *)
Lemma capped_delay (x : JS.number) :
  PrimFloat.ltb 30000%float (JS.Math_min_number x 30000%float) = false.
Proof.
  unfold JS.Math_min_number. change (JS.isNaN 30000%float) with false.
  rewrite orb_false_r. destruct (JS.isNaN x); [reflexivity|].
  destruct (PrimFloat.ltb x 30000%float) eqn:Hlt; [apply ltb_asym, Hlt|].
  destruct (PrimFloat.ltb 30000%float x) eqn:Hgt; [reflexivity|].
  destruct (PrimFloat.classify x); try exact Hgt; reflexivity.
Qed.

(** What is not above, among numbers, is below or equal. *)
Lemma leb_of_not_gt (x y : JS.number) :
  JS.isNaN x = false -> JS.isNaN y = false ->
  PrimFloat.ltb y x = false -> PrimFloat.leb x y = true.
Proof.
  unfold JS.isNaN. rewrite !negb_false_iff, !FloatAxioms.eqb_spec.
  rewrite ltb_spec, leb_spec. unfold SFeqb, SFltb, SFleb.
  rewrite (SFcompare_swap (Prim2SF x) (Prim2SF y)).
  destruct (SFcompare (Prim2SF x) (Prim2SF y)) as [[]|] eqn:Hcompare;
    simpl; try congruence.
  intros Hx Hy _. revert Hx Hy Hcompare.
  destruct (Prim2SF x) as [[]|[]| |[] mx ex], (Prim2SF y) as [[]|[]| |[] my ey];
    simpl; congruence.
Qed.

(** [Math.min(x, 30000)] is NaN or at most 30000. *)
Lemma capped_delay_le (x : JS.number) :
  JS.isNaN (JS.Math_min_number x 30000%float) = true
  \/ PrimFloat.leb (JS.Math_min_number x 30000%float) 30000%float = true.
Proof.
  unfold JS.Math_min_number. change (JS.isNaN 30000%float) with false.
  rewrite orb_false_r. destruct (JS.isNaN x) eqn:Hx; [left; reflexivity|].
  right.
  destruct (PrimFloat.ltb x 30000%float) eqn:Hlt;
    [apply leb_of_not_gt; [exact Hx|reflexivity|apply ltb_asym, Hlt]|].
  destruct (PrimFloat.ltb 30000%float x) eqn:Hgt; [reflexivity|].
  destruct (PrimFloat.classify x);
    try (apply leb_of_not_gt; [exact Hx|reflexivity|exact Hgt]); reflexivity.
Qed.

(** ** Reconnection *)

Lemma scheduleReconnect_bounded options attempts c :
  JS.Math_ceil (Reconnect.maxReconnectAttempts options) = JS.Int c ->
  0 <= attempts <= Z.max 0 c ->
  let '(attempts', delay) := Reconnect.scheduleReconnect options attempts in
  0 <= attempts' <= Z.max 0 c
  /\ match delay with
     | Some d =>
         exists attempt,
           1 <= attempt <= c /\ d = Reconnect.delayOf options attempt
     | None => True
     end.
Proof.
  intros Hc H. unfold Reconnect.scheduleReconnect, JS.count_ge. rewrite Hc.
  destruct (Z.leb_spec c attempts).
  - split; [exact H|exact I].
  - unfold JS.count_succ. split; [lia|].
    eexists. split; [|reflexivity]. lia.
Qed.

Lemma run_bounded options events c :
  JS.Math_ceil (Reconnect.maxReconnectAttempts options) = JS.Int c ->
  forall attempts,
    0 <= attempts <= Z.max 0 c ->
    0 <= fst (Reconnect.run options events attempts) <= Z.max 0 c
    /\ Forall (fun d =>
                exists attempt,
                  1 <= attempt <= c /\ d = Reconnect.delayOf options attempt)
              (snd (Reconnect.run options events attempts)).
Proof.
  intros Hc.
  induction events as [|e events IH]; intros attempts H; simpl.
  - split; [exact H|constructor].
  - assert (Hstep :
      let '(attempts', delay) := Reconnect.handle options e attempts in
      0 <= attempts' <= Z.max 0 c
      /\ match delay with
         | Some d =>
             exists attempt,
               1 <= attempt <= c /\ d = Reconnect.delayOf options attempt
         | None => True
         end).
    { destruct e as [|clean| |]; simpl.
      - split; [lia|exact I].
      - destruct (negb clean && JS.count_lt attempts _).
        + apply scheduleReconnect_bounded; assumption.
        + split; [exact H|exact I].
      - apply scheduleReconnect_bounded; assumption.
      - split; [lia|exact I]. }
    destruct (Reconnect.handle options e attempts) as [attempts' delay].
    destruct Hstep as [Ha Hd]. specialize (IH attempts' Ha).
    destruct (Reconnect.run options events attempts') as [final delays].
    simpl in *. destruct IH as [Hf Hds]. split; [exact Hf|].
    destruct delay; [constructor; assumption|exact Hds].
Qed.

(** X23: for a maximum of attempts that is a finite number, whatever
    happens to the socket, the count of reconnection attempts stays between
    0 and the maximum rounded up to an integer, and every timer set has the
    delay [Math.min(interval * 2^(attempt - 1), 30000)] of an attempt
    numbered from 1 to that bound: a delay that is never above 30000 ms,
    and that is at most 30000 ms unless it is NaN. *)
Theorem reconnect_bounded options events c :
  JS.Math_ceil (Reconnect.maxReconnectAttempts options) = JS.Int c ->
  0 <= fst (Reconnect.run options events 0) <= Z.max 0 c
  /\ Forall (fun d =>
              (exists attempt,
                 1 <= attempt <= c
                 /\ d = JS.Math_min_number
                          (Reconnect.reconnectInterval options
                           * JS.pow2 (attempt - 1))%float 30000%float)
              /\ PrimFloat.ltb 30000%float d = false
              /\ (JS.isNaN d = true \/ PrimFloat.leb d 30000%float = true))
            (snd (Reconnect.run options events 0)).
Proof.
  intros Hc. destruct (run_bounded options events c Hc 0) as [Hcount Hdelays];
    [lia|].
  split; [exact Hcount|].
  eapply List.Forall_impl; [|exact Hdelays]. simpl.
  intros d (attempt & Hattempt & ->). split; [|split].
  - exists attempt. split; [exact Hattempt|reflexivity].
  - apply capped_delay.
  - apply capped_delay_le.
Qed.

Lemma reconnect_bounded_witness :
  let events :=
    [Reconnect.failed; Reconnect.closed false; Reconnect.opened;
     Reconnect.failed; Reconnect.failed; Reconnect.failed; Reconnect.failed;
     Reconnect.failed; Reconnect.failed; Reconnect.closed false] in
  0 <= fst (Reconnect.run Reconnect.defaults events 0) <= Z.max 0 5
  /\ Forall (fun d =>
              (exists attempt,
                 1 <= attempt <= 5
                 /\ d = JS.Math_min_number
                          (3000 * JS.pow2 (attempt - 1))%float 30000%float)
              /\ PrimFloat.ltb 30000%float d = false
              /\ (JS.isNaN d = true \/ PrimFloat.leb d 30000%float = true))
            (snd (Reconnect.run Reconnect.defaults events 0)).
Proof.
  apply (reconnect_bounded Reconnect.defaults). reflexivity.
Defined.

(** The delays of the default options: the interval doubles up to the cap
    and the sixth failure sets no timer. *)
Example default_backoff :
  Reconnect.run Reconnect.defaults (repeat Reconnect.failed 7) 0
  = (5, [3000%float; 6000%float; 12000%float; 24000%float; 30000%float]).
Proof. vm_compute. reflexivity. Qed.

(** A maximum that is no integer: with 2.5 the count passes it and stops
    at 3.  With NaN no close ever schedules an attempt, and a failure to
    create the socket always does. *)
Example odd_maxima :
  Reconnect.run (Reconnect.mkOptions 2.5%float 3000%float)
                (repeat Reconnect.failed 5) 0
  = (3, [3000%float; 6000%float; 12000%float])
  /\ Reconnect.run (Reconnect.mkOptions nan 3000%float)
                   (repeat (Reconnect.closed false) 3) 0
     = (0, [])
  /\ fst (Reconnect.run (Reconnect.mkOptions nan 3000%float)
                        (repeat Reconnect.failed 8) 0)
     = 8.
Proof. vm_compute. repeat split. Qed.

(** The comparisons of a count with a number agree with those of the
    doubles, on samples around the cases just shown. *)
Example count_comparisons :
  forallb (fun '(n, x) =>
             Bool.eqb (JS.count_lt n x) (JS.lt (JS.of_count n) x)
             && Bool.eqb (JS.count_ge n x) (JS.ge (JS.of_count n) x))
          [(0, 5%float); (4, 5%float); (5, 5%float); (6, 5%float);
           (2, 2.5%float); (3, 2.5%float); (0, (-0.5)%float);
           (0, 0%float); (0, nan); (7, infinity); (7, neg_infinity);
           (2 ^ 53, 9007199254740992%float); (2 ^ 53 - 1, 0x1p53%float)]
  = true.
Proof. vm_compute. reflexivity. Qed.

(** ** The order book panel *)

Lemma slice_nil {A : Type} (start end_ : JS.integral) :
  JS.slice (@nil A) start end_ = [].
Proof.
  unfold JS.slice. rewrite skipn_nil, firstn_nil. reflexivity.
Qed.

(** X24: once [updateOrderBook] has stored a book for a symbol, the panel
    of that symbol shows no row at all, whatever bids and asks were
    supplied and whatever the mock data are: both sides are empty and the
    best prices, the spread and the largest total are 0. *)
Theorem stored_book_shows_nothing
    symbol orderBook now st mockData maxEntries :
  OrderBookView.view
    (Market.orderBooks (Market.updateOrderBook symbol orderBook now st)
       !! symbol)
    mockData maxEntries
  = {| OrderBookView.limitedBids := [];
       OrderBookView.limitedAsks := [];
       OrderBookView.maxTotal := 0%float;
       OrderBookView.bestBid := 0%float;
       OrderBookView.bestAsk := 0%float;
       OrderBookView.spread := 0%float;
       OrderBookView.spreadPercent := 0%float |}.
Proof.
  rewrite updateOrderBook_books, lookup_insert_eq.
  unfold OrderBookView.view. simpl. rewrite !slice_nil. reflexivity.
Qed.

(** ** The application shell *)

Lemma addPosition_valued p now st :
  Portfolio.valued p -> Portfolio.all_valued st ->
  Portfolio.all_valued (Portfolio.addPosition p now st).
Proof.
  intros Hp Hst. unfold Portfolio.all_valued, Portfolio.addPosition.
  rewrite positions_with_positions. apply Forall_app. split; [exact Hst|].
  constructor; [exact Hp|constructor].
Qed.

Lemma loadData_valued holdings now :
  forall st,
    Portfolio.all_valued st ->
    Portfolio.all_valued (App.loadData holdings now st).
Proof.
  unfold App.loadData.
  induction holdings as [|h holdings IH]; intros st Hst; simpl; [exact Hst|].
  apply IH, addPosition_valued; [reflexivity|exact Hst].
Qed.

(** X25: in every state the application drives the store into (loading
    the generated holdings, adding assets from the dialog, publishing price
    maps, submitting orders, reporting the connection) every position has
    [totalValue = amount * currentPrice]: the callers of [addPosition]
    compute the value themselves, from the same quantity and price. *)
Theorem driven_states_valued st :
  App.driven st -> Portfolio.all_valued st.
Proof.
  induction 1 as [now|holdings now st _ IH|asset id now st _ IH
                  |prices now st _ IH|trade orderData id now st _ IH
                  |status st _ IH].
  - constructor.
  - apply loadData_valued, IH.
  - apply addPosition_valued; [reflexivity|exact IH].
  - unfold Portfolio.all_valued, Portfolio.updatePrices in *.
    rewrite positions_with_positions.
    rewrite List.Forall_forall in *. intros p Hp.
    apply in_map_iff in Hp. destruct Hp as (q & <- & Hq).
    apply reprice_valued. auto.
  - unfold Portfolio.all_valued, App.submitOrder in *. simpl.
    apply tradeFirst_valued. exact IH.
  - exact IH.
Qed.

Lemma driven_states_valued_witness :
  Portfolio.all_valued
    (App.submitOrder (Trade.mk "btc" 1%float 60000%float sell)
       (Order.mkData "btc" sell market 1%float None None pending)
       "order_1" 4%float
       (Portfolio.updatePrices {[ "btc" := 67000%float ]} 3%float
          (App.handleAddAsset (App.mkAsset "BTC" 2%float 50000%float) "17"
             2%float (Portfolio.initial 0%float)))).
Proof.
  apply driven_states_valued.
  apply App.driven_order, App.driven_prices, App.driven_add.
  constructor.
Defined.

(** ** A double minus itself *)

Lemma SFsub_diag (x : spec_float) :
  SF64sub x x = S754_nan \/ SF64sub x x = S754_zero false.
Proof.
  destruct x as [[]|[]| |s m e]; try (left; reflexivity);
    try (right; reflexivity).
  right. unfold SF64sub, SFsub. rewrite Z.sub_diag. reflexivity.
Qed.

Lemma sub_self_not_positive (e : JS.number) :
  JS.gt (JS.Math_abs (e - e)%float) 0%float = false.
Proof.
  unfold JS.gt, JS.Math_abs. rewrite ltb_spec, abs_spec, sub_spec.
  change (Prim2SF 0%float) with (S754_zero false).
  destruct (SFsub_diag (Prim2SF e)) as [-> | ->]; reflexivity.
Qed.

Lemma sub_self_finite (c : JS.number) :
  PrimFloat.is_finite c = true -> (c - c)%float = 0%float.
Proof.
  unfold is_finite, is_nan, is_infinity.
  rewrite !FloatAxioms.eqb_spec, abs_spec.
  change (Prim2SF infinity) with (S754_infinity false).
  intros Hfin. apply Prim2SF_inj. rewrite sub_spec.
  change (Prim2SF 0%float) with (S754_zero false).
  destruct (Prim2SF c) as [[]|[]| |s m e]; try discriminate;
    try reflexivity.
  unfold SF64sub, SFsub. rewrite Z.sub_diag. reflexivity.
Qed.

Lemma truthy_equals_itself (e : JS.number) :
  JS.truthy e = true -> PrimFloat.eqb e e = true.
Proof.
  unfold JS.truthy, JS.isNaN. destruct (PrimFloat.eqb e e); [reflexivity|].
  discriminate.
Qed.

(** ** The risk calculator *)

Lemma pushIf_nil condition message warnings :
  RiskCalculator.pushIf condition message warnings = [] ->
  condition = false /\ warnings = [].
Proof.
  unfold RiskCalculator.pushIf. destruct condition; [|tauto].
  intros H. apply app_eq_nil in H. destruct H; discriminate.
Qed.

(** X26: a calculation reported valid has no warning, and so respects
    every limit the warnings test: the entry and the stop are positive and
    different, the position size is positive, the portfolio impact is not
    above 10 percent, the risk/reward ratio is not below 1, the position is
    not worth more than half the portfolio, and the stop and the target lie
    on the right side of the entry. *)
Theorem valid_calculation_respects_limits i :
  let r := RiskCalculator.calculation i in
  RiskCalculator.isValid r = true ->
  RiskCalculator.warnings r = []
  /\ JS.gt (RiskCalculator.entryPrice r) 0%float = true
  /\ JS.gt (RiskCalculator.stopLoss r) 0%float = true
  /\ JS.differs (RiskCalculator.stopLoss r) (RiskCalculator.entryPrice r)
     = true
  /\ JS.gt (RiskCalculator.positionSize r) 0%float = true
  /\ JS.gt (RiskCalculator.portfolioImpact r) 10%float = false
  /\ JS.lt (RiskCalculator.riskRewardRatio r) 1%float = false
  /\ JS.gt (RiskCalculator.positionSize r * RiskCalculator.entryPrice r)%float
           (RiskCalculator.i_portfolioValue i * 0.5)%float = false
  /\ RiskCalculator.stopAboveEntry i = false
  /\ RiskCalculator.stopBelowEntry i = false
  /\ RiskCalculator.targetBelowEntry i = false
  /\ RiskCalculator.targetAboveEntry i = false.
Proof.
  unfold RiskCalculator.calculation.
  destruct (negb (JS.truthy (RiskCalculator.i_entryPrice i))
            || negb (JS.truthy (RiskCalculator.i_stopLoss i)));
    [simpl; discriminate|].
  match goal with
  | |- context [let '(a, b) := ?e in _] => destruct e as [size risk]
  end.
  cbn zeta. simpl. intros H.
  apply andb_prop in H as [H Hw]. apply andb_prop in H as [H Hsize].
  apply andb_prop in H as [Hentry Hstop].
  apply andb_prop in Hstop as [Hstop Hdiff].
  apply Nat.eqb_eq, length_zero_iff_nil in Hw.
  pose proof Hw as Hnil.
  apply pushIf_nil in Hw as [H7 Hw]. apply pushIf_nil in Hw as [H6 Hw].
  apply pushIf_nil in Hw as [H5 Hw]. apply pushIf_nil in Hw as [H4 Hw].
  apply pushIf_nil in Hw as [H3 Hw]. apply pushIf_nil in Hw as [H2 Hw].
  apply pushIf_nil in Hw as [H1 _].
  repeat split; assumption.
Qed.

Lemma valid_calculation_respects_limits_witness :
  let i :=
    RiskCalculator.mkInputs 100%float 90%float 130%float 0%float 2%float
      RiskCalculator.risk_based buy 100000%float in
  let r := RiskCalculator.calculation i in
  RiskCalculator.warnings r = []
  /\ JS.gt (RiskCalculator.entryPrice r) 0%float = true
  /\ JS.gt (RiskCalculator.stopLoss r) 0%float = true
  /\ JS.differs (RiskCalculator.stopLoss r) (RiskCalculator.entryPrice r)
     = true
  /\ JS.gt (RiskCalculator.positionSize r) 0%float = true
  /\ JS.gt (RiskCalculator.portfolioImpact r) 10%float = false
  /\ JS.lt (RiskCalculator.riskRewardRatio r) 1%float = false
  /\ JS.gt (RiskCalculator.positionSize r * RiskCalculator.entryPrice r)%float
           (RiskCalculator.i_portfolioValue i * 0.5)%float = false
  /\ RiskCalculator.stopAboveEntry i = false
  /\ RiskCalculator.stopBelowEntry i = false
  /\ RiskCalculator.targetBelowEntry i = false
  /\ RiskCalculator.targetAboveEntry i = false.
Proof.
  apply (valid_calculation_respects_limits
           (RiskCalculator.mkInputs 100%float 90%float 130%float 0%float
              2%float RiskCalculator.risk_based buy 100000%float)).
  reflexivity.
Defined.

(** X27: a stop loss equal to the entry price never gives a valid
    calculation.  When that price is neither 0 nor NaN, the risk-based
    method gives the position size 0, not a division by the zero risk per
    unit; when it is 0 or NaN the calculation returns early, with no risk
    amount and the position size as it was typed. *)
Theorem stop_at_entry i :
  RiskCalculator.i_stopLoss i = RiskCalculator.i_entryPrice i ->
  RiskCalculator.isValid (RiskCalculator.calculation i) = false
  /\ (JS.truthy (RiskCalculator.i_entryPrice i) = true ->
      RiskCalculator.i_calculationMethod i = RiskCalculator.risk_based ->
      JS.gt (RiskCalculator.i_riskPercent i) 0%float = true ->
      RiskCalculator.positionSize (RiskCalculator.calculation i) = 0%float
      /\ RiskCalculator.riskAmount (RiskCalculator.calculation i)
         = ((RiskCalculator.i_portfolioValue i
             * RiskCalculator.i_riskPercent i) / 100)%float)
  /\ (JS.truthy (RiskCalculator.i_entryPrice i) = false ->
      RiskCalculator.positionSize (RiskCalculator.calculation i)
      = RiskCalculator.i_positionSize i
      /\ RiskCalculator.riskAmount (RiskCalculator.calculation i)
         = 0%float).
Proof.
  intros Hstop. unfold RiskCalculator.calculation. rewrite Hstop.
  destruct (JS.truthy (RiskCalculator.i_entryPrice i)) eqn:Htruthy; simpl.
  - split; [|split; [|discriminate]].
    + match goal with
      | |- context [let '(a, b) := ?e in _] => destruct e as [size risk]
      end.
      cbn zeta. simpl. unfold JS.differs.
      rewrite (truthy_equals_itself _ Htruthy). simpl.
      rewrite !andb_false_r. reflexivity.
    + intros _ Hmethod Hrisk. rewrite Hmethod, Hrisk.
      rewrite sub_self_not_positive. split; reflexivity.
  - split; [reflexivity|]. split; [discriminate|].
    intros _. split; reflexivity.
Qed.

Lemma stop_at_entry_witness :
  let i :=
    RiskCalculator.mkInputs 100%float 100%float 130%float 0%float 2%float
      RiskCalculator.risk_based buy 100000%float in
  let j :=
    RiskCalculator.mkInputs 0%float 0%float 0%float 3%float 2%float
      RiskCalculator.risk_based buy 100000%float in
  (RiskCalculator.isValid (RiskCalculator.calculation i) = false
   /\ RiskCalculator.positionSize (RiskCalculator.calculation i) = 0%float
   /\ RiskCalculator.riskAmount (RiskCalculator.calculation i)
      = ((100000 * 2) / 100)%float)
  /\ (RiskCalculator.isValid (RiskCalculator.calculation j) = false
      /\ RiskCalculator.positionSize (RiskCalculator.calculation j)
         = 3%float
      /\ RiskCalculator.riskAmount (RiskCalculator.calculation j)
         = 0%float).
Proof.
  split.
  - destruct (stop_at_entry
                (RiskCalculator.mkInputs 100%float 100%float 130%float
                   0%float 2%float RiskCalculator.risk_based buy
                   100000%float) eq_refl) as (Hvalid & Hrisk & _).
    split; [exact Hvalid|]. apply Hrisk; reflexivity.
  - destruct (stop_at_entry
                (RiskCalculator.mkInputs 0%float 0%float 0%float 3%float
                   2%float RiskCalculator.risk_based buy 100000%float)
                eq_refl) as (Hvalid & _ & Hearly).
    split; [exact Hvalid|]. apply Hearly. reflexivity.
Defined.

(** The scenario of the specification: risking 2 percent of 100000 between
    an entry at 100 and a stop at 90 is a risk of 2000 and a position of
    200. *)
Example risk_based_scenario :
  let r :=
    RiskCalculator.calculation
      (RiskCalculator.mkInputs 100%float 90%float 0%float 0%float 2%float
         RiskCalculator.risk_based buy 100000%float) in
  RiskCalculator.riskAmount r = 2000%float
  /\ RiskCalculator.positionSize r = 200%float.
Proof. vm_compute. split; reflexivity. Qed.

(** ** The indicator calculations *)

Lemma fold_left_seq_S {B : Type} (f : B -> nat -> B) (start k : nat) (b : B) :
  fold_left f (seq start (S k)) b
  = f (fold_left f (seq start k) b) (start + k)%nat.
Proof. rewrite seq_S, fold_left_app. reflexivity. Qed.

Lemma movingAverages_rounds data k :
  Worker.averagesAfter k
    (fold_left (Worker.movingAveragesStep data) (seq 0 k) ([], [])).
Proof.
  induction k as [|k IH].
  - simpl. do 2 (split; [reflexivity|]). repeat (split; [intros; lia|]).
    intros; lia.
  - rewrite fold_left_seq_S. simpl.
    destruct (fold_left _ (seq 0 k) _) as [sma ema].
    destruct IH as (Hls & Hle & Hnull & Hsma & H19 & Hema).
    unfold Worker.movingAveragesStep. unfold JS.cell in *.
    destruct (Nat.leb_spec 19 k) as [Hk|Hk].
    + assert (H0 : (sma ++ [Some (Worker.sum
                 (JS.slice data (JS.Int (Z.of_nat k - 19))
                    (JS.Int (Z.of_nat k + 1))) / 20)%float]) !! 0%nat
                   = Some None).
      { rewrite lookup_app_l by lia. apply Hnull; lia. }
      repeat split.
      * rewrite length_app. simpl. lia.
      * rewrite length_app. simpl. lia.
      * rewrite lookup_app_l by lia. apply Hnull; lia.
      * rewrite lookup_app_l by lia. apply Hnull; lia.
      * intros i Hi H19i. destruct (decide (i = k)) as [->|Hne].
        -- eexists. apply list_lookup_middle. lia.
        -- rewrite lookup_app_l by lia. apply Hsma; lia.
      * intros Hk19. destruct (decide (k = 19%nat)) as [->|Hne].
        -- rewrite H0. simpl. apply list_lookup_middle. lia.
        -- rewrite lookup_app_l by lia. apply H19. lia.
      * intros i Hi H20. destruct (decide (i = k)) as [->|Hne].
        -- destruct (Nat.eqb_spec k 19) as [?|_]; [lia|].
           eexists. apply list_lookup_middle. lia.
        -- rewrite lookup_app_l by lia. apply Hema; lia.
    + repeat split.
      * rewrite length_app. simpl. lia.
      * rewrite length_app. simpl. lia.
      * destruct (decide (i = k)) as [->|Hne].
        -- apply list_lookup_middle. lia.
        -- rewrite lookup_app_l by lia. apply Hnull; lia.
      * destruct (decide (i = k)) as [->|Hne].
        -- apply list_lookup_middle. lia.
        -- rewrite lookup_app_l by lia. apply Hnull; lia.
      * intros i Hi H19i. lia.
      * intros Hk19. lia.
      * intros i Hi H20. lia.
Qed.

(** X28: [calculateMovingAverages] returns two arrays of the length of the
    data.  Both hold [null] at the first 19 indices; from index 19 on
    [sma20] holds numbers; [ema20] holds [null] at index 19 too (it takes
    [sma20[0]], which is [null]) and numbers from index 20 on. *)
Theorem movingAverages_shape data :
  let '(sma20, ema20) := Worker.calculateMovingAverages data in
  length sma20 = length data /\ length ema20 = length data
  /\ (forall i, (i < length data)%nat -> (i < 19)%nat ->
        sma20 !! i = Some None /\ ema20 !! i = Some None)
  /\ (forall i, (i < length data)%nat -> (19 <= i)%nat ->
        exists x, sma20 !! i = Some (Some x))
  /\ ((19 < length data)%nat -> ema20 !! 19%nat = Some None)
  /\ (forall i, (i < length data)%nat -> (20 <= i)%nat ->
        exists y, ema20 !! i = Some (Some y)).
Proof. apply (movingAverages_rounds data (length data)). Qed.

Lemma rsi_rounds data period k :
  Worker.rsiAfter period k
    (fold_left (Worker.rsiStep data period) (seq 1 k) (Worker.mkRsi [] [] [])).
Proof.
  induction k as [|k IH].
  - simpl. do 3 (split; [reflexivity|]). split; intros; lia.
  - rewrite fold_left_seq_S.
    destruct IH as (Hr & Hg & Hl & Hnull & Hnum).
    set (st := fold_left _ (seq 1 k) _) in *.
    unfold Worker.rsiAfter, Worker.rsiStep.
    cbn [Worker.rsi Worker.gains Worker.losses]. unfold JS.cell in *.
    repeat split.
    + rewrite length_app. simpl. lia.
    + rewrite length_app. simpl. lia.
    + rewrite length_app. simpl. lia.
    + intros j Hj Hp. destruct (decide (j = k)) as [->|Hne].
      * destruct (Nat.leb_spec period (1 + k)) as [?|_]; [lia|].
        apply list_lookup_middle. lia.
      * rewrite lookup_app_l by lia. apply Hnull; lia.
    + intros j Hj Hp. destruct (decide (j = k)) as [->|Hne].
      * destruct (Nat.leb_spec period (1 + k)) as [_|?]; [|lia].
        eexists. apply list_lookup_middle. lia.
      * rewrite lookup_app_l by lia. apply Hnum; lia.
Qed.

(** X29: [calculateRSI] returns an array of the length of the data, except
    for empty data, where it returns the one-element array [[null]].  The
    entry at index 0 and the entries below the period are [null]; the
    entries from the period on are numbers. *)
Theorem rsi_shape data period :
  let result := Worker.calculateRSI data period in
  length result = Nat.max 1 (length data)
  /\ result !! 0%nat = Some None
  /\ (forall i, (i < length data)%nat -> (i < period)%nat ->
        result !! i = Some None)
  /\ (forall i, (0 < i < length data)%nat -> (period <= i)%nat ->
        exists x, result !! i = Some (Some x)).
Proof.
  unfold Worker.calculateRSI.
  destruct (rsi_rounds data period (length data - 1))
    as (Hr & _ & _ & Hnull & Hnum).
  set (st := fold_left _ _ _) in *.
  split; [simpl; lia|]. split; [reflexivity|]. split.
  - intros [|j] Hi Hp; [reflexivity|]. simpl. apply Hnull; lia.
  - intros [|j] Hi Hp; [lia|]. simpl. apply Hnum; lia.
Qed.

Example rsi_of_no_data : Worker.calculateRSI [] Worker.defaultPeriod = [None].
Proof. reflexivity. Qed.

Lemma at_last (xs : list JS.number) (x : JS.number) (i : nat) :
  i = length xs -> Worker.at_ (xs ++ [x]) i = x.
Proof.
  intros ->. unfold Worker.at_. rewrite list_lookup_middle by reflexivity.
  reflexivity.
Qed.

Lemma macdStep_appends data st i :
  exists a b m s h,
    Worker.macdStep data st i
    = Worker.mkMacd (Worker.ema12 st ++ [a]) (Worker.ema26 st ++ [b])
                    (Worker.macd st ++ [m]) (Worker.signal st ++ [s])
                    (Worker.histogram st ++ [h])
    /\ (i = 0%nat -> Worker.ema12 st = [] -> Worker.ema26 st = [] ->
        Worker.signal st = [] ->
        m = (Worker.closeAt data 0 - Worker.closeAt data 0)%float
        /\ s = m /\ h = (m - m)%float).
Proof.
  unfold Worker.macdStep. do 5 eexists. split; [reflexivity|].
  intros -> -> -> ->. simpl. unfold Worker.at_. simpl. repeat split.
Qed.

Lemma macd_rounds data k :
  Worker.macdAfter data k
    (fold_left (Worker.macdStep data) (seq 0 k)
               (Worker.mkMacd [] [] [] [] [])).
Proof.
  induction k as [|k IH].
  - simpl. do 5 (split; [reflexivity|]). intros; lia.
  - rewrite fold_left_seq_S.
    destruct IH as (H12 & H26 & Hm & Hs & Hh & Hfirst).
    set (st := fold_left _ (seq 0 k) _) in *. simpl (0 + k)%nat.
    destruct (macdStep_appends data st k)
      as (a & b & m & s & h & -> & Hzero).
    unfold Worker.macdAfter.
    cbn [Worker.ema12 Worker.ema26 Worker.macd Worker.signal
         Worker.histogram].
    rewrite !length_app. simpl length. unfold JS.number in *.
    do 5 (split; [lia|]). intros _.
    destruct k as [|k].
    + apply length_zero_iff_nil in H12, H26, Hm, Hs, Hh.
      destruct (Hzero eq_refl H12 H26 Hs) as (-> & -> & ->).
      rewrite Hm, Hs, Hh. repeat split.
    + rewrite !lookup_app_l by lia. apply Hfirst. lia.
Qed.

(** X30: [calculateMACD] returns three arrays of the length of the data;
    when the first closing price is finite, the first MACD value, the
    first signal value and the first histogram value are 0. *)
Theorem macd_shape data :
  let result := Worker.calculateMACD data in
  length (Worker.macd result) = length data
  /\ length (Worker.signal result) = length data
  /\ length (Worker.histogram result) = length data
  /\ (forall c rest,
        data = c :: rest -> PrimFloat.is_finite c = true ->
        Worker.macd result !! 0%nat = Some 0%float
        /\ Worker.signal result !! 0%nat = Some 0%float
        /\ Worker.histogram result !! 0%nat = Some 0%float).
Proof.
  destruct (macd_rounds data (length data))
    as (_ & _ & Hm & Hs & Hh & Hfirst).
  do 3 (split; [assumption|]).
  intros c rest -> Hfin. specialize (Hfirst ltac:(simpl; lia)).
  unfold Worker.closeAt in Hfirst. simpl in Hfirst.
  rewrite (sub_self_finite c Hfin) in Hfirst.
  exact Hfirst.
Qed.

Lemma macd_shape_witness :
  let result :=
    Worker.calculateMACD [100%float; 101%float; 102%float; 103%float] in
  Worker.macd result !! 0%nat = Some 0%float
  /\ Worker.signal result !! 0%nat = Some 0%float
  /\ Worker.histogram result !! 0%nat = Some 0%float.
Proof.
  apply (proj2 (proj2 (proj2
           (macd_shape [100%float; 101%float; 102%float; 103%float])))
           100%float [101%float; 102%float; 103%float] eq_refl).
  reflexivity.
Defined.
